(** * SOC Pi dashboard: inventory, diff, risk and quarantine engine

    A shallow embedding of the core of [dashboard15.py] (and, where the
    older iteration is cited, of [dashboard12.py]): the risk classifier, the
    baseline diff engine, the OS-match selection of the profiler, the
    quarantine manager and the scan cycle with its offline sweep.

    Conventions of the embedding.
    - Python [str] values are Rocq strings.  The case and whitespace
      operations ([lower], [upper], [strip]) are those of Python on the
      ASCII range; characters above 127 are left alone.
    - A Python [set] of strings is a [gset string].  A dictionary is a
      [gmap] from its string keys: to dynamic values [pyval] for a device,
      a baseline entry or a profile, to strings for a quarantine record, an
      alias or the attributes of an XML element.  [d.get(k)] is [get d k].
      The device inventory, which the code iterates in insertion order, is
      an association list.
    - Fields are read at the type the program stores in them ([as_str],
      [as_list], ...).
    - Files are the values they hold; appending to the alerts file is
      appending to a list of events.  Failures of the file system are not
      modelled.
    - What the outside world answers (the discovery and profiling runs, the
      name and vendor lookups, the clock, the packet filter) is an input of
      the functions that ask for it.  [time.time()] readings are integers,
      one reading per host and one per sweep.
    - The scanner thread, the request handlers and the locks between them
      are not modelled: each function runs from start to end on the state
      it is given. *)

From Stdlib Require Import ZArith Lia Ascii String List.
From stdpp Require Import gmap strings list fin_maps sorting.

Local Open Scope string_scope.
Local Open Scope Z_scope.
Local Open Scope list_scope.

(** ** Python string helpers *)

Module Py.

(** [str.isspace] on one ASCII character: TAB, LF, VT, FF, CR, the four
    separators FS, GS, RS, US and the space. *)
Definition isspace (c : ascii) : bool :=
  let n := Z.of_N (N_of_ascii c) in
  ((9 <=? n) && (n <=? 13)) || ((28 <=? n) && (n <=? 32)).

Definition lower_char (c : ascii) : ascii :=
  let n := N_of_ascii c in
  if ((65 <=? n) && (n <=? 90))%N then ascii_of_N (n + 32) else c.

Definition upper_char (c : ascii) : ascii :=
  let n := N_of_ascii c in
  if ((97 <=? n) && (n <=? 122))%N then ascii_of_N (n - 32) else c.

Fixpoint lower (s : string) : string :=
  match s with
  | EmptyString => EmptyString
  | String c s' => String (lower_char c) (lower s')
  end.

Fixpoint upper (s : string) : string :=
  match s with
  | EmptyString => EmptyString
  | String c s' => String (upper_char c) (upper s')
  end.

Fixpoint lstrip (s : string) : string :=
  match s with
  | EmptyString => EmptyString
  | String c s' => if isspace c then lstrip s' else s
  end.

Fixpoint rstrip (s : string) : string :=
  match s with
  | EmptyString => EmptyString
  | String c s' =>
      match rstrip s' with
      | EmptyString => if isspace c then EmptyString else String c EmptyString
      | r => String c r
      end
  end.

Definition strip (s : string) : string := rstrip (lstrip s).

(** Truthiness of a string, of an optional string ([None] is falsy) and
    of a set. *)
Definition truthy (s : string) : bool := negb (bool_decide (s = "")).

Definition truthy_opt (o : option string) : bool :=
  match o with
  | Some s => truthy s
  | None => false
  end.

Definition nonempty (s : gset string) : bool := negb (bool_decide (s = ∅)).

(** [x or d] for an optional string [x]. *)
Definition or_else (o : option string) (d : string) : string :=
  match o with
  | Some s => if truthy s then s else d
  | None => d
  end.

End Py.

(** ** Configuration constants *)

Definition RISKY_PORTS_CRITICAL : gset string :=
  {[ "23"; "2323"; "3389"; "5900"; "445" ]}.

Definition RISKY_PORTS_MEDIUM : gset string :=
  {[ "22"; "21"; "8080"; "8443"; "3306"; "5432" ]}.

(** ** Risk classification *)

(** [(os_guess or "").strip().lower() in ("", "unknown")] *)
Definition os_unknown (os_guess : string) : bool :=
  let o := Py.lower (Py.strip os_guess) in
  bool_decide (o = "") || bool_decide (o = "unknown").

Definition compute_risk (open_ports : list string) (os_guess state : string)
    (quarantined : bool) : string :=
  if quarantined then "CRITICAL"
  else if bool_decide (state = "OFFLINE") then "MEDIUM"
  else
    let ps : gset string := list_to_set open_ports in
    if Py.nonempty (ps ∩ RISKY_PORTS_CRITICAL) then "CRITICAL"
    else if Py.nonempty (ps ∩ RISKY_PORTS_MEDIUM) then "MEDIUM"
    else if os_unknown os_guess then "MEDIUM"
    else "LOW".

(** The classifier of the older iteration, which has no quarantine flag. *)
Module V12.

Definition compute_risk (open_ports : list string) (os_guess state : string)
    : string :=
  if bool_decide (state = "OFFLINE") then "MEDIUM"
  else
    let ps : gset string := list_to_set open_ports in
    if Py.nonempty (ps ∩ RISKY_PORTS_CRITICAL) then "CRITICAL"
    else if Py.nonempty (ps ∩ RISKY_PORTS_MEDIUM) then "MEDIUM"
    else if os_unknown os_guess then "MEDIUM"
    else "LOW".

End V12.

(** An open port of the list lies in the set [S]. *)
Definition has_port_in (S : gset string) (open_ports : list string) : Prop :=
  ∃ p, p ∈ open_ports ∧ p ∈ S.

(** ** Dynamic values, dictionaries used as records, events *)

(** The values that occur in the fields of a device, of a baseline entry
    and of an event: [None], booleans, numbers, strings, lists of strings
    (ports, findings) and lists of string-valued dictionaries (the raw
    service descriptions). *)
Inductive pyval :=
  | VNone
  | VBool (b : bool)
  | VNum (z : Z)
  | VStr (s : string)
  | VList (l : list string)
  | VDicts (l : list (gmap string string)).

Global Instance pyval_eq_dec : EqDecision pyval.
Proof. solve_decision. Defined.

Global Instance pyval_inhabited : Inhabited pyval := populate VNone.

(** [d.get(k)] and [d.get(k, dflt)]. *)
Definition get (d : gmap string pyval) (k : string) : pyval :=
  default VNone (d !! k).

Definition get_or (d : gmap string pyval) (k : string) (dflt : pyval) : pyval :=
  default dflt (d !! k).

(** Truthiness, and the [or] operator, which returns one of its operands. *)
Definition truthy (v : pyval) : bool :=
  match v with
  | VNone => false
  | VBool b => b
  | VNum z => negb (z =? 0)
  | VStr s => Py.truthy s
  | VList l => negb (bool_decide (l = []))
  | VDicts l => negb (bool_decide (l = []))
  end.

Definition py_or (a b : pyval) : pyval := if truthy a then a else b.

(** Reading a field at the type the program stores in it. *)
Definition as_str (v : pyval) : string :=
  match v with VStr s => s | _ => "" end.

Definition as_list (v : pyval) : list string :=
  match v with VList l => l | _ => [] end.

Definition as_dicts (v : pyval) : list (gmap string string) :=
  match v with VDicts l => l | _ => [] end.

Definition as_num (v : pyval) : Z :=
  match v with VNum z => z | _ => 0 end.

Definition of_opt (o : option string) : pyval :=
  match o with Some s => VStr s | None => VNone end.

(** A formatted string literal is kept as its pieces, the literal text and
    the interpolated values. *)
Inductive piece :=
  | Lit (s : string)
  | Interp (v : pyval).

(** One line of the alerts file.  The timestamp, read from the clock when
    the line is written, is not part of the model. *)
Record event := mk_event {
  kind : string;
  severity : pyval;
  title : list piece;
  details : list (string * pyval)
}.

(** [emit_event] appends one line to the alerts file. *)
Definition emit_event (kind : string) (severity : pyval) (title : list piece)
    (details : list (string * pyval)) (alerts : list event) : list event :=
  alerts ++ [mk_event kind severity title details].

(** [if c: emit_event(...)]: a statement that writes to the alerts file
    only under a condition. *)
Definition when (c : bool) (emit : list event → list event)
    (alerts : list event) : list event :=
  if c then emit alerts else alerts.

(** [sorted(s)] for a set of strings: the elements in lexicographic order
    of their characters. *)
Definition sorted (s : gset string) : list string :=
  merge_sort String.le (elements s).

(** ** The diff engine *)

Definition diff_and_emit_events (key : string) (curr : gmap string pyval)
    (prev : option (gmap string pyval)) (alerts : list event) : list event :=
  match prev with
  | None =>
      emit_event "NEW_DEVICE" (get_or curr "risk" (VStr "INFO"))
        [Lit "New device: "; Interp (get curr "display_name")]
        [("ip", get curr "ip"); ("mac", get curr "mac");
         ("vendor", get curr "vendor"); ("zone", get curr "zone")]
        alerts
  | Some prev =>
      let alerts :=
        when (negb (bool_decide (get prev "state" = get curr "state")))
          (let sev :=
             if bool_decide (get curr "state" = VStr "OFFLINE")
             then "MEDIUM" else "INFO" in
           emit_event "STATE_CHANGE" (VStr sev)
             [Interp (get curr "display_name"); Lit " is now ";
              Interp (get curr "state")]
             [("ip", get curr "ip"); ("mac", get curr "mac");
              ("from", get prev "state"); ("to", get curr "state")])
          alerts in
      let alerts :=
        when (negb (bool_decide (get prev "risk" = get curr "risk"))
              && negb (bool_decide (get curr "state" = VStr "OFFLINE")))
          (let sev :=
             if bool_decide (get curr "risk" = VStr "CRITICAL")
             then "CRITICAL" else "MEDIUM" in
           emit_event "RISK_CHANGE" (VStr sev)
             [Lit "Risk changed for "; Interp (get curr "display_name");
              Lit ": "; Interp (get prev "risk"); Lit " → ";
              Interp (get curr "risk")]
             [("ip", get curr "ip"); ("mac", get curr "mac")])
          alerts in
      let prev_ports : gset string :=
        list_to_set (as_list (get_or prev "ports" (VList []))) in
      let curr_ports : gset string :=
        list_to_set (as_list (get_or curr "ports" (VList []))) in
      let alerts :=
        when (negb (bool_decide (prev_ports = curr_ports))
              && negb (bool_decide (get curr "state" = VStr "OFFLINE")))
          (let added := sorted (curr_ports ∖ prev_ports) in
           let removed := sorted (prev_ports ∖ curr_ports) in
           let sev :=
             if Py.nonempty (list_to_set added ∩ RISKY_PORTS_CRITICAL)
             then "CRITICAL" else "MEDIUM" in
           emit_event "PORT_CHANGE" (VStr sev)
             [Lit "Port change on "; Interp (get curr "display_name")]
             [("ip", get curr "ip"); ("mac", get curr "mac");
              ("added", VList added); ("removed", VList removed)])
          alerts in
      let alerts :=
        when (truthy (get prev "vendor") && truthy (get curr "vendor")
              && negb (bool_decide (get prev "vendor" = get curr "vendor")))
          (emit_event "VENDOR_CHANGE" (VStr "MEDIUM")
             [Lit "Vendor changed for "; Interp (get curr "display_name")]
             [("ip", get curr "ip"); ("mac", get curr "mac");
              ("from", get prev "vendor"); ("to", get curr "vendor")])
          alerts in
      let alerts :=
        when (negb (bool_decide (py_or (get prev "hostname") (VStr "")
                                 = py_or (get curr "hostname") (VStr "")))
              && truthy (get curr "hostname"))
          (emit_event "HOSTNAME_CHANGE" (VStr "INFO")
             [Lit "Hostname changed for "; Interp (get curr "display_name")]
             [("ip", get curr "ip"); ("mac", get curr "mac");
              ("from", get prev "hostname"); ("to", get curr "hostname")])
          alerts in
      let alerts :=
        when (negb (bool_decide (py_or (get prev "os") (VStr "")
                                 = py_or (get curr "os") (VStr "")))
              && negb (bool_decide (get curr "os" = VStr "")
                       || bool_decide (get curr "os" = VStr "Unknown")))
          (emit_event "OS_CHANGE" (VStr "MEDIUM")
             [Lit "OS fingerprint changed for "; Interp (get curr "display_name")]
             [("ip", get curr "ip"); ("mac", get curr "mac");
              ("from", get prev "os"); ("to", get curr "os")])
          alerts in
      alerts
  end.

(** The events of one kind among a list of events. *)
Definition of_kind (k : string) (evs : list event) : list event :=
  filter (λ e, kind e = k) evs.

(** A device or baseline entry whose only interesting field is its port
    list, for examples. *)
Definition with_ports (ports : list string) : gmap string pyval :=
  {[ "ports" := VList ports ]}.

(** The port set a record carries: [set(d.get("ports", []))]. *)
Definition port_set (d : gmap string pyval) : gset string :=
  list_to_set (as_list (get_or d "ports" (VList []))).

(** ** The profiler: reading the scan report *)

(** The XML report of one profiled host, as the element tree the code
    walks.  An element is the dictionary of its attributes; [None] means
    that [find] returned no element. *)

(** The outcome of [int(m.attrib.get("accuracy", "0"))] on one [osmatch]
    element: the attribute is absent, holds an integer, or holds text that
    [int] rejects. *)
Inductive accuracy_attr :=
  | AccAbsent
  | AccInt (z : Z)
  | AccInvalid.

Record osmatch := mk_osmatch {
  om_name : option string;
  om_accuracy : accuracy_attr
}.

Record xml_port := mk_xml_port {
  xp_attrib : gmap string string;
  xp_state : option (gmap string string);
  xp_service : option (gmap string string)
}.

Record xml_host := mk_xml_host {
  xh_hostnames : option (option (gmap string string));
  xh_addresses : list (gmap string string);
  xh_os : option (list osmatch);
  xh_ports : option (list xml_port)
}.

(** [int(...)] of the accuracy; [None] is the ValueError. *)
Definition accuracy_int (a : accuracy_attr) : option Z :=
  match a with
  | AccAbsent => Some 0
  | AccInt z => Some z
  | AccInvalid => None
  end.

(** The loop over the [osmatch] elements, from the current [best] and
    [best_acc]; [None] when a conversion raises. *)
Fixpoint best_osmatch (best : option string) (best_acc : Z)
    (ms : list osmatch) : option (option string * Z) :=
  match ms with
  | [] => Some (best, best_acc)
  | m :: ms =>
      match accuracy_int (om_accuracy m) with
      | None => None
      | Some acc =>
          if best_acc <? acc
          then best_osmatch (Some (default "" (om_name m))) acc ms
          else best_osmatch best best_acc ms
      end
  end.

(** The OS block of [nmap_profile_xml]: the new value of [os_guess], or
    [None] when the block raises. *)
Definition profile_os (os_el : option (list osmatch)) (os_guess : string)
    : option string :=
  match os_el with
  | None => Some os_guess
  | Some ms =>
      match best_osmatch None (-1) ms with
      | None => None
      | Some (best, _) =>
          Some (if Py.truthy_opt best then default "" best else os_guess)
      end
  end.

(** The address loop: the last MAC address element sets [mac] and, when it
    names one, [vendor]. *)
Fixpoint profile_addresses (addrs : list (gmap string string))
    (mac : option string) (vendor : string) : option string * string :=
  match addrs with
  | [] => (mac, vendor)
  | addr :: addrs =>
      if bool_decide (addr !! "addrtype" = Some "mac")
      then profile_addresses addrs (addr !! "addr")
             (Py.or_else (Some (default vendor (addr !! "vendor"))) vendor)
      else profile_addresses addrs mac vendor
  end.

(** [(svc.attrib.get(k) if svc is not None else "") or ""] *)
Definition service_attr (svc : option (gmap string string)) (k : string) : string :=
  match svc with
  | Some a => Py.or_else (a !! k) ""
  | None => ""
  end.

(** The port loop: open ports and their service descriptions, in document
    order. *)
Fixpoint profile_ports (ps : list xml_port)
    : list string * list (gmap string string) :=
  match ps with
  | [] => ([], [])
  | p :: ps =>
      let proto := default "tcp" (xp_attrib p !! "protocol") in
      let portid := default "" (xp_attrib p !! "portid") in
      let rest := profile_ports ps in
      match xp_state p with
      | Some st =>
          if bool_decide (st !! "state" = Some "open") then
            (portid :: rest.1,
             {[ "port" := portid; "proto" := proto;
                "name" := service_attr (xp_service p) "name";
                "product" := service_attr (xp_service p) "product";
                "version" := service_attr (xp_service p) "version";
                "extrainfo" := service_attr (xp_service p) "extrainfo" ]}
             :: rest.2)
          else rest
      | None => rest
      end
  end.

(** The dictionary a profile is returned as. *)
Definition profile_dict (mac : option string) (vendor hostname os_guess : string)
    (open_ports : list string) (services : list (gmap string string))
    : gmap string pyval :=
  {[ "mac" := of_opt mac; "vendor" := VStr vendor; "hostname" := VStr hostname;
     "os" := VStr (Py.or_else (Some os_guess) "Unknown");
     "ports" := VList open_ports; "services" := VDicts services ]}.

(** [nmap_profile_xml], given the exit code of the scanner and its parsed
    report: [doc = None] when the report does not parse, [Some None] when
    it has no host element.  An exception inside the parsing block is
    logged and the values read up to that point are returned. *)
Definition nmap_profile_xml (rc : Z) (doc : option (option xml_host))
    : gmap string pyval :=
  if negb (rc =? 0) then profile_dict None "Unknown" "" "Unknown" [] []
  else
    match doc with
    | None | Some None => profile_dict None "Unknown" "" "Unknown" [] []
    | Some (Some h0) =>
        let hostname :=
          match xh_hostnames h0 with
          | Some (Some hne) => Py.or_else (Some (default "" (hne !! "name"))) ""
          | _ => ""
          end in
        let '(mac, vendor) := profile_addresses (xh_addresses h0) None "Unknown" in
        match profile_os (xh_os h0) "Unknown" with
        | None => profile_dict mac vendor hostname "Unknown" [] []
        | Some os_guess =>
            let '(open_ports, services) :=
              match xh_ports h0 with
              | Some ps => profile_ports ps
              | None => ([], [])
              end in
            profile_dict mac vendor hostname os_guess open_ports services
        end
    end.


(** A report that holds nothing but OS candidates, for statements about
    the OS block. *)
Definition host_with_os (ms : list osmatch) : xml_host :=
  mk_xml_host None [] (Some ms) None.


(** ** The host: privileges and packet filter *)

Inductive chain := INPUT | FORWARD.

Global Instance chain_eq_dec : EqDecision chain.
Proof. solve_decision. Defined.

(** What the quarantine manager can observe of the machine it runs on:
    the effective user id, whether the [iptables] binary is found, which
    source addresses the tool accepts, the text it prints on an error, and
    for each of the two chains the sources of its [-s <ip> -j DROP] rules,
    first rule first (this is the model of the external tool: [-C] tests
    for a rule, [-I] inserts one at the head, [-D] deletes the first
    match, and a rejected source fails every command). *)
Record host := mk_host {
  euid : Z;
  iptables_found : bool;
  accepts : string → bool;
  stderr_text : string;
  input_rules : list string;
  forward_rules : list string
}.

Definition rules (c : chain) (h : host) : list string :=
  match c with
  | INPUT => input_rules h
  | FORWARD => forward_rules h
  end.

Definition set_rules (c : chain) (rs : list string) (h : host) : host :=
  match c with
  | INPUT => mk_host (euid h) (iptables_found h) (accepts h) (stderr_text h)
               rs (forward_rules h)
  | FORWARD => mk_host (euid h) (iptables_found h) (accepts h) (stderr_text h)
                 (input_rules h) rs
  end.

(** Removing the first rule for [ip]. *)
Fixpoint delete_first (ip : string) (rs : list string) : list string :=
  match rs with
  | [] => []
  | r :: rs => if bool_decide (r = ip) then rs else r :: delete_first ip rs
  end.

(** The three [iptables] invocations the code makes through [run_cmd]:
    the new host, the exit code and the error text. *)
Definition iptables_C (c : chain) (ip : string) (h : host) : host * (Z * string) :=
  if accepts h ip && bool_decide (ip ∈ rules c h)
  then (h, (0, "")) else (h, (1, stderr_text h)).

Definition iptables_I (c : chain) (ip : string) (h : host) : host * (Z * string) :=
  if accepts h ip
  then (set_rules c (ip :: rules c h) h, (0, ""))
  else (h, (2, stderr_text h)).

Definition iptables_D (c : chain) (ip : string) (h : host) : host * (Z * string) :=
  if accepts h ip && bool_decide (ip ∈ rules c h)
  then (set_rules c (delete_first ip (rules c h)) h, (0, ""))
  else (h, (1, stderr_text h)).

(** The number of DROP rules for [ip] in a chain. *)
Definition rule_count (c : chain) (ip : string) (h : host) : nat :=
  length (filter (λ r, r = ip) (rules c h)).

(** ** The quarantine manager *)

Definition iptables_rule_exists (c : chain) (ip : string) (h : host) : host * bool :=
  let '(h, (rc, _)) := iptables_C c ip h in (h, rc =? 0).

Definition ips_block_ip (ip : string) (h : host) : host * (bool * string) :=
  if negb (Py.truthy ip) then (h, (false, "Missing IP."))
  else if negb (euid h =? 0) then
    (h, (false, "Must run as root (sudo) to apply firewall rules."))
  else if negb (iptables_found h) then (h, (false, "iptables not found."))
  else
    let '(h, present) := iptables_rule_exists INPUT ip h in
    let '(h, (rc1, err1)) :=
      if negb present then iptables_I INPUT ip h else (h, (0, "")) in
    if negb (rc1 =? 0) then
      (h, (false, "iptables INPUT failed: " +:+ String.substring 0 160 err1))
    else
      let '(h, present) := iptables_rule_exists FORWARD ip h in
      let h := if negb present then (iptables_I FORWARD ip h).1 else h in
      (h, (true, "Quarantined from Pi (iptables DROP).")).

(** [n] rounds of deleting the rule from both chains. *)
Fixpoint unblock_rounds (n : nat) (ip : string) (h : host) : host :=
  match n with
  | O => h
  | S n =>
      let h := (iptables_D INPUT ip h).1 in
      let h := (iptables_D FORWARD ip h).1 in
      unblock_rounds n ip h
  end.

Definition ips_unblock_ip (ip : string) (h : host) : host * (bool * string) :=
  if negb (Py.truthy ip) then (h, (false, "Missing IP."))
  else if negb (euid h =? 0) then
    (h, (false, "Must run as root (sudo) to remove firewall rules."))
  else if negb (iptables_found h) then (h, (false, "iptables not found."))
  else (unblock_rounds 6 ip h, (true, "Unquarantined (attempted rule removal).")).

(** [mac.upper() if mac else f"IP:{ip}"] *)
Definition make_key (ip : string) (mac : option string) : string :=
  if Py.truthy_opt mac then Py.upper (default "" mac) else "IP:" +:+ ip.

(** The quarantine file: a record per key, each a dictionary of strings. *)
Definition is_quarantined (q : gmap string (gmap string string))
    (ip : string) (mac : option string) : bool :=
  if Py.truthy_opt mac && bool_decide (Py.upper (default "" mac) ∈ dom q) then true
  else if Py.truthy ip && bool_decide ("IP:" +:+ ip ∈ dom q) then true
  else false.

(** The state the enforcement calls act on: the clock as [now_ts()] reads
    it, the host, the quarantine file and the alerts file. *)
Record world := mk_world {
  now_ts : string;
  machine : host;
  quarantine : gmap string (gmap string string);
  alerts_file : list event
}.

(** A JSON reply: HTTP status, the [ok] flag and the message. *)
Record reply := mk_reply {
  status : Z;
  ok : bool;
  msg : string
}.

(** The handler of [/api/ips/quarantine], once the login check has
    passed; [body] is the JSON object of the request, its values strings. *)
Definition api_ips_quarantine (body : gmap string string) (w : world)
    : world * reply :=
  let ip := Py.strip (Py.or_else (body !! "ip") "") in
  let mac := Py.strip (Py.or_else (body !! "mac") "") in
  let reason := Py.strip (Py.or_else (body !! "reason") "manual") in
  if negb (Py.truthy ip) && negb (Py.truthy mac) then
    (w, mk_reply 400 false "Missing ip/mac")
  else
    let key := if Py.truthy mac then Py.upper mac else "IP:" +:+ ip in
    if negb (Py.truthy ip) then
      let q := <[ key := {[ "ts" := now_ts w; "ip" := ""; "mac" := mac;
                            "reason" := reason;
                            "note" := "MAC-only; block at router/AP for full enforcement" ]} ]>
                 (quarantine w) in
      let alerts :=
        emit_event "IPS_QUARANTINED" (VStr "MEDIUM")
          [Lit "Quarantine recorded (MAC-only): "; Interp (VStr mac)]
          [("mac", VStr mac); ("note", VStr "Block at router/AP recommended")]
          (alerts_file w) in
      (mk_world (now_ts w) (machine w) q alerts,
       mk_reply 200 true
         "Recorded quarantine (MAC-only). Block at router/AP recommended.")
    else
      let '(h, (blocked, m)) := ips_block_ip ip (machine w) in
      if negb blocked then
        let alerts :=
          emit_event "IPS_QUARANTINE_FAILED" (VStr "MEDIUM")
            [Lit "Quarantine failed for "; Interp (VStr (Py.or_else (Some ip) mac))]
            [("msg", VStr m)] (alerts_file w) in
        (mk_world (now_ts w) h (quarantine w) alerts, mk_reply 400 false m)
      else
        let q := <[ key := {[ "ts" := now_ts w; "ip" := ip; "mac" := mac;
                              "reason" := reason ]} ]> (quarantine w) in
        let alerts :=
          emit_event "IPS_QUARANTINED" (VStr "MEDIUM")
            [Lit "Quarantined "; Interp (VStr ip); Lit " (Pi firewall)"]
            [("ip", VStr ip); ("mac", VStr mac); ("reason", VStr reason);
             ("note", VStr "To fully remove device, block at router/AP")]
            (alerts_file w) in
        (mk_world (now_ts w) h q alerts,
         mk_reply 200 true "Quarantined from Pi (iptables DROP).").

(** The handler of [/api/ips/unquarantine]. *)
Definition api_ips_unquarantine (body : gmap string string) (w : world)
    : world * reply :=
  let ip := Py.strip (Py.or_else (body !! "ip") "") in
  let mac := Py.strip (Py.or_else (body !! "mac") "") in
  if negb (Py.truthy ip) && negb (Py.truthy mac) then
    (w, mk_reply 400 false "Missing ip/mac")
  else
    let key := if Py.truthy mac then Py.upper mac else "IP:" +:+ ip in
    let '(h, (unblocked, m)) :=
      if Py.truthy ip then ips_unblock_ip ip (machine w)
      else (machine w, (true, "Removed record (MAC-only).")) in
    let q := delete key (quarantine w) in
    let alerts :=
      emit_event "IPS_UNQUARANTINED" (VStr "INFO")
        [Lit "Unquarantined "; Interp (VStr (Py.or_else (Some ip) mac))]
        [("ip", VStr ip); ("mac", VStr mac)] (alerts_file w) in
    (mk_world (now_ts w) h q alerts, mk_reply 200 unblocked m).

(** The key a request names, once its identifiers are stripped. *)
Definition request_ip (body : gmap string string) : string :=
  Py.strip (Py.or_else (body !! "ip") "").

Definition request_mac (body : gmap string string) : string :=
  Py.strip (Py.or_else (body !! "mac") "").

Definition request_key (body : gmap string string) : string :=
  if Py.truthy (request_mac body) then Py.upper (request_mac body)
  else "IP:" +:+ request_ip body.

(** A machine on which blocking can succeed, and a request for it. *)
Definition root_host : host :=
  mk_host 0 true (λ _, true) "" [] [].

Definition user_host : host :=
  mk_host 1000 true (λ _, true) "" [] [].

(** The chain with a rule for [ip] put at its head unless one is there. *)
Definition ensure_rule (c : chain) (ip : string) (h : host) : host :=
  if bool_decide (ip ∈ rules c h) then h else set_rules c (ip :: rules c h) h.

(** A machine that lets a block of [ip] succeed. *)
Definition can_block (ip : string) (h : host) : Prop :=
  euid h = 0 ∧ iptables_found h = true ∧ accepts h ip = true.

(** ** Device type, findings and service strings *)

(** [sub in s] for strings. *)
Fixpoint contains (sub s : string) : bool :=
  String.prefix sub s ||
  match s with
  | EmptyString => false
  | String _ s' => contains sub s'
  end.

(** A word character of a regular expression: a letter, a digit or the
    underscore. *)
Definition is_word (c : ascii) : bool :=
  let n := Z.of_N (N_of_ascii c) in
  ((48 <=? n) && (n <=? 57)) || ((65 <=? n) && (n <=? 90))
  || ((97 <=? n) && (n <=? 122)) || (n =? 95).

(** [re.search(r"\bpi\b", s)]: the word "pi" with no word character
    before or after it; [prev_word] tells whether the character before [s]
    is a word character. *)
Fixpoint search_word_pi (prev_word : bool) (s : string) : bool :=
  match s with
  | EmptyString => false
  | String c s' =>
      (negb prev_word &&
       match s with
       | String "p" (String "i" EmptyString) => true
       | String "p" (String "i" (String c' _)) => negb (is_word c')
       | _ => false
       end)
      || search_word_pi (is_word c) s'
  end.

(** The device type: the rules in the order of the code, the first that
    matches decides. *)
Definition identify_device_type (vendor os_guess hostname : string)
    (open_ports : list string) : string :=
  let vendor_u := Py.upper (Py.or_else (Some vendor) "Unknown") in
  let os_l := Py.lower (Py.or_else (Some os_guess) "Unknown") in
  let hn_l := Py.lower (Py.or_else (Some hostname) "") in
  let port_set : gset string := list_to_set open_ports in
  if contains "RASPBERRY" vendor_u || search_word_pi false hn_l then "Raspberry Pi"
  else if contains "APPLE" vendor_u then
    if bool_decide ("62078" ∈ port_set) then "iPhone/iPad (Locked)"
    else if contains "darwin" os_l || contains "mac os" os_l || contains "macos" os_l
    then "Mac (iMac/MacBook)"
    else "Apple Device"
  else
    let tv_vendors := ["SAMSUNG"; "LG"; "SONY"; "VIZIO"; "PANASONIC"; "HISENSE"; "TCL"] in
    if existsb (λ v, contains v vendor_u) tv_vendors then "Smart TV"
    else if Py.nonempty (port_set ∩ {[ "8008"; "8009"; "1900"; "554"; "2869" ]})
    then "Smart TV / Media Player"
    else if contains "windows" os_l then "Windows Device"
    else if contains "linux" os_l then
      if bool_decide ("22" ∈ port_set) then "Linux Server / SBC" else "Linux Device"
    else "Unknown Device".

(** [list(dict.fromkeys(l))]: duplicates removed, first occurrences kept
    in their order. *)
Definition dedup (l : list string) : list string :=
  fold_left (λ acc x, if bool_decide (x ∈ acc) then acc else acc ++ [x]) l [].

(** [f"{x}"] for the result of a [get] on a dictionary of strings. *)
Definition fmt_opt (o : option string) : string := default "None" o.

(** Findings and recommendations.  [rules] lists the tests of the code in
    their order, each with the finding and the recommendation it appends;
    the findings for detected services come after them, and both lists
    lose their duplicates at the end. *)
Definition build_findings_and_recs (open_ports : list string)
    (services : list (gmap string string)) (os_guess : string)
    (quarantined : bool) : list string * list string :=
  let port_set : gset string := list_to_set open_ports in
  let has p := bool_decide (p ∈ port_set) in
  let rules : list (bool * string * string) :=
    [ (quarantined,
       "Device is quarantined by Pi firewall (iptables).",
       "If this is a rogue device, also block it at your router/AP for full removal.");
      (has "23" || has "2323",
       "Telnet exposed (unencrypted remote access).",
       "Disable Telnet; use SSH with keys and restrict by firewall.");
      (has "445",
       "SMB exposed (port 445).",
       "Restrict SMB to trusted subnets; disable SMBv1; patch Windows/Samba.");
      (has "3389",
       "RDP exposed (port 3389).",
       "Restrict RDP via firewall/VPN; enable NLA; enforce MFA if possible.");
      (has "5900",
       "VNC exposed (port 5900).",
       "Restrict VNC to LAN/VPN; require strong auth; prefer SSH tunneling.");
      (has "22",
       "SSH exposed.",
       "Use key-based auth, disable password auth, limit users, and rate-limit.");
      (has "21",
       "FTP exposed (often plaintext).",
       "Prefer SFTP/FTPS; disable FTP if not required.");
      (has "3306" || has "5432",
       "Database port exposed (MySQL/Postgres).",
       "Bind DB to localhost or trusted subnet; require auth; firewall the port.");
      (has "80" || has "8080" || has "8443",
       "HTTP/admin web port exposed (possible management UI).",
       "Disable unused admin UIs; enforce auth; patch; restrict access by IP/VLAN.");
      (os_unknown os_guess,
       "OS fingerprint is unknown (could be blocked or unusual).",
       "Allow Nmap OS detection internally; verify device manually.") ] in
  let fired := filter (λ r, r.1.1 = true) rules in
  let detected :=
    omap (λ s : gmap string string,
            let prod := Py.strip (Py.or_else (s !! "product") "") in
            let ver := Py.strip (Py.or_else (s !! "version") "") in
            if Py.truthy prod && Py.truthy ver
            then Some ("Service detected: " +:+ prod +:+ " " +:+ ver +:+ " ("
                       +:+ fmt_opt (s !! "port") +:+ "/" +:+ fmt_opt (s !! "proto")
                       +:+ ").")
            else None) services in
  (dedup (map (λ r, r.1.2) fired ++ detected), dedup (map (λ r, r.2) fired)).

(** One display string per service description. *)
Definition service_strings (services : list (gmap string string)) : list string :=
  map (λ s : gmap string string,
         let bits := [fmt_opt (s !! "port") +:+ "/" +:+ fmt_opt (s !! "proto");
                      default "" (s !! "name")] in
         let pv := Py.strip (String.concat " " [default "" (s !! "product");
                                                default "" (s !! "version")]) in
         let bits := if Py.truthy pv then bits ++ [pv] else bits in
         let bits :=
           if Py.truthy_opt (s !! "extrainfo")
           then bits ++ ["(" +:+ default "" (s !! "extrainfo") +:+ ")"] else bits in
         Py.strip (String.concat " " (filter (λ b, Py.truthy b = true) bits)))
      services.

(** ** Aliases *)

(** [a or b] for two dictionaries. *)
Definition dict_or {V} (a b : gmap string V) : gmap string V :=
  if bool_decide (a = ∅) then b else a.

(** The alias of a device, looked up by its key and then by its hardware
    address, sets five fields of the record. *)
Definition apply_alias (key : string) (d : gmap string pyval)
    (aliases : gmap string (gmap string string)) : gmap string pyval :=
  let a := dict_or (default ∅ (aliases !! key)) ∅ in
  let a :=
    if truthy (get d "mac") then
      dict_or a
        (dict_or (default ∅ (aliases !! Py.upper (as_str (get d "mac"))))
           (dict_or (default ∅ (aliases !! Py.lower (as_str (get d "mac")))) ∅))
    else a in
  let name := Py.or_else (a !! "name") (Py.or_else (a !! "alias") "") in
  let d := <[ "alias" := VStr name ]> d in
  let d := <[ "zone" := VStr (default "" (a !! "zone")) ]> d in
  let d := <[ "owner" := VStr (default "" (a !! "owner")) ]> d in
  let d := <[ "notes" := VStr (default "" (a !! "notes")) ]> d in
  <[ "display_name" :=
       py_or (VStr name) (py_or (get d "hostname") (py_or (get d "ip") (VStr "Device"))) ]> d.

(** ** The scan cycle *)

(** The settings read from the environment. *)
Record config := mk_config {
  NETWORK_CIDR : string;
  PROFILE_TTL_SEC : Z;
  OFFLINE_AFTER_SEC : Z
}.

(** What the outside world answers while one discovered host is handled:
    the entry of the discovery result, the clock, the exit code and report
    of the profiling run (consulted only when a profile is due), the
    reverse name lookup, the vendor lookup, and the quarantine file as it
    is when the cycle reads it. *)
Record observation := mk_observation {
  discovered : gmap string pyval;
  clock : Z;
  profile_rc : Z;
  profile_doc : option (option xml_host);
  reverse_dns : string;
  get_vendor : string;
  quarantine_file : gmap string (gmap string string)
}.

(** The inventory is iterated in insertion order, so it is kept as an
    association list; storing under a key that is present keeps its
    place. *)
Fixpoint inv_get (k : string) (inv : list (string * gmap string pyval))
    : option (gmap string pyval) :=
  match inv with
  | [] => None
  | (k', d) :: inv => if bool_decide (k' = k) then Some d else inv_get k inv
  end.

Fixpoint inv_set (k : string) (d : gmap string pyval)
    (inv : list (string * gmap string pyval)) : list (string * gmap string pyval) :=
  match inv with
  | [] => [(k, d)]
  | (k', d') :: inv =>
      if bool_decide (k' = k) then (k, d) :: inv else (k', d') :: inv_set k d inv
  end.

(** The state of the scanner thread: the live inventory, the baseline
    (the variable and the file it is saved to) and the alerts file. *)
Record scanner := mk_scanner {
  device_inventory : list (string * gmap string pyval);
  baseline : gmap string (gmap string pyval);
  alerts : list event
}.

(** Truthiness of [d.get(k)] for a dictionary that may be absent. *)
Definition dict_truthy (o : option (gmap string pyval)) : bool :=
  match o with
  | Some d => negb (bool_decide (d = ∅))
  | None => false
  end.

Definition as_opt (v : pyval) : option string :=
  match v with VStr s => Some s | _ => None end.

(** The first part of the loop over the discovered hosts, which settles
    what is known of the host this cycle: whether it is profiled, the
    profile (fresh, or carried over from the inventory record when
    profiling is not due yet), and the vendor. *)
Definition host_profile (cfg : config) (o : observation)
    (inventory : list (string * gmap string pyval))
    : bool * gmap string pyval * pyval :=
  let host := discovered o in
  let ip := as_str (get host "ip") in
  let disc_mac := get host "mac" in
  let disc_vendor := py_or (get host "vendor") (VStr "Unknown") in
  let disc_hostname := py_or (get host "hostname") (VStr "") in
  let key_guess := make_key ip (as_opt disc_mac) in
  let existing := inv_get key_guess inventory in
  let do_profile :=
    if dict_truthy existing then
      let last_prof :=
        as_num (get_or (default ∅ existing) "last_profile_epoch" (VNum 0)) in
      PROFILE_TTL_SEC cfg <=? clock o - last_prof
    else true in
  let prof : gmap string pyval :=
    {[ "mac" := disc_mac; "vendor" := disc_vendor; "hostname" := disc_hostname;
       "os" := VStr "Unknown"; "ports" := VList []; "services" := VDicts [] ]} in
  let prof :=
    if do_profile then nmap_profile_xml (profile_rc o) (profile_doc o) ∪ prof
    else if dict_truthy existing then
      let e := default ∅ existing in
      let prof := <[ "os" := get_or e "os" (VStr "Unknown") ]> prof in
      let prof := <[ "ports" := get_or e "ports" (VList []) ]> prof in
      let prof := <[ "services" := get_or e "services_raw" (VDicts []) ]> prof in
      <[ "hostname" := py_or (get_or e "hostname" disc_hostname) disc_hostname ]> prof
    else prof in
  let prof :=
    if negb (truthy (get prof "hostname")) && Py.truthy (reverse_dns o)
    then <[ "hostname" := VStr (reverse_dns o) ]> prof else prof in
  let vendor_final := py_or (get prof "vendor") (py_or disc_vendor (VStr "Unknown")) in
  let mac_final := get prof "mac" in
  let vendor_final :=
    let v := Py.lower (Py.strip (as_str vendor_final)) in
    if (bool_decide (v = "unknown") || bool_decide (v = "unknown vendor")
        || bool_decide (v = "")) && truthy mac_final
    then VStr (get_vendor o) else vendor_final in
  (do_profile, prof, vendor_final).

(** The address of the observed host and the key its record is stored
    under: [make_key(ip, mac_final)]. *)
Definition host_ip (o : observation) : string :=
  as_str (get (discovered o) "ip").

Definition host_key (cfg : config) (o : observation)
    (inventory : list (string * gmap string pyval)) : string :=
  make_key (host_ip o) (as_opt (get (host_profile cfg o inventory).1.2 "mac")).

(** The body of the loop over the discovered hosts.  [now_full] and
    [now_hms] are the two renderings of the time the cycle started; the
    two counters are [new_devices] and [critical_devices]. *)
Definition scan_host (cfg : config) (aliases : gmap string (gmap string string))
    (now_full now_hms : string) (o : observation)
    (st : scanner * (Z * Z)) : scanner * (Z * Z) :=
  let '(sc, (new_devices, critical_devices)) := st in
  let ip := as_str (get (discovered o) "ip") in
  let existing :=
    inv_get (make_key ip (as_opt (get (discovered o) "mac"))) (device_inventory sc) in
  let '(do_profile, prof, vendor_final) := host_profile cfg o (device_inventory sc) in
  let mac_final := get prof "mac" in
  let open_ports := as_list (py_or (get_or prof "ports" (VList [])) (VList [])) in
  let services_raw := as_dicts (py_or (get_or prof "services" (VDicts [])) (VDicts [])) in
  let services_str := service_strings services_raw in
  let key := make_key ip (as_opt mac_final) in
  let qd := is_quarantined (quarantine_file o) ip (as_opt mac_final) in
  let state := "ONLINE" in
  let dev_type :=
    identify_device_type (as_str vendor_final)
      (as_str (get_or prof "os" (VStr "Unknown")))
      (as_str (get_or prof "hostname" (VStr ""))) open_ports in
  let risk :=
    compute_risk open_ports (as_str (get_or prof "os" (VStr "Unknown"))) state qd in
  let critical_devices :=
    if bool_decide (risk = "CRITICAL") then critical_devices + 1 else critical_devices in
  let '(findings, recs) :=
    build_findings_and_recs open_ports services_raw
      (as_str (get_or prof "os" (VStr "Unknown"))) qd in
  let baseline_prev := baseline sc !! key in
  let first_seen :=
    if dict_truthy baseline_prev then get (default ∅ baseline_prev) "first_seen"
    else VNone in
  let '(first_seen, new_devices) :=
    if negb (truthy first_seen) then (VStr now_full, new_devices + 1)
    else (first_seen, new_devices) in
  let device : gmap string pyval :=
    list_to_map
      [ ("key", VStr key); ("ip", VStr ip); ("mac", mac_final);
        ("vendor", vendor_final);
        ("hostname", py_or (get prof "hostname") (VStr ""));
        ("os", py_or (get prof "os") (VStr "Unknown"));
        ("type", VStr dev_type); ("state", VStr "ONLINE");
        ("quarantined", VBool qd); ("risk", VStr risk);
        ("ports", VList open_ports); ("services_raw", VDicts services_raw);
        ("services", VList services_str); ("findings", VList findings);
        ("recommendations", VList recs); ("first_seen", first_seen);
        ("last_seen", VStr now_hms); ("last_seen_epoch", VNum (clock o));
        ("last_profile_epoch",
         if do_profile then VNum (clock o)
         else if dict_truthy existing
              then get_or (default ∅ existing) "last_profile_epoch" (VNum (clock o))
              else VNum (clock o)) ] in
  let device := apply_alias key device aliases in
  let inventory := inv_set key device (device_inventory sc) in
  let alerts := diff_and_emit_events key device baseline_prev (alerts sc) in
  let entry : gmap string pyval :=
    list_to_map
      [ ("key", VStr key); ("mac", mac_final); ("vendor", vendor_final);
        ("hostname", get_or device "hostname" (VStr ""));
        ("os", get_or device "os" (VStr "Unknown"));
        ("type", VStr dev_type); ("risk", VStr risk); ("state", VStr "ONLINE");
        ("ports", VList open_ports); ("first_seen", first_seen);
        ("last_seen", VStr now_full); ("last_seen_epoch", VNum (clock o));
        ("zone", get_or device "zone" (VStr ""));
        ("owner", get_or device "owner" (VStr ""));
        ("alias", get_or device "alias" (VStr ""));
        ("quarantined", VBool qd) ] in
  (mk_scanner inventory (<[ key := entry ]> (baseline sc)) alerts,
   (new_devices, critical_devices)).

(** The offline test of one inventory record at clock reading [now]: the
    record as it is left, the baseline and the alerts file. *)
Definition sweep_device (cfg : config) (now : Z) (k : string)
    (d : gmap string pyval)
    (st : gmap string (gmap string pyval) * list event)
    : gmap string pyval * (gmap string (gmap string pyval) * list event) :=
  let '(baseline, alerts) := st in
  let last_epoch := as_num (get_or d "last_seen_epoch" (VNum 0)) in
  if (OFFLINE_AFTER_SEC cfg <=? now - last_epoch)
     && negb (bool_decide (get d "state" = VStr "OFFLINE")) then
    let d := <[ "state" := VStr "OFFLINE" ]> d in
    let prev := default ∅ (baseline !! k) in
    let curr :=
      <[ "risk" := get_or prev "risk" (VStr "MEDIUM") ]>
        (<[ "mac" := get d "mac" ]>
           (<[ "ip" := get d "ip" ]>
              (<[ "display_name" :=
                    get_or d "display_name" (get_or d "ip" (VStr "Device")) ]>
                 (<[ "state" := VStr "OFFLINE" ]> prev)))) in
    let alerts :=
      diff_and_emit_events k curr
        (if bool_decide (prev = ∅) then None else Some prev) alerts in
    let baseline :=
      match baseline !! k with
      | Some b => <[ k := <[ "state" := VStr "OFFLINE" ]> b ]> baseline
      | None => baseline
      end in
    (d, (baseline, alerts))
  else (d, (baseline, alerts)).

(** The offline detection at the end of a cycle: every record of the
    inventory in turn. *)
Fixpoint offline_sweep (cfg : config) (now : Z)
    (inv : list (string * gmap string pyval))
    (st : gmap string (gmap string pyval) * list event)
    : list (string * gmap string pyval)
      * (gmap string (gmap string pyval) * list event) :=
  match inv with
  | [] => ([], st)
  | (k, d) :: inv =>
      let '(d, st) := sweep_device cfg now k d st in
      let '(inv, st) := offline_sweep cfg now inv st in
      ((k, d) :: inv, st)
  end.

(** The risk shown for an offline device that is not quarantined. *)
Definition offline_risk_adjust (d : gmap string pyval) : gmap string pyval :=
  if bool_decide (get d "state" = VStr "OFFLINE") && negb (truthy (get d "quarantined"))
  then <[ "risk" := VStr "MEDIUM" ]> d else d.

(** The sort key [(d.get("state") == "OFFLINE", d.get("ip", ""))] and its
    order: [False] before [True], then the addresses as strings. *)
Definition sort_key (d : gmap string pyval) : bool * string :=
  (bool_decide (get d "state" = VStr "OFFLINE"), as_str (get_or d "ip" (VStr ""))).

Definition key_le (a b : bool * string) : bool :=
  if bool_decide (a.1 = b.1) then String.leb a.2 b.2 else negb a.1.

(** A stable sort by the key: equal keys keep their order. *)
Fixpoint sort_insert (d : gmap string pyval) (l : list (gmap string pyval))
    : list (gmap string pyval) :=
  match l with
  | [] => [d]
  | d' :: l =>
      if key_le (sort_key d) (sort_key d') then d :: d' :: l
      else d' :: sort_insert d l
  end.

Definition sort_devices (l : list (gmap string pyval)) : list (gmap string pyval) :=
  foldr sort_insert [] l.

(** The snapshot a cycle publishes. *)
Record snapshot := mk_snapshot {
  snap_timestamp : string;
  snap_subnet : string;
  snap_offline_after : Z;
  snap_seen : Z;
  snap_new : Z;
  snap_critical : Z;
  snap_devices : list (gmap string pyval)
}.

(** What one cycle is given: the two renderings of its start time, the
    discovered hosts with the answers obtained for each, and the clock at
    the offline detection. *)
Record cycle_input := mk_cycle_input {
  now_full : string;
  now_hms : string;
  hosts : list observation;
  sweep_clock : Z
}.

(** One pass of the loop of [background_scanner]: the hosts, the offline
    detection, the saving of the baseline, the risk adjustment on the
    records (which are the very records of the inventory) and the
    snapshot.  The line added to the history file repeats the counts of
    the snapshot and is left out. *)
Definition scan_cycle (cfg : config) (aliases : gmap string (gmap string string))
    (inp : cycle_input) (sc : scanner) : scanner * snapshot :=
  let '(sc, (new_devices, critical_devices)) :=
    fold_left (λ st o, scan_host cfg aliases (now_full inp) (now_hms inp) o st)
      (hosts inp) (sc, (0, 0)) in
  let '(inventory, (baseline, alerts)) :=
    offline_sweep cfg (sweep_clock inp) (device_inventory sc)
      (baseline sc, alerts sc) in
  let inventory := map (λ kd, (kd.1, offline_risk_adjust kd.2)) inventory in
  let devices_list := sort_devices (map snd inventory) in
  let snap :=
    mk_snapshot (now_full inp) (NETWORK_CIDR cfg) (OFFLINE_AFTER_SEC cfg)
      (Z.of_nat (length devices_list)) new_devices
      (Z.of_nat (length (filter (λ d, get d "risk" = VStr "CRITICAL"
                                      ∧ get d "state" ≠ VStr "OFFLINE")
                           devices_list)))
      devices_list in
  (mk_scanner inventory baseline alerts, snap).

(** The scanner thread: the baseline is loaded once, the inventory starts
    empty, and the cycles follow one another. *)
Definition scanner_start (baseline_file : gmap string (gmap string pyval))
    (alerts_file : list event) : scanner :=
  mk_scanner [] baseline_file alerts_file.

Fixpoint background_scanner (cfg : config)
    (aliases : gmap string (gmap string string)) (inps : list cycle_input)
    (sc : scanner) : scanner * list snapshot :=
  match inps with
  | [] => (sc, [])
  | inp :: inps =>
      let '(sc, snap) := scan_cycle cfg aliases inp sc in
      let '(sc, snaps) := background_scanner cfg aliases inps sc in
      (sc, snap :: snaps)
  end.

(** ** Invariants of the scanner state *)

(** Every record of the inventory has a baseline entry in the same
    lifecycle state, and no key occurs twice in the inventory. *)
Definition synced (inventory : list (string * gmap string pyval))
    (baseline : gmap string (gmap string pyval)) : Prop :=
  NoDup inventory.*1 ∧
  ∀ k d, (k, d) ∈ inventory →
    ∃ b, baseline !! k = Some b ∧ b ≠ ∅ ∧ get b "state" = get d "state".

(** A record flagged as quarantined carries the risk CRITICAL. *)
Definition quarantined_critical (d : gmap string pyval) : Prop :=
  truthy (get d "quarantined") = true → get d "risk" = VStr "CRITICAL".

(** ** A small network for the examples *)

Definition example_cfg : config := mk_config "192.168.1.0/24" 300 180.

(** The host 10.0.0.5 as discovered without a hardware address, its
    profiling run failing, while the quarantine file is [q]. *)
Definition example_host (now : Z) (q : gmap string (gmap string string))
    : observation :=
  mk_observation
    {[ "ip" := VStr "10.0.0.5"; "mac" := VNone; "vendor" := VStr "Unknown";
       "hostname" := VStr "" ]}
    now 1 None "" "Unknown" q.

(** The same host discovered with its hardware address and profiled with
    port 80 open and a Linux fingerprint. *)
Definition example_host_mac (now : Z) (q : gmap string (gmap string string))
    : observation :=
  mk_observation
    {[ "ip" := VStr "10.0.0.5"; "mac" := VStr "aa:bb:cc:dd:ee:ff";
       "vendor" := VStr "Acme"; "hostname" := VStr "box" ]}
    now 0
    (Some (Some (mk_xml_host None
                   [ {[ "addrtype" := "mac"; "addr" := "aa:bb:cc:dd:ee:ff";
                        "vendor" := "Acme" ]} ]
                   (Some [mk_osmatch (Some "Linux 5.4") (AccInt 96)])
                   (Some [mk_xml_port {[ "protocol" := "tcp"; "portid" := "80" ]}
                            (Some {[ "state" := "open" ]})
                            (Some {[ "name" := "http" ]})]))))
    "" "Acme" q.

(** A quarantine file with one record, under the address key or under the
    hardware-address key. *)
Definition quarantine_by_ip : gmap string (gmap string string) :=
  {[ "IP:10.0.0.5" := {[ "ip" := "10.0.0.5"; "mac" := ""; "reason" := "manual" ]} ]}.


(** Two cycles: the host is seen at time 1000, and is not seen in the
    cycle that ends at time 2000. *)
Definition example_cycles (o : observation) : list cycle_input :=
  [ mk_cycle_input "2024-01-01 10:00:00" "10:00:00" [o] 1001;
    mk_cycle_input "2024-01-01 10:20:00" "10:20:00" [] 2000 ].

Global Instance snapshot_eq_dec : EqDecision snapshot.
Proof. solve_decision. Defined.

(** The run in which the host, quarantined under its address key, is seen
    once and then missed; the snapshot of the second cycle and the record
    it publishes. *)
Definition example_run : scanner * list snapshot :=
  background_scanner example_cfg ∅
    (example_cycles (example_host 1000 quarantine_by_ip)) (scanner_start ∅ []).

Definition example_snapshot : snapshot :=
  default (mk_snapshot "" "" 0 0 0 0 []) (example_run.2 !! 1%nat).

Definition example_record : gmap string pyval :=
  default ∅ (snap_devices example_snapshot !! 0%nat).



(** Three cycles: the host is seen, missed, and seen again at time 3000. *)
Definition example_three_cycles (o o' : observation) : list cycle_input :=
  example_cycles o ++
  [ mk_cycle_input "2024-01-01 10:50:00" "10:50:00" [o'] 3001 ].

(** ** Vocabulary for further properties of the diff engine *)

(** The kinds a diff against a baseline entry can write, in the order of
    the code. *)
Definition diff_kinds : list string :=
  ["STATE_CHANGE"; "RISK_CHANGE"; "PORT_CHANGE"; "VENDOR_CHANGE";
   "HOSTNAME_CHANGE"; "OS_CHANGE"].

(** ** Vocabulary for the published snapshot *)

(** The order of the published list: [a] may stand before [b]. *)
Definition listed_before (a b : gmap string pyval) : Prop :=
  key_le (sort_key a) (sort_key b) = true.

(** The scanner after a cycle that saw the profiled host at time 1000, the
    next cycle, which misses it, and the record that cycle publishes. *)
Definition example_seen_state : scanner :=
  (scan_cycle example_cfg ∅
     (mk_cycle_input "2024-01-01 10:00:00" "10:00:00" [example_host_mac 1000 ∅] 1001)
     (scanner_start ∅ [])).1.

Definition example_missed_cycle : cycle_input :=
  mk_cycle_input "2024-01-01 10:20:00" "10:20:00" [] 2000.

Definition example_offline_record : gmap string pyval :=
  default ∅
    (snap_devices (scan_cycle example_cfg ∅ example_missed_cycle example_seen_state).2
       !! 0%nat).



(** ** Vocabulary for the quarantine store and the firewall *)

(** The device a quarantine request names, as a scan sees it: by its
    hardware address (in any case) when the request gives one, by its
    address otherwise. *)
Definition request_names (body : gmap string string) (ip : string)
    (mac : option string) : Prop :=
  if Py.truthy (request_mac body)
  then ∃ m, mac = Some m ∧ Py.upper m = Py.upper (request_mac body)
  else ip = request_ip body.

(** [apply_quarantine_rules_from_file], run once when the service starts:
    the records of the quarantine file in the order of the file, the
    machine afterwards and the count [applied] (the log line is left
    out).  [restore_rule] is the body of its loop. *)
Definition restore_rule (st : host * Z) (item : string * gmap string string)
    : host * Z :=
  let '(h, applied) := st in
  let ip := Py.or_else (item.2 !! "ip") "" in
  if Py.truthy ip then
    let '(h, (blocked, _)) := ips_block_ip ip h in
    (h, if blocked then applied + 1 else applied)
  else (h, applied).

Definition apply_quarantine_rules_from_file
    (q : list (string * gmap string string)) (h : host) : host * Z :=
  fold_left restore_rule q (h, 0).

(** The addresses the records of the quarantine file give. *)
Definition quarantine_ips (q : list (string * gmap string string)) : list string :=
  filter (λ ip, ip ≠ "") (map (λ item, Py.or_else (item.2 !! "ip") "") q).

(** A quarantine request for the address 10.0.0.5 on a machine that allows
    the block, the host as a later scan observes it, and the record that
    scan stores. *)
Definition example_request : gmap string string := {[ "ip" := "10.0.0.5" ]}.

Definition example_world : world :=
  mk_world "2024-01-01 00:00:00" root_host ∅ [].

Definition example_host_after_request : observation :=
  example_host 1000 (quarantine (api_ips_quarantine example_request example_world).1).

Definition example_flagged_record : gmap string pyval :=
  default ∅
    (inv_get (host_key example_cfg example_host_after_request [])
       (device_inventory
          (scan_host example_cfg ∅ "2024-01-01 10:00:00" "10:00:00"
             example_host_after_request (scanner_start ∅ [], (0, 0))).1)).

(** A quarantine file of three records: two give the address 10.0.0.5,
    one was recorded by hardware address only. *)
Definition example_quarantine_items : list (string * gmap string string) :=
  [ ("IP:10.0.0.5", {[ "ip" := "10.0.0.5"; "mac" := "" ]});
    ("AA:BB:CC:DD:EE:FF", {[ "ip" := ""; "mac" := "aa:bb:cc:dd:ee:ff" ]});
    ("11:22:33:44:55:66", {[ "ip" := "10.0.0.5"; "mac" := "11:22:33:44:55:66" ]}) ].

(** ** Reading the alerts back *)

(** The Python slice [l[start:]]: a negative [start] counts from the end,
    and a start beyond either end is clipped. *)
Definition slice_from {A} (start : Z) (l : list A) : list A :=
  if start <? 0 then drop (Z.to_nat (Z.max 0 (Z.of_nat (length l) + start))) l
  else drop (Z.to_nat start) l.

(** [tail_events]: the alerts file is absent, or a list of lines, each the
    event it parses to or [None] when [json.loads] raises on it. *)
Definition tail_events (limit : Z) (file : option (list (option event)))
    : list event :=
  match file with
  | None => []
  | Some lines => omap id (reverse (slice_from (- limit) lines))
  end.

(** The handler of [/api/alerts]: [env] is the value of
    [SOCPI_ALERTS_LIMIT] and [arg] the request argument [limit], each
    when it is given and converts to an integer. *)
Definition api_alerts (env arg : option Z) (file : option (list (option event)))
    : list event :=
  let limit := default 25 env in
  let limit := default limit arg in
  tail_events (Z.max 1 (Z.min 200 limit)) file.

(** The alerts file as lines, when only [emit_event] wrote to it. *)
Definition alert_lines (alerts : list event) : option (list (option event)) :=
  Some (Some <$> alerts).

(** ** The ARP monitor *)

(** One line of the neighbour table that the pattern matches: the address
    and the hardware address as printed.  [known] maps an address to the
    hardware address last seen for it. *)
Definition arp_line (st : gmap string string * list event)
    (entry : string * string) : gmap string string * list event :=
  let '(known, alerts) := st in
  let ip := entry.1 in
  let mac := Py.lower entry.2 in
  let alerts :=
    match known !! ip with
    | Some old =>
        when (negb (bool_decide (old = mac)))
          (emit_event "IDS_ARP_SPOOF_SIGNAL" (VStr "CRITICAL")
             [Lit "ARP spoof signal: "; Interp (VStr ip); Lit " changed MAC ";
              Interp (VStr old); Lit " → "; Interp (VStr mac)]
             [("ip", VStr ip); ("old_mac", VStr old); ("new_mac", VStr mac);
              ("note", VStr "Verify with router/AP logs")])
          alerts
    | None => alerts
    end in
  (<[ ip := mac ]> known, alerts).

(** One pass of the loop: the matching lines of the table in their order,
    or [None] when no table could be read. *)
Definition arp_pass (table : option (list (string * string)))
    (st : gmap string string * list event) : gmap string string * list event :=
  match table with
  | Some entries => fold_left arp_line entries st
  | None => st
  end.

(** [ids_arp_monitor] over the tables it reads one after the other. *)
Definition ids_arp_monitor (tables : list (option (list (string * string))))
    (alerts : list event) : gmap string string * list event :=
  fold_left (λ st table, arp_pass table st) tables (∅, alerts).

(** The test that makes a line raise the signal. *)
Definition arp_changed (known : gmap string string) (entry : string * string)
    : bool :=
  match known !! entry.1 with
  | Some old => negb (bool_decide (old = Py.lower entry.2))
  | None => false
  end.

(** ** The radio sensors *)

(** The part of [radio_thread] that follows a Wi-Fi scan, and the one that
    follows a Bluetooth scan: the identifiers now in range (the [bssid]
    or [mac] of the scan results), the set of the previous scan and the
    alerts file. *)
Definition wifi_step (scan : list string) (st : gset string * list event)
    : gset string * list event :=
  let '(prev_wifi_bssids, alerts) := st in
  let bssids : gset string := list_to_set scan in
  let new := sorted (bssids ∖ prev_wifi_bssids) in
  (bssids,
   when (negb (bool_decide (new = [])))
     (emit_event "WIFI_NEW_AP" (VStr "INFO")
        [Lit "New Wi-Fi AP(s) detected: "; Interp (VNum (Z.of_nat (length new)))]
        [("bssids", VList (take 20 new))])
     alerts).

Definition bt_step (scan : list string) (st : gset string * list event)
    : gset string * list event :=
  let '(prev_bt_macs, alerts) := st in
  let macs : gset string := list_to_set scan in
  let new := sorted (macs ∖ prev_bt_macs) in
  (macs,
   when (negb (bool_decide (new = [])))
     (emit_event "BT_NEW_DEVICE" (VStr "INFO")
        [Lit "New Bluetooth device(s) detected: ";
         Interp (VNum (Z.of_nat (length new)))]
        [("macs", VList (take 20 new))])
     alerts).

(** ** The vendor lookup and its cache *)

(** What the request to the vendor service gives: an exception, or a
    response with its status code and text. *)
Inductive http_result :=
  | HttpFailed
  | HttpResponse (status_code : Z) (text : string).

Module Vendor.

(** [get_vendor]: the cache file as it is read, the outcome of the request
    (made only when the cache has no entry) and whether the cache file can
    be written; the cache file afterwards and the vendor. *)
Definition get_vendor (mac : string) (cache : gmap string string)
    (response : http_result) (writable : bool) : gmap string string * string :=
  if negb (Py.truthy mac) then (cache, "Unknown")
  else
    let mac_prefix := Py.upper (String.substring 0 8 mac) in
    match cache !! mac_prefix with
    | Some v => (cache, v)
    | None =>
        match response with
        | HttpResponse status_code text =>
            if status_code =? 200 then
              let vendor := Py.strip text in
              if Py.truthy vendor then
                if writable then (<[ mac_prefix := vendor ]> cache, vendor)
                else (cache, "Unknown")
              else (cache, "Unknown")
            else (cache, "Unknown")
        | HttpFailed => (cache, "Unknown")
        end
    end.

End Vendor.

(** ** Discovery *)

(** A [host] element of the discovery report: its [status] element, its
    [address] elements and the first [hostname] of its [hostnames]. *)
Record disc_host := mk_disc_host {
  dh_status : option (gmap string string);
  dh_addresses : list (gmap string string);
  dh_hostnames : option (option (gmap string string))
}.

(** The address loop of the discovery: [ip], [mac] and [vendor]. *)
Fixpoint discovery_addresses (addrs : list (gmap string string))
    (ip : string) (mac : option string) (vendor : string)
    : string * option string * string :=
  match addrs with
  | [] => (ip, mac, vendor)
  | addr :: addrs =>
      let ip :=
        if bool_decide (addr !! "addrtype" = Some "ipv4")
        then default "" (addr !! "addr") else ip in
      if bool_decide (addr !! "addrtype" = Some "mac")
      then discovery_addresses addrs ip (addr !! "addr")
             (Py.or_else (Some (default vendor (addr !! "vendor"))) vendor)
      else discovery_addresses addrs ip mac vendor
  end.

(** The body of the loop over the hosts: the entry to append, if any. *)
Definition discovery_host (h : disc_host) : option (gmap string pyval) :=
  match dh_status h with
  | None => None
  | Some status =>
      if negb (bool_decide (status !! "state" = Some "up")) then None
      else
        let '(ip, mac, vendor) :=
          discovery_addresses (dh_addresses h) "" None "Unknown" in
        let hostname :=
          match dh_hostnames h with
          | Some (Some hne) => default "" (hne !! "name")
          | _ => ""
          end in
        if Py.truthy ip
        then Some {[ "ip" := VStr ip; "mac" := of_opt mac;
                     "vendor" := VStr vendor; "hostname" := VStr hostname ]}
        else None
  end.

(** [nmap_discovery_xml], given the exit code of the scanner and the host
    elements of its report ([None] when the report does not parse). *)
Definition nmap_discovery_xml (rc : Z) (doc : option (list disc_host))
    : list (gmap string pyval) :=
  if negb (rc =? 0) then []
  else
    match doc with
    | None => []
    | Some hs => omap discovery_host hs
    end.

(** What it is for a step of the radio thread to report the identifiers
    that came into range: nothing is written when every identifier of the
    scan was in the previous one; otherwise one event of the given kind is
    written, whose title counts the new identifiers and whose details list
    at most twenty of them under [key], in ascending order and without
    repetition; the set kept for the next step is that of the scan. *)
Definition reports_new
    (step : list string → gset string * list event → gset string * list event)
    (kind title key : string) : Prop :=
  ∀ (scan : list string) (prev : gset string) (alerts : list event),
    (step scan (prev, alerts)).1 = list_to_set scan ∧
    ((∀ x, x ∈ scan → x ∈ prev) → (step scan (prev, alerts)).2 = alerts) ∧
    ((∃ x, x ∈ scan ∧ x ∉ prev) →
     ∃ l,
       (step scan (prev, alerts)).2
       = alerts ++
         [mk_event kind (VStr "INFO")
            [Lit title;
             Interp (VNum (Z.of_nat (size (list_to_set scan ∖ prev : gset string))))]
            [(key, VList l)]] ∧
       (length l ≤ 20)%nat ∧
       (length l = 20 ∨ length l = size (list_to_set scan ∖ prev : gset string))%nat ∧
       Sorted String.le l ∧ NoDup l ∧
       ∀ x, x ∈ l → x ∈ scan ∧ x ∉ prev) ∧
    (step scan (step scan (prev, alerts))).2 = (step scan (prev, alerts)).2.

(** A host element whose status is [up]. *)
Definition is_up (h : disc_host) : bool :=
  match dh_status h with
  | Some status => bool_decide (status !! "state" = Some "up")
  | None => false
  end.

(** ** Vocabulary for the risk levels *)

(** The three levels in ascending order. *)
Definition risk_rank (risk : string) : nat :=
  if bool_decide (risk = "CRITICAL") then 2
  else if bool_decide (risk = "MEDIUM") then 1 else 0.

(** The same observation with another outcome of the profiling run. *)
Definition with_profile (rc : Z) (doc : option (option xml_host))
    (o : observation) : observation :=
  mk_observation (discovered o) (clock o) rc doc (reverse_dns o) (get_vendor o)
    (quarantine_file o).

(** The record the scanner holds for the profiled host after the cycle at
    time 1000. *)
Definition example_known_record : gmap string pyval :=
  default ∅ (inv_get "AA:BB:CC:DD:EE:FF" (device_inventory example_seen_state)).

(** ** Well-formed records *)

(** What every record of the inventory satisfies: it carries the key it
    is stored under, which is the key of its address and hardware address;
    it has a display name that is not empty, one of the two lifecycle
    states, one of the three risk levels, a list of ports and the time it
    was last seen. *)
Definition record_ok (k : string) (d : gmap string pyval) : Prop :=
  get d "key" = VStr k ∧
  k = make_key (as_str (get d "ip")) (as_opt (get d "mac")) ∧
  truthy (get d "display_name") = true ∧
  (get d "state" = VStr "ONLINE" ∨ get d "state" = VStr "OFFLINE") ∧
  (∃ risk, get d "risk" = VStr risk ∧ risk ∈ ["LOW"; "MEDIUM"; "CRITICAL"]) ∧
  (∃ ports, get d "ports" = VList ports) ∧
  ∃ t, get d "last_seen_epoch" = VNum t.

(** ** Vocabulary for the events of the scanner *)

(** An event as the scanner writes them: one of the seven kinds of the
    diff engine, with one of four severities. *)
Definition scanner_event (e : event) : Prop :=
  kind e ∈ "NEW_DEVICE" :: diff_kinds ∧
  severity e ∈ [VStr "INFO"; VStr "LOW"; VStr "MEDIUM"; VStr "CRITICAL"].

(* ================================================================== *)
(** * Theorems *)
(* ================================================================== *)

Example compute_risk_ex1 : compute_risk ["80"; "445"] "Linux" "ONLINE" false = "CRITICAL".
Proof. vm_compute. reflexivity. Qed.

Example compute_risk_ex2 : compute_risk ["80"] " UnKnown " "ONLINE" false = "MEDIUM".
Proof. vm_compute. reflexivity. Qed.

Example compute_risk_ex3 : compute_risk ["80"] "Linux 5.4" "ONLINE" false = "LOW".
Proof. vm_compute. reflexivity. Qed.

(** ** Facts about the set tests of the classifier *)

Lemma nonempty_inter (l : list string) (S : gset string) :
  Py.nonempty (list_to_set l ∩ S) = true ↔ ∃ p, p ∈ l ∧ p ∈ S.
Proof.
  unfold Py.nonempty. rewrite negb_true_iff, bool_decide_eq_false. split.
  - intros Hne. apply set_choose_L in Hne as [p Hp]. exists p. set_solver.
  - intros (p & Hl & HS) Heq. set_solver.
Qed.

Lemma nonempty_inter_false (l : list string) (S : gset string) :
  Py.nonempty (list_to_set l ∩ S) = false ↔ ∀ p, p ∈ l → p ∉ S.
Proof.
  rewrite <- not_true_iff_false, nonempty_inter. split.
  - intros Hn p Hl HS. apply Hn. eauto.
  - intros Hall (p & Hl & HS). exact (Hall p Hl HS).
Qed.

Lemma has_port_in_true (S : gset string) (l : list string) :
  Py.nonempty (list_to_set l ∩ S) = true → has_port_in S l.
Proof. apply nonempty_inter. Qed.

Lemma has_port_in_false (S : gset string) (l : list string) :
  Py.nonempty (list_to_set l ∩ S) = false → ¬ has_port_in S l.
Proof. intros H Hin. apply nonempty_inter in Hin. congruence. Qed.

(** ** C1: precedence of the risk triggers *)

(** C1, as stated, fails: a device that is not quarantined, is OFFLINE and
    has port 445 open is classified MEDIUM, not CRITICAL. *)
Lemma C1_offline_critical_port_is_medium :
  "445" ∈ RISKY_PORTS_CRITICAL ∧
  compute_risk ["445"] "Linux" "OFFLINE" false = "MEDIUM" ∧
  compute_risk ["445"] "Linux" "OFFLINE" false ≠ "CRITICAL".
Proof.
  split; [set_solver|]. split; [vm_compute; reflexivity|].
  vm_compute. discriminate.
Qed.

(** C1 (amended): the triggers are tried in the order quarantined, OFFLINE,
    CRITICAL port, MEDIUM port, unknown OS, and the first that fires decides;
    the OFFLINE state comes second, before any port test. *)
Theorem C1_compute_risk_precedence
    (open_ports : list string) (os_guess state : string) (quarantined : bool) :
  (quarantined = true →
     compute_risk open_ports os_guess state quarantined = "CRITICAL") ∧
  (quarantined = false → state = "OFFLINE" →
     compute_risk open_ports os_guess state quarantined = "MEDIUM") ∧
  (quarantined = false → state ≠ "OFFLINE" →
   has_port_in RISKY_PORTS_CRITICAL open_ports →
     compute_risk open_ports os_guess state quarantined = "CRITICAL") ∧
  (quarantined = false → state ≠ "OFFLINE" →
   ¬ has_port_in RISKY_PORTS_CRITICAL open_ports →
   has_port_in RISKY_PORTS_MEDIUM open_ports →
     compute_risk open_ports os_guess state quarantined = "MEDIUM") ∧
  (quarantined = false → state ≠ "OFFLINE" →
   ¬ has_port_in RISKY_PORTS_CRITICAL open_ports →
   ¬ has_port_in RISKY_PORTS_MEDIUM open_ports →
   os_unknown os_guess = true →
     compute_risk open_ports os_guess state quarantined = "MEDIUM") ∧
  (quarantined = false → state ≠ "OFFLINE" →
   ¬ has_port_in RISKY_PORTS_CRITICAL open_ports →
   ¬ has_port_in RISKY_PORTS_MEDIUM open_ports →
   os_unknown os_guess = false →
     compute_risk open_ports os_guess state quarantined = "LOW").
Proof.
  unfold compute_risk, has_port_in.
  repeat split; intros; subst; try reflexivity;
    rewrite ?bool_decide_eq_false_2 by assumption;
    repeat match goal with
      | H : ¬ (∃ p, _ ∧ _) |- _ =>
          rewrite <- nonempty_inter in H; apply not_true_is_false in H;
          rewrite H
      | H : ∃ p, _ ∧ _ |- _ => rewrite <- nonempty_inter in H; rewrite H
      | H : os_unknown _ = _ |- _ => rewrite H
      end; reflexivity.
Qed.

(** The clauses of C1 at concrete inputs, one per trigger. *)
Lemma C1_compute_risk_precedence_witness :
  compute_risk ["445"] "Linux" "OFFLINE" true = "CRITICAL" ∧
  compute_risk ["445"] "Linux" "OFFLINE" false = "MEDIUM" ∧
  compute_risk ["80"; "445"] "Linux" "ONLINE" false = "CRITICAL" ∧
  compute_risk ["80"; "22"] "Linux" "ONLINE" false = "MEDIUM" ∧
  compute_risk ["80"] "Unknown" "ONLINE" false = "MEDIUM" ∧
  compute_risk ["80"] "Linux" "ONLINE" false = "LOW".
Proof.
  split.
  { destruct (C1_compute_risk_precedence ["445"] "Linux" "OFFLINE" true)
      as (H & _). apply H. reflexivity. }
  split.
  { destruct (C1_compute_risk_precedence ["445"] "Linux" "OFFLINE" false)
      as (_ & H & _). apply H; reflexivity. }
  split.
  { destruct (C1_compute_risk_precedence ["80"; "445"] "Linux" "ONLINE" false)
      as (_ & _ & H & _).
    apply H; [reflexivity | discriminate |].
    apply has_port_in_true; vm_compute; reflexivity. }
  split.
  { destruct (C1_compute_risk_precedence ["80"; "22"] "Linux" "ONLINE" false)
      as (_ & _ & _ & H & _).
    apply H; [reflexivity | discriminate | |].
    - apply has_port_in_false; vm_compute; reflexivity.
    - apply has_port_in_true; vm_compute; reflexivity. }
  split.
  { destruct (C1_compute_risk_precedence ["80"] "Unknown" "ONLINE" false)
      as (_ & _ & _ & _ & H & _).
    apply H; [reflexivity | discriminate | | |].
    - apply has_port_in_false; vm_compute; reflexivity.
    - apply has_port_in_false; vm_compute; reflexivity.
    - vm_compute; reflexivity. }
  destruct (C1_compute_risk_precedence ["80"] "Linux" "ONLINE" false)
    as (_ & _ & _ & _ & _ & H).
  apply H; [reflexivity | discriminate | | |].
  - apply has_port_in_false; vm_compute; reflexivity.
  - apply has_port_in_false; vm_compute; reflexivity.
  - vm_compute; reflexivity.
Defined.

(** The older classifier is the newer one without the quarantine flag. *)
Lemma V12_compute_risk_agrees (open_ports : list string) (os_guess state : string) :
  V12.compute_risk open_ports os_guess state =
  compute_risk open_ports os_guess state false.
Proof. reflexivity. Qed.

(** ** Sorting a set of strings *)

Lemma elem_of_sorted (s : gset string) (x : string) : x ∈ sorted s ↔ x ∈ s.
Proof.
  unfold sorted. rewrite (merge_sort_Permutation String.le (elements s)).
  apply elem_of_elements.
Qed.

Lemma Sorted_sorted (s : gset string) : Sorted String.le (sorted s).
Proof. apply (Sorted_merge_sort String.le). Qed.

Lemma NoDup_sorted (s : gset string) : NoDup (sorted s).
Proof.
  unfold sorted. rewrite (merge_sort_Permutation String.le (elements s)).
  apply NoDup_elements.
Qed.

Lemma list_to_set_sorted (s : gset string) : list_to_set (sorted s) = s.
Proof.
  apply set_eq. intros x. rewrite elem_of_list_to_set. apply elem_of_sorted.
Qed.

Example sorted_ex : sorted {[ "80"; "445"; "1000"; "22" ]} = ["1000"; "22"; "445"; "80"].
Proof. vm_compute. reflexivity. Qed.

(** ** The diff engine only appends *)

Lemma when_emit_event c k sev t d alerts :
  when c (emit_event k sev t d) alerts =
  alerts ++ (if c then [mk_event k sev t d] else []).
Proof. destruct c; cbn; [reflexivity | by rewrite app_nil_r]. Qed.

Lemma of_kind_app k evs1 evs2 :
  of_kind k (evs1 ++ evs2) = of_kind k evs1 ++ of_kind k evs2.
Proof. apply filter_app. Qed.

Lemma of_kind_one_eq k (c : bool) e :
  kind e = k → of_kind k (if c then [e] else []) = if c then [e] else [].
Proof.
  intros Hk. destruct c; [|reflexivity].
  unfold of_kind. rewrite filter_cons_True by assumption. reflexivity.
Qed.

Lemma of_kind_one_ne k (c : bool) e :
  kind e ≠ k → of_kind k (if c then [e] else []) = [].
Proof.
  intros Hk. destruct c; [|reflexivity].
  unfold of_kind. rewrite filter_cons_False by assumption. reflexivity.
Qed.

Lemma diff_and_emit_events_app key curr prev alerts :
  diff_and_emit_events key curr prev alerts =
  alerts ++ diff_and_emit_events key curr prev [].
Proof.
  destruct prev as [prev|]; [|reflexivity].
  unfold diff_and_emit_events. cbv zeta.
  rewrite !when_emit_event, <- !app_assoc. reflexivity.
Qed.

(** ** C2: a device without a baseline entry *)

(** C2: with no previous entry the diff engine writes exactly one event, of
    kind NEW_DEVICE, whose severity is the current risk of the device. *)
Theorem C2_new_device_only (key : string) (curr : gmap string pyval)
    (alerts : list event) (risk : pyval) :
  curr !! "risk" = Some risk →
  ∃ e, diff_and_emit_events key curr None alerts = alerts ++ [e] ∧
       kind e = "NEW_DEVICE" ∧ severity e = risk ∧
       of_kind "NEW_DEVICE" [e] = [e].
Proof.
  intros Hrisk. eexists. split; [reflexivity|]. cbn.
  unfold get_or. rewrite Hrisk. auto.
Qed.

Lemma C2_new_device_only_witness :
  ∃ e, diff_and_emit_events "IP:10.0.0.7"
         {[ "risk" := VStr "LOW"; "ip" := VStr "10.0.0.7" ]} None [] = [] ++ [e] ∧
       kind e = "NEW_DEVICE" ∧ severity e = VStr "LOW" ∧
       of_kind "NEW_DEVICE" [e] = [e].
Proof.
  apply (C2_new_device_only "IP:10.0.0.7"
           {[ "risk" := VStr "LOW"; "ip" := VStr "10.0.0.7" ]} [] (VStr "LOW")).
  vm_compute. reflexivity.
Defined.

(** ** C7: port changes *)

Ltac of_kind_simpl :=
  repeat match goal with
    | |- context [of_kind ?k (if ?c then [?e] else [])] =>
        first [ rewrite (of_kind_one_ne k c e) by discriminate
              | rewrite (of_kind_one_eq k c e) by reflexivity ]
    end;
  change (of_kind _ []) with (@nil event);
  rewrite ?app_nil_r; cbn [app].

Lemma port_sets_differ (pp cp : gset string) :
  (cp ∖ pp) ∪ (pp ∖ cp) ≠ ∅ ↔ pp ≠ cp.
Proof.
  split.
  - intros Hne Heq. subst. apply Hne. apply set_eq. intros x.
    rewrite elem_of_union, !elem_of_difference, elem_of_empty. tauto.
  - intros Hne Hempty. apply Hne. apply set_eq. intros x.
    assert (Hx : x ∉ (cp ∖ pp) ∪ (pp ∖ cp)) by (rewrite Hempty; apply not_elem_of_empty).
    rewrite elem_of_union, !elem_of_difference in Hx.
    destruct (decide (x ∈ pp)) as [Hp|Hp], (decide (x ∈ cp)) as [Hc|Hc]; tauto.
Qed.

(** C7: when the port sets of the baseline entry and of the current record
    differ and the current state is not OFFLINE, exactly one PORT_CHANGE
    event is written; it carries the added and the removed ports, each in
    sorted order, and is CRITICAL when an added port is a CRITICAL-risk port,
    MEDIUM otherwise.  Ports {22,80} against {22,445} give added = [445],
    removed = [80] and severity CRITICAL. *)
Theorem C7_port_change :
  (∀ (key : string) (curr prev : gmap string pyval) (alerts : list event),
     (port_set curr ∖ port_set prev) ∪ (port_set prev ∖ port_set curr) ≠ ∅ →
     get curr "state" ≠ VStr "OFFLINE" →
     ∃ evs e added removed,
       diff_and_emit_events key curr (Some prev) alerts = alerts ++ evs ∧
       of_kind "PORT_CHANGE" evs = [e] ∧
       details e = [("ip", get curr "ip"); ("mac", get curr "mac");
                    ("added", VList added); ("removed", VList removed)] ∧
       Sorted String.le added ∧ NoDup added ∧
       (∀ p, p ∈ added ↔ p ∈ port_set curr ∧ p ∉ port_set prev) ∧
       Sorted String.le removed ∧ NoDup removed ∧
       (∀ p, p ∈ removed ↔ p ∈ port_set prev ∧ p ∉ port_set curr) ∧
       (has_port_in RISKY_PORTS_CRITICAL added → severity e = VStr "CRITICAL") ∧
       (¬ has_port_in RISKY_PORTS_CRITICAL added → severity e = VStr "MEDIUM")) ∧
  of_kind "PORT_CHANGE"
    (diff_and_emit_events "K" (with_ports ["22"; "445"])
       (Some (with_ports ["22"; "80"])) []) =
    [mk_event "PORT_CHANGE" (VStr "CRITICAL")
       [Lit "Port change on "; Interp VNone]
       [("ip", VNone); ("mac", VNone);
        ("added", VList ["445"]); ("removed", VList ["80"])]].
Proof.
  split; [|vm_compute; reflexivity].
  intros key curr prev alerts Hdiff Hstate.
  apply (proj1 (port_sets_differ _ _)) in Hdiff.
  rewrite diff_and_emit_events_app.
  exists (diff_and_emit_events key curr (Some prev) []).
  set (added := sorted (port_set curr ∖ port_set prev)).
  set (removed := sorted (port_set prev ∖ port_set curr)).
  set (sev := if Py.nonempty (list_to_set added ∩ RISKY_PORTS_CRITICAL)
              then "CRITICAL" else "MEDIUM").
  exists (mk_event "PORT_CHANGE" (VStr sev)
            [Lit "Port change on "; Interp (get curr "display_name")]
            [("ip", get curr "ip"); ("mac", get curr "mac");
             ("added", VList added); ("removed", VList removed)]),
    added, removed.
  split; [reflexivity|]. split.
  - unfold diff_and_emit_events. cbv zeta.
    rewrite !when_emit_event, !of_kind_app. of_kind_simpl.
    fold (port_set prev) (port_set curr).
    rewrite (bool_decide_eq_false_2 (port_set prev = port_set curr)) by assumption.
    rewrite (bool_decide_eq_false_2 (get curr "state" = VStr "OFFLINE")) by assumption.
    reflexivity.
  - split; [reflexivity|].
    split; [apply Sorted_sorted|]. split; [apply NoDup_sorted|].
    split; [intros p; unfold added; rewrite elem_of_sorted; set_solver|].
    split; [apply Sorted_sorted|]. split; [apply NoDup_sorted|].
    split; [intros p; unfold removed; rewrite elem_of_sorted; set_solver|].
    cbn [severity]. unfold sev. split.
    + intros Hin. apply nonempty_inter in Hin. rewrite Hin. reflexivity.
    + intros Hnin.
      destruct (Py.nonempty (list_to_set added ∩ RISKY_PORTS_CRITICAL)) eqn:E;
        [|reflexivity].
      apply has_port_in_true in E. contradiction.
Qed.

(** C7 at the ports of the example, through the general statement. *)
Lemma C7_port_change_witness :
  ∃ evs e added removed,
    diff_and_emit_events "K" (with_ports ["22"; "445"])
      (Some (with_ports ["22"; "80"])) [] = [] ++ evs ∧
    of_kind "PORT_CHANGE" evs = [e] ∧
    details e = [("ip", VNone); ("mac", VNone);
                 ("added", VList added); ("removed", VList removed)] ∧
    Sorted String.le added ∧ Sorted String.le removed.
Proof.
  destruct (proj1 C7_port_change "K" (with_ports ["22"; "445"])
              (with_ports ["22"; "80"]) [])
    as (evs & e & added & removed & H1 & H2 & H3 & H4 & _ & _ & H5 & _).
  - vm_compute. discriminate.
  - vm_compute. discriminate.
  - exists evs, e, added, removed. auto.
Defined.

(** ** C9: the OS guess is the first candidate of highest confidence *)

Example best_osmatch_tie :
  best_osmatch None (-1)
    [mk_osmatch (Some "Linux 4.15") (AccInt 90);
     mk_osmatch (Some "Linux 5.4") (AccInt 95);
     mk_osmatch (Some "FreeBSD 12") (AccInt 95)] = Some (Some "Linux 5.4", 95).
Proof. reflexivity. Qed.






Example nmap_profile_xml_tie :
  get (nmap_profile_xml 0 (Some (Some (host_with_os
         [mk_osmatch (Some "Linux 4.15") (AccInt 90);
          mk_osmatch (Some "Linux 5.4") (AccInt 95);
          mk_osmatch (Some "FreeBSD 12") (AccInt 95)])))) "os" = VStr "Linux 5.4".
Proof. vm_compute. reflexivity. Qed.

(** ** The quarantine manager *)

Lemma truthy_true (s : string) : s ≠ "" → Py.truthy s = true.
Proof. intros H. unfold Py.truthy. by rewrite bool_decide_eq_false_2. Qed.

Lemma truthy_false (s : string) : s = "" → Py.truthy s = false.
Proof. intros ->. reflexivity. Qed.

Lemma rule_count_elem (c : chain) (ip : string) (h : host) :
  rule_count c ip h = 0%nat ↔ ip ∉ rules c h.
Proof.
  unfold rule_count. rewrite length_zero_iff_nil. split.
  - intros Hnil Hin.
    assert (Hf : ip ∈ filter (λ r, r = ip) (rules c h))
      by (apply list_elem_of_filter; auto).
    rewrite Hnil in Hf. inversion Hf.
  - intros Hnin. induction (rules c h) as [|r rs IH]; [reflexivity|].
    rewrite not_elem_of_cons in Hnin. destruct Hnin as [Hne Hnin].
    rewrite filter_cons_False by congruence. auto.
Qed.

Lemma ensure_rule_other (c c' : chain) (ip : string) (h : host) :
  c ≠ c' → rules c' (ensure_rule c ip h) = rules c' h.
Proof.
  intros Hne. unfold ensure_rule. case_bool_decide; [reflexivity|].
  destruct c, c'; try congruence; reflexivity.
Qed.

Lemma ensure_rule_count (c : chain) (ip : string) (h : host) :
  rule_count c ip (ensure_rule c ip h) = Nat.max 1 (rule_count c ip h).
Proof.
  unfold ensure_rule. case_bool_decide as Hin.
  - assert (rule_count c ip h ≠ 0%nat) by (rewrite rule_count_elem; tauto). lia.
  - apply rule_count_elem in Hin as Hz. rewrite Hz.
    unfold rule_count in *. destruct c; cbn [rules set_rules input_rules forward_rules] in *;
      rewrite filter_cons_True by reflexivity; cbn [length]; rewrite Hz; reflexivity.
Qed.

Lemma ensure_rule_in (c : chain) (ip : string) (h : host) :
  ip ∈ rules c (ensure_rule c ip h).
Proof.
  unfold ensure_rule. case_bool_decide; [assumption|].
  destruct c; cbn; apply list_elem_of_here.
Qed.

Lemma ensure_rule_fields (c : chain) (ip : string) (h : host) :
  euid (ensure_rule c ip h) = euid h ∧
  iptables_found (ensure_rule c ip h) = iptables_found h ∧
  accepts (ensure_rule c ip h) = accepts h.
Proof. unfold ensure_rule. case_bool_decide; destruct c; auto. Qed.

(** On a machine that allows it, blocking an address leaves one rule for
    it at the head of each chain that had none, and reports success. *)
Lemma ips_block_ip_success (ip : string) (h : host) :
  ip ≠ "" → can_block ip h →
  ips_block_ip ip h =
    (ensure_rule FORWARD ip (ensure_rule INPUT ip h),
     (true, "Quarantined from Pi (iptables DROP).")).
Proof.
  intros Hip (Hroot & Hfound & Hacc). unfold ips_block_ip.
  rewrite (truthy_true ip Hip), Hroot, Hfound. cbn [negb Z.eqb].
  unfold iptables_rule_exists, iptables_C, iptables_I, ensure_rule.
  rewrite Hacc. cbn [andb].
  destruct (bool_decide (ip ∈ rules INPUT h)) eqn:Hin; cbn [negb Z.eqb].
  - rewrite Hacc. cbn [andb].
    destruct (bool_decide (ip ∈ rules FORWARD h)); cbn [negb Z.eqb]; [reflexivity|].
    rewrite Hacc. reflexivity.
  - rewrite Hacc. cbn [negb Z.eqb].
    change (accepts (set_rules INPUT (ip :: rules INPUT h) h)) with (accepts h).
    rewrite Hacc. cbn [andb].
    destruct (bool_decide (ip ∈ rules FORWARD (set_rules INPUT (ip :: rules INPUT h) h)));
      cbn [negb Z.eqb]; [reflexivity|].
    change (accepts (set_rules INPUT (ip :: rules INPUT h) h)) with (accepts h).
    rewrite Hacc. reflexivity.
Qed.

Lemma can_block_ensure_rule (c : chain) (ip : string) (h : host) :
  can_block ip h → can_block ip (ensure_rule c ip h).
Proof.
  unfold can_block. destruct (ensure_rule_fields c ip h) as (-> & -> & ->). auto.
Qed.

(** A failed block leaves the machine as it was. *)
Lemma ips_block_ip_failure (ip : string) (h h' : host) (m : string) :
  ips_block_ip ip h = (h', (false, m)) → h' = h.
Proof.
  unfold ips_block_ip, iptables_rule_exists, iptables_C, iptables_I.
  destruct (Py.truthy ip); cbn [negb]; [|congruence].
  destruct (euid h =? 0); cbn [negb]; [|congruence].
  destruct (iptables_found h); cbn [negb]; [|congruence].
  destruct (accepts h ip) eqn:Hacc; cbn [andb].
  - destruct (bool_decide (ip ∈ rules INPUT h)); cbn [negb Z.eqb].
    + rewrite Hacc. cbn [andb].
      destruct (bool_decide (ip ∈ rules FORWARD h)); cbn [negb Z.eqb]; congruence.
    + rewrite Hacc. cbn [negb Z.eqb].
      change (accepts (set_rules INPUT (ip :: rules INPUT h) h)) with (accepts h).
      rewrite Hacc. cbn [andb].
      destruct (bool_decide (ip ∈ rules FORWARD _)); cbn [negb Z.eqb]; congruence.
  - cbn [negb Z.eqb]. rewrite Hacc. cbn [negb Z.eqb]. congruence.
Qed.


(** ** C4: quarantining the same address twice *)



Example quarantine_twice_run :
  let body : gmap string string := {[ "ip" := " 10.0.0.5 "; "reason" := "rogue" ]} in
  let w := mk_world "2024-01-01T00:00:00" root_host ∅ [] in
  let w2 := (api_ips_quarantine body (api_ips_quarantine body w).1).1 in
  input_rules (machine w2) = ["10.0.0.5"] ∧
  forward_rules (machine w2) = ["10.0.0.5"] ∧
  quarantine w2 =
    {[ "IP:10.0.0.5" :=
         {[ "ts" := "2024-01-01T00:00:00"; "ip" := "10.0.0.5"; "mac" := "";
            "reason" := "rogue" ]} ]}.
Proof.
  cbv zeta. split; [vm_compute; reflexivity|].
  split; [vm_compute; reflexivity|]. vm_compute. reflexivity.
Qed.

(** ** C5: rejected and failed quarantine requests *)

(** C5: a quarantine request without address and hardware address is
    answered with the validation error and changes nothing; and whenever
    the block of the address fails, lack of privilege and a missing
    firewall tool included, the error message of the block is returned to
    the caller with status 400 and the quarantine store is left as it was. *)
Theorem C5_quarantine_errors (body : gmap string string) (w : world) :
  (request_ip body = "" → request_mac body = "" →
     api_ips_quarantine body w = (w, mk_reply 400 false "Missing ip/mac")) ∧
  (request_ip body ≠ "" →
   ∀ (h : host) (m : string),
     ips_block_ip (request_ip body) (machine w) = (h, (false, m)) →
     (api_ips_quarantine body w).2 = mk_reply 400 false m ∧
     quarantine (api_ips_quarantine body w).1 = quarantine w ∧
     machine (api_ips_quarantine body w).1 = machine w) ∧
  (request_ip body ≠ "" → euid (machine w) ≠ 0 →
     (api_ips_quarantine body w).2 =
       mk_reply 400 false "Must run as root (sudo) to apply firewall rules." ∧
     quarantine (api_ips_quarantine body w).1 = quarantine w) ∧
  (request_ip body ≠ "" → euid (machine w) = 0 →
   iptables_found (machine w) = false →
     (api_ips_quarantine body w).2 = mk_reply 400 false "iptables not found." ∧
     quarantine (api_ips_quarantine body w).1 = quarantine w).
Proof.
  assert (Hfail : request_ip body ≠ "" →
            ∀ (h : host) (m : string),
              ips_block_ip (request_ip body) (machine w) = (h, (false, m)) →
              (api_ips_quarantine body w).2 = mk_reply 400 false m ∧
              quarantine (api_ips_quarantine body w).1 = quarantine w ∧
              machine (api_ips_quarantine body w).1 = machine w).
  { intros Hip h m Hblock.
    pose proof (ips_block_ip_failure _ _ _ _ Hblock) as ->.
    unfold api_ips_quarantine. fold (request_ip body) (request_mac body).
    rewrite (truthy_true _ Hip). cbn [negb andb].
    rewrite Hblock. cbn [negb fst snd quarantine machine]. auto. }
  split; [|split; [exact Hfail|split]].
  - intros Hip Hmac. unfold api_ips_quarantine.
    fold (request_ip body) (request_mac body). rewrite Hip, Hmac. reflexivity.
  - intros Hip Hroot.
    destruct (Hfail Hip (machine w)
                "Must run as root (sudo) to apply firewall rules.") as (? & ? & _);
      [|auto].
    unfold ips_block_ip. rewrite (truthy_true _ Hip). cbn [negb].
    apply Z.eqb_neq in Hroot. rewrite Hroot. reflexivity.
  - intros Hip Hroot Hfound.
    destruct (Hfail Hip (machine w) "iptables not found.") as (? & ? & _); [|auto].
    unfold ips_block_ip. rewrite (truthy_true _ Hip), Hroot, Hfound. reflexivity.
Qed.

Lemma C5_quarantine_errors_witness :
  api_ips_quarantine {[ "reason" := "test" ]}
    (mk_world "2024-01-01T00:00:00" root_host ∅ []) =
    (mk_world "2024-01-01T00:00:00" root_host ∅ [],
     mk_reply 400 false "Missing ip/mac") ∧
  quarantine (api_ips_quarantine {[ "ip" := "10.0.0.5" ]}
                (mk_world "2024-01-01T00:00:00" user_host ∅ [])).1 = ∅.
Proof.
  split.
  - apply (C5_quarantine_errors {[ "reason" := "test" ]}
             (mk_world "2024-01-01T00:00:00" root_host ∅ []));
      vm_compute; reflexivity.
  - destruct (C5_quarantine_errors {[ "ip" := "10.0.0.5" ]}
                (mk_world "2024-01-01T00:00:00" user_host ∅ []))
      as (_ & _ & H & _).
    apply H; vm_compute; discriminate.
Defined.

(** A failed request is still logged: it appends the failure event. *)
Example quarantine_unprivileged :
  api_ips_quarantine {[ "ip" := "10.0.0.5" ]}
    (mk_world "2024-01-01T00:00:00" user_host ∅ []) =
  (mk_world "2024-01-01T00:00:00" user_host ∅
     [mk_event "IPS_QUARANTINE_FAILED" (VStr "MEDIUM")
        [Lit "Quarantine failed for "; Interp (VStr "10.0.0.5")]
        [("msg", VStr "Must run as root (sudo) to apply firewall rules.")]],
   mk_reply 400 false "Must run as root (sudo) to apply firewall rules.").
Proof. vm_compute. reflexivity. Qed.

(** ** C6: unquarantine always clears the record *)

(** C6: an unquarantine request that names an address or a hardware
    address removes the record under its key from the quarantine store,
    whatever the machine is and whatever the removal of the firewall rules
    achieved, a refusal for lack of privilege or of the firewall tool
    included. *)
Theorem C6_unquarantine_deletes_record (body : gmap string string) (w : world) :
  request_ip body ≠ "" ∨ request_mac body ≠ "" →
  quarantine (api_ips_unquarantine body w).1 =
    delete (request_key body) (quarantine w) ∧
  quarantine (api_ips_unquarantine body w).1 !! request_key body = None ∧
  (∀ k, k ≠ request_key body →
        quarantine (api_ips_unquarantine body w).1 !! k = quarantine w !! k) ∧
  (request_ip body ≠ "" → euid (machine w) ≠ 0 →
     ok (api_ips_unquarantine body w).2 = false ∧
     machine (api_ips_unquarantine body w).1 = machine w).
Proof.
  intros Hid.
  assert (Hq : quarantine (api_ips_unquarantine body w).1 =
               delete (request_key body) (quarantine w)).
  { unfold api_ips_unquarantine. fold (request_ip body) (request_mac body).
    destruct (Py.truthy (request_ip body)) eqn:Eip;
      destruct (Py.truthy (request_mac body)) eqn:Emac; cbn [negb andb].
    - destruct (ips_unblock_ip _ _) as [h [u m]]. unfold request_key.
      rewrite Emac. reflexivity.
    - destruct (ips_unblock_ip _ _) as [h [u m]]. unfold request_key.
      rewrite Emac. reflexivity.
    - unfold request_key. rewrite Emac. reflexivity.
    - exfalso. unfold Py.truthy in Eip, Emac.
      apply negb_false_iff, bool_decide_eq_true in Eip, Emac. tauto. }
  split; [exact Hq|]. rewrite Hq.
  split; [apply lookup_delete_eq|].
  split; [intros k Hk; by apply lookup_delete_ne|].
  intros Hip Hroot. unfold api_ips_unquarantine.
  fold (request_ip body) (request_mac body).
  rewrite (truthy_true _ Hip). cbn [negb andb].
  unfold ips_unblock_ip. rewrite (truthy_true _ Hip). cbn [negb].
  apply Z.eqb_neq in Hroot. rewrite Hroot. cbn. auto.
Qed.

Lemma C6_unquarantine_deletes_record_witness :
  quarantine
    (api_ips_unquarantine {[ "ip" := "10.0.0.5" ]}
       (mk_world "2024-01-01T00:00:00" user_host
          {[ "IP:10.0.0.5" := {[ "ip" := "10.0.0.5" ]} ]} [])).1
    !! "IP:10.0.0.5" = None.
Proof.
  destruct (C6_unquarantine_deletes_record {[ "ip" := "10.0.0.5" ]}
              (mk_world "2024-01-01T00:00:00" user_host
                 {[ "IP:10.0.0.5" := {[ "ip" := "10.0.0.5" ]} ]} []))
    as (_ & H & _).
  - left. vm_compute. discriminate.
  - exact H.
Defined.

(** ** The scan cycle: one host *)

Lemma apply_alias_get (key : string) (d : gmap string pyval)
    (aliases : gmap string (gmap string string)) (k : string) :
  k ≠ "alias" → k ≠ "zone" → k ≠ "owner" → k ≠ "notes" → k ≠ "display_name" →
  get (apply_alias key d aliases) k = get d k.
Proof.
  intros. unfold apply_alias, get. cbv zeta.
  rewrite !lookup_insert_ne by congruence. reflexivity.
Qed.

(** What the loop body leaves behind for one host. *)
Lemma scan_host_spec cfg aliases nf nh o sc cnt :
  let key := host_key cfg o (device_inventory sc) in
  ∃ device entry cnt' open_ports os_guess,
    scan_host cfg aliases nf nh o (sc, cnt) =
      (mk_scanner (inv_set key device (device_inventory sc))
         (<[ key := entry ]> (baseline sc))
         (diff_and_emit_events key device (baseline sc !! key) (alerts sc)),
       cnt') ∧
    get device "state" = VStr "ONLINE" ∧
    get entry "state" = VStr "ONLINE" ∧
    entry ≠ ∅ ∧
    get device "ip" = VStr (host_ip o) ∧
    key = make_key (host_ip o) (as_opt (get device "mac")) ∧
    get device "quarantined" =
      VBool (is_quarantined (quarantine_file o) (host_ip o)
               (as_opt (get device "mac"))) ∧
    get device "risk" =
      VStr (compute_risk open_ports os_guess "ONLINE"
              (is_quarantined (quarantine_file o) (host_ip o)
                 (as_opt (get device "mac")))).
Proof.
  intros key. subst key. destruct cnt as [new crit].
  unfold scan_host, host_key, host_ip.
  destruct (host_profile cfg o (device_inventory sc)) as [[do_profile prof] vendor_final].
  cbn [fst snd].
  destruct (build_findings_and_recs _ _ _ _) as [findings recs].
  destruct (if negb (truthy _) then _ else _) as [first_seen new'].
  eexists _, _, _, _, _. split; [reflexivity|].
  split; [rewrite apply_alias_get by discriminate; reflexivity|].
  split; [reflexivity|].
  split.
  { intros Hempty.
    apply (f_equal (λ m : gmap string pyval, m !! "key")) in Hempty.
    cbn in Hempty. rewrite lookup_insert_eq in Hempty. discriminate. }
  split; [rewrite apply_alias_get by discriminate; reflexivity|].
  split; [rewrite apply_alias_get by discriminate; reflexivity|].
  split; rewrite !apply_alias_get by discriminate; reflexivity.
Qed.

(** ** State changes *)



Lemma sweep_device_fresh_noop cfg now k d st :
  now - as_num (get_or d "last_seen_epoch" (VNum 0)) < OFFLINE_AFTER_SEC cfg →
  sweep_device cfg now k d st = (d, st).
Proof.
  intros Hfresh. unfold sweep_device. destruct st as [baseline alerts].
  apply Z.leb_gt in Hfresh. rewrite Hfresh. reflexivity.
Qed.


(** ** The inventory as an association list *)

Lemma inv_get_set_eq k d inv : inv_get k (inv_set k d inv) = Some d.
Proof.
  induction inv as [|[k' d'] inv IH]; cbn.
  - by rewrite bool_decide_eq_true_2.
  - case_bool_decide as Hk; cbn.
    + by rewrite bool_decide_eq_true_2.
    + by rewrite bool_decide_eq_false_2.
Qed.

Lemma elem_of_inv_set k d inv x :
  x ∈ inv_set k d inv → x = (k, d) ∨ x ∈ inv.
Proof.
  induction inv as [|[k' d'] inv IH]; cbn.
  - intros Hx. apply list_elem_of_singleton in Hx. auto.
  - case_bool_decide as Hk; intros Hx; apply elem_of_cons in Hx as [->|Hx].
    + auto.
    + right. by apply list_elem_of_further.
    + right. apply list_elem_of_here.
    + destruct (IH Hx) as [->|Hin]; [auto|].
      right. by apply list_elem_of_further.
Qed.

Lemma inv_set_keys k d inv :
  (inv_set k d inv).*1 = if bool_decide (k ∈ inv.*1) then inv.*1 else inv.*1 ++ [k].
Proof.
  induction inv as [|[k' d'] inv IH]; cbn [inv_set].
  - rewrite bool_decide_eq_false_2; [reflexivity | apply not_elem_of_nil].
  - destruct (decide (k' = k)) as [->|Hk].
    + rewrite (bool_decide_eq_true_2 (k = k)) by reflexivity.
      rewrite bool_decide_eq_true_2; [reflexivity | apply list_elem_of_here].
    + rewrite (bool_decide_eq_false_2 (k' = k)) by assumption.
      rewrite fmap_cons, IH. cbn [fst].
      destruct (decide (k ∈ inv.*1)) as [Hin|Hin].
      * rewrite (bool_decide_eq_true_2 (k ∈ inv.*1)) by assumption.
        rewrite bool_decide_eq_true_2; [reflexivity|].
        rewrite fmap_cons. by apply list_elem_of_further.
      * rewrite (bool_decide_eq_false_2 (k ∈ inv.*1)) by assumption.
        rewrite bool_decide_eq_false_2; [reflexivity|].
        rewrite fmap_cons, not_elem_of_cons. cbn [fst].
        split; [congruence | exact Hin].
Qed.

Lemma inv_set_NoDup k d inv : NoDup inv.*1 → NoDup (inv_set k d inv).*1.
Proof.
  intros Hnd. rewrite inv_set_keys. case_bool_decide as Hin; [exact Hnd|].
  apply NoDup_app. split; [exact Hnd|]. split; [|apply NoDup_singleton].
  intros x Hx Hx'. apply list_elem_of_singleton in Hx'. subst. contradiction.
Qed.

Lemma elem_of_inv_set_NoDup k d inv k' d' :
  NoDup inv.*1 → (k', d') ∈ inv_set k d inv →
  (k' = k ∧ d' = d) ∨ (k' ≠ k ∧ (k', d') ∈ inv).
Proof.
  induction inv as [|[k0 d0] inv IH]; cbn [inv_set]; intros Hnd.
  - intros Hx. apply list_elem_of_singleton in Hx. injection Hx as -> ->. auto.
  - rewrite fmap_cons in Hnd. apply NoDup_cons in Hnd as [Hk0 Hnd]. cbn [fst] in Hk0.
    destruct (decide (k0 = k)) as [->|Hk].
    + rewrite (bool_decide_eq_true_2 (k = k)) by reflexivity.
      intros Hx. apply elem_of_cons in Hx as [Heq|Hx].
      * injection Heq as -> ->. auto.
      * right. split; [|by apply list_elem_of_further].
        intros ->. apply Hk0. apply list_elem_of_fmap. by exists (k, d').
    + rewrite (bool_decide_eq_false_2 (k0 = k)) by assumption.
      intros Hx. apply elem_of_cons in Hx as [Heq|Hx].
      * injection Heq as -> ->. right. split; [congruence | apply list_elem_of_here].
      * destruct (IH Hnd Hx) as [?|[? ?]]; [auto|].
        right. split; [assumption | by apply list_elem_of_further].
Qed.

Lemma inv_get_elem k d inv : inv_get k inv = Some d → (k, d) ∈ inv.
Proof.
  induction inv as [|[k0 d0] inv IH]; cbn; [discriminate|].
  case_bool_decide as Hk.
  - intros [= ->]. subst. apply list_elem_of_here.
  - intros Hget. apply list_elem_of_further. auto.
Qed.

Lemma elem_inv_get k d inv : NoDup inv.*1 → (k, d) ∈ inv → inv_get k inv = Some d.
Proof.
  induction inv as [|[k0 d0] inv IH]; cbn [inv_get]; intros Hnd Hin.
  - inversion Hin.
  - rewrite fmap_cons in Hnd. apply NoDup_cons in Hnd as [Hk0 Hnd]. cbn [fst] in Hk0.
    apply elem_of_cons in Hin as [Heq|Hin].
    + injection Heq as -> ->. by rewrite bool_decide_eq_true_2.
    + rewrite bool_decide_eq_false_2; [auto|].
      intros ->. apply Hk0. apply list_elem_of_fmap. by exists (k, d).
Qed.

(** ** Invariants along the cycle *)

Lemma scan_host_synced cfg aliases nf nh o sc cnt :
  synced (device_inventory sc) (baseline sc) →
  synced (device_inventory (scan_host cfg aliases nf nh o (sc, cnt)).1)
         (baseline (scan_host cfg aliases nf nh o (sc, cnt)).1).
Proof.
  intros [Hnd Hsync].
  destruct (scan_host_spec cfg aliases nf nh o sc cnt)
    as (device & entry & cnt' & ports & os & Heq & Hdev & Hent & Hne & _).
  rewrite Heq. cbn [fst device_inventory baseline]. split.
  - by apply inv_set_NoDup.
  - intros k d Hin.
    apply elem_of_inv_set_NoDup in Hin as [[-> ->]|[Hk Hin]]; [| |exact Hnd].
    + exists entry. rewrite lookup_insert_eq. split; [reflexivity|].
      split; [exact Hne | congruence].
    + rewrite lookup_insert_ne by congruence. auto.
Qed.

Lemma truthy_VBool (b : bool) : truthy (VBool b) = true → b = true.
Proof. destruct b; [reflexivity | discriminate]. Qed.

Lemma scan_host_quarantined_critical cfg aliases nf nh o sc cnt :
  Forall (λ kd, quarantined_critical kd.2) (device_inventory sc) →
  Forall (λ kd, quarantined_critical kd.2)
    (device_inventory (scan_host cfg aliases nf nh o (sc, cnt)).1).
Proof.
  intros Hall.
  destruct (scan_host_spec cfg aliases nf nh o sc cnt)
    as (device & entry & cnt' & ports & os & Heq & _ & _ & _ & _ & _ & Hq & Hrisk).
  rewrite Heq. cbn [fst device_inventory].
  apply Forall_forall. intros [k d] Hin.
  apply elem_of_inv_set in Hin as [[= -> ->]|Hin].
  - cbn [snd]. intros Htrue. rewrite Hq in Htrue.
    apply truthy_VBool in Htrue. rewrite Hrisk, Htrue. reflexivity.
  - rewrite Forall_forall in Hall. exact (Hall _ Hin).
Qed.

(** The offline test either leaves everything as it is or marks the
    record, and its baseline entry if there is one, OFFLINE. *)
Lemma sweep_device_cases cfg now k d baseline alerts :
  sweep_device cfg now k d (baseline, alerts) = (d, (baseline, alerts)) ∨
  ∃ alerts',
    sweep_device cfg now k d (baseline, alerts) =
      (<[ "state" := VStr "OFFLINE" ]> d,
       (match baseline !! k with
        | Some b => <[ k := <[ "state" := VStr "OFFLINE" ]> b ]> baseline
        | None => baseline
        end, alerts')).
Proof.
  unfold sweep_device.
  destruct (_ && _); [right; eexists; reflexivity | left; reflexivity].
Qed.

Lemma get_insert_eq (d : gmap string pyval) k v : get (<[ k := v ]> d) k = v.
Proof. unfold get. by rewrite lookup_insert_eq. Qed.

Lemma get_insert_ne (d : gmap string pyval) k k' v :
  k ≠ k' → get (<[ k := v ]> d) k' = get d k'.
Proof. intros. unfold get. by rewrite lookup_insert_ne. Qed.

Lemma insert_nonempty (d : gmap string pyval) k v : <[ k := v ]> d ≠ ∅.
Proof. apply insert_non_empty. Qed.

Lemma offline_sweep_keys cfg now inv st :
  (offline_sweep cfg now inv st).1.*1 = inv.*1.
Proof.
  revert st. induction inv as [|[k d] inv IH]; intros st; cbn [offline_sweep].
  - reflexivity.
  - destruct (sweep_device cfg now k d st) as [d' st'].
    specialize (IH st'). destruct (offline_sweep cfg now inv st') as [inv' st''].
    cbn [fst] in *. rewrite !fmap_cons, IH. reflexivity.
Qed.

(** The sweep touches the baseline only at the keys of the inventory. *)
Lemma offline_sweep_baseline_other cfg now inv baseline alerts k :
  k ∉ inv.*1 →
  (offline_sweep cfg now inv (baseline, alerts)).2.1 !! k = baseline !! k.
Proof.
  revert baseline alerts. induction inv as [|[k0 d0] inv IH];
    intros baseline alerts Hk; cbn [offline_sweep]; [reflexivity|].
  rewrite fmap_cons, not_elem_of_cons in Hk. cbn [fst] in Hk. destruct Hk as [Hne Hk].
  destruct (sweep_device_cases cfg now k0 d0 baseline alerts) as [E|[alerts' E]];
    rewrite E.
  - specialize (IH baseline alerts Hk).
    destruct (offline_sweep cfg now inv (baseline, alerts)) as [inv' [b' a']].
    exact IH.
  - set (baseline1 := match baseline !! k0 with
                      | Some b => <[ k0 := <[ "state" := VStr "OFFLINE" ]> b ]> baseline
                      | None => baseline
                      end).
    specialize (IH baseline1 alerts' Hk).
    destruct (offline_sweep cfg now inv (baseline1, alerts')) as [inv' [b' a']].
    cbn [fst snd] in *. rewrite IH. unfold baseline1.
    destruct (baseline !! k0); [|reflexivity].
    by rewrite lookup_insert_ne by congruence.
Qed.

Lemma offline_sweep_synced cfg now inv baseline alerts :
  synced inv baseline →
  synced (offline_sweep cfg now inv (baseline, alerts)).1
         (offline_sweep cfg now inv (baseline, alerts)).2.1.
Proof.
  intros [Hnd Hsync]. split; [by rewrite offline_sweep_keys|].
  revert baseline alerts Hsync.
  induction inv as [|[k0 d0] inv IH]; intros baseline alerts Hsync k d;
    cbn [offline_sweep].
  - intros Hin. inversion Hin.
  - rewrite fmap_cons in Hnd. apply NoDup_cons in Hnd as [Hk0 Hnd]. cbn [fst] in Hk0.
    destruct (Hsync k0 d0 (list_elem_of_here _ _)) as (b0 & Hb0 & Hb0ne & Hb0st).
    assert (Htail : ∀ bl : gmap string (gmap string pyval),
              (∀ k', k' ≠ k0 → bl !! k' = baseline !! k') →
              ∀ k d, (k, d) ∈ inv →
                ∃ b, bl !! k = Some b ∧ b ≠ ∅ ∧ get b "state" = get d "state").
    { intros bl Hbl k1 d1 Hin1.
      rewrite Hbl; [by apply Hsync, list_elem_of_further|].
      intros ->. apply Hk0. apply list_elem_of_fmap. by exists (k0, d1). }
    destruct (sweep_device_cases cfg now k0 d0 baseline alerts) as [E|[alerts' E]];
      rewrite E.
    + pose proof (IH Hnd baseline alerts (Htail baseline (λ _ _, eq_refl))) as IH'.
      pose proof (offline_sweep_baseline_other cfg now inv baseline alerts k0 Hk0) as Hoth.
      destruct (offline_sweep cfg now inv (baseline, alerts)) as [inv' [b' a']].
      cbn [fst snd] in *. intros Hin. apply elem_of_cons in Hin as [[= -> ->]|Hin].
      * exists b0. rewrite Hoth. auto.
      * by apply IH'.
    + rewrite Hb0.
      set (baseline1 := <[ k0 := <[ "state" := VStr "OFFLINE" ]> b0 ]> baseline).
      assert (Hbl : ∀ k', k' ≠ k0 → baseline1 !! k' = baseline !! k').
      { intros k' Hk'. unfold baseline1. by rewrite lookup_insert_ne by congruence. }
      pose proof (IH Hnd baseline1 alerts' (Htail baseline1 Hbl)) as IH'.
      pose proof (offline_sweep_baseline_other cfg now inv baseline1 alerts' k0 Hk0) as Hoth.
      destruct (offline_sweep cfg now inv (baseline1, alerts')) as [inv' [b' a']].
      cbn [fst snd] in *. intros Hin. apply elem_of_cons in Hin as [[= -> ->]|Hin].
      * exists (<[ "state" := VStr "OFFLINE" ]> b0). rewrite Hoth. unfold baseline1.
        rewrite lookup_insert_eq. split; [reflexivity|].
        split; [apply insert_nonempty|]. by rewrite !get_insert_eq.
      * by apply IH'.
Qed.

(** The sweep changes nothing of a record but its state. *)
Lemma offline_sweep_elem cfg now inv st k d' :
  (k, d') ∈ (offline_sweep cfg now inv st).1 →
  ∃ d, (k, d) ∈ inv ∧ (d' = d ∨ d' = <[ "state" := VStr "OFFLINE" ]> d).
Proof.
  revert st. induction inv as [|[k0 d0] inv IH]; intros [baseline alerts];
    cbn [offline_sweep].
  - intros Hin. inversion Hin.
  - destruct (sweep_device_cases cfg now k0 d0 baseline alerts) as [E|[alerts' E]];
      rewrite E.
    + specialize (IH (baseline, alerts)).
      destruct (offline_sweep cfg now inv (baseline, alerts)) as [inv' st'].
      cbn [fst] in *. intros Hin. apply elem_of_cons in Hin as [[= -> ->]|Hin].
      * exists d0. split; [apply list_elem_of_here | auto].
      * destruct (IH Hin) as (d & Hd & Hcase).
        exists d. split; [by apply list_elem_of_further | exact Hcase].
    + match goal with
      | |- context [offline_sweep cfg now inv ?st] =>
          specialize (IH st); destruct (offline_sweep cfg now inv st) as [inv' st']
      end.
      cbn [fst] in *. intros Hin. apply elem_of_cons in Hin as [[= -> ->]|Hin].
      * exists d0. split; [apply list_elem_of_here | auto].
      * destruct (IH Hin) as (d & Hd & Hcase).
        exists d. split; [by apply list_elem_of_further | exact Hcase].
Qed.

(** ** Whole cycles *)

Lemma elem_of_sort_insert d l x : x ∈ sort_insert d l ↔ x = d ∨ x ∈ l.
Proof.
  induction l as [|d' l IH]; cbn [sort_insert].
  - rewrite list_elem_of_singleton, elem_of_nil. tauto.
  - destruct (key_le _ _).
    + rewrite elem_of_cons. tauto.
    + rewrite !elem_of_cons, IH. tauto.
Qed.

Lemma elem_of_sort_devices l x : x ∈ sort_devices l ↔ x ∈ l.
Proof.
  unfold sort_devices. induction l as [|d l IH]; cbn [foldr]; [tauto|].
  rewrite elem_of_sort_insert, elem_of_cons, IH. tauto.
Qed.

Lemma length_sort_insert d l : length (sort_insert d l) = S (length l).
Proof.
  induction l as [|d' l IH]; cbn [sort_insert]; [reflexivity|].
  destruct (key_le _ _); cbn [length]; [reflexivity | by rewrite IH].
Qed.

Lemma length_sort_devices l : length (sort_devices l) = length l.
Proof.
  unfold sort_devices. induction l as [|d l IH]; cbn [foldr]; [reflexivity|].
  rewrite length_sort_insert. cbn [length]. by rewrite IH.
Qed.

Lemma offline_risk_adjust_state d :
  get (offline_risk_adjust d) "state" = get d "state".
Proof.
  unfold offline_risk_adjust. destruct (_ && _); [|reflexivity].
  by rewrite get_insert_ne by discriminate.
Qed.

Lemma offline_risk_adjust_nonempty d : d ≠ ∅ → offline_risk_adjust d ≠ ∅.
Proof.
  unfold offline_risk_adjust. destruct (_ && _); [|auto].
  intros _. apply insert_nonempty.
Qed.

Lemma offline_risk_adjust_quarantined_critical d :
  quarantined_critical d → quarantined_critical (offline_risk_adjust d).
Proof.
  unfold offline_risk_adjust, quarantined_critical.
  destruct (bool_decide (get d "state" = VStr "OFFLINE")); cbn [andb]; [|tauto].
  destruct (truthy (get d "quarantined")) eqn:Hq; cbn [negb]; [tauto|].
  intros _. rewrite get_insert_ne by discriminate. congruence.
Qed.

Lemma set_offline_quarantined_critical d :
  quarantined_critical d →
  quarantined_critical (<[ "state" := VStr "OFFLINE" ]> d).
Proof.
  unfold quarantined_critical. by rewrite !get_insert_ne by discriminate.
Qed.

Lemma scan_hosts_invariants cfg aliases nf nh os st :
  synced (device_inventory st.1) (baseline st.1) →
  Forall (λ kd, quarantined_critical kd.2) (device_inventory st.1) →
  let st' := fold_left (λ st o, scan_host cfg aliases nf nh o st) os st in
  synced (device_inventory st'.1) (baseline st'.1) ∧
  Forall (λ kd, quarantined_critical kd.2) (device_inventory st'.1).
Proof.
  revert st. induction os as [|o os IH]; intros [sc cnt] Hs Hq; cbn [fold_left].
  - auto.
  - apply IH.
    + by apply scan_host_synced.
    + by apply scan_host_quarantined_critical.
Qed.

(** One cycle keeps both invariants, and every record it publishes that
    is flagged as quarantined has the risk CRITICAL. *)
Lemma scan_cycle_invariants cfg aliases inp sc :
  synced (device_inventory sc) (baseline sc) →
  Forall (λ kd, quarantined_critical kd.2) (device_inventory sc) →
  let r := scan_cycle cfg aliases inp sc in
  synced (device_inventory r.1) (baseline r.1) ∧
  Forall (λ kd, quarantined_critical kd.2) (device_inventory r.1) ∧
  Forall quarantined_critical (snap_devices r.2).
Proof.
  intros Hs Hq. unfold scan_cycle.
  pose proof (scan_hosts_invariants cfg aliases (now_full inp) (now_hms inp)
                (hosts inp) (sc, (0, 0)) Hs Hq) as [Hs1 Hq1].
  cbv zeta in Hs1, Hq1.
  destruct (fold_left _ (hosts inp) (sc, (0, 0))) as [sc1 [new crit]].
  cbn [fst] in Hs1, Hq1.
  pose proof (offline_sweep_synced cfg (sweep_clock inp) _ _ (alerts sc1) Hs1) as Hs2.
  assert (Hq2 : Forall (λ kd, quarantined_critical kd.2)
                  (offline_sweep cfg (sweep_clock inp) (device_inventory sc1)
                     (baseline sc1, alerts sc1)).1).
  { apply Forall_forall. intros [k d'] Hin.
    apply offline_sweep_elem in Hin as (d & Hd & Hcase).
    rewrite Forall_forall in Hq1. specialize (Hq1 _ Hd). cbn [snd] in *.
    destruct Hcase as [->| ->]; [exact Hq1|].
    by apply set_offline_quarantined_critical. }
  destruct (offline_sweep cfg (sweep_clock inp) (device_inventory sc1)
              (baseline sc1, alerts sc1)) as [inv2 [bl2 al2]].
  cbn [fst snd] in *. cbv zeta. cbn [fst snd device_inventory baseline snap_devices].
  assert (Hq3 : Forall (λ kd, quarantined_critical kd.2)
                  (map (λ kd, (kd.1, offline_risk_adjust kd.2)) inv2)).
  { apply Forall_forall. intros [k d'] Hin.
    apply list_elem_of_fmap in Hin as ([k0 d0] & [= -> ->] & Hin0).
    rewrite Forall_forall in Hq2. specialize (Hq2 _ Hin0). cbn [fst snd] in *.
    by apply offline_risk_adjust_quarantined_critical. }
  split; [|split; [exact Hq3|]].
  - destruct Hs2 as [Hnd Hsync]. split.
    + rewrite <- list_fmap_compose.
      replace (inv2.*1) with ((fst ∘ (λ kd : string * gmap string pyval,
                                        (kd.1, offline_risk_adjust kd.2))) <$> inv2)
        in Hnd by reflexivity.
      exact Hnd.
    + intros k d Hin.
      apply list_elem_of_fmap in Hin as ([k0 d0] & [= -> ->] & Hin0).
      destruct (Hsync _ _ Hin0) as (b & Hb & Hbne & Hst). cbn [fst snd].
      exists b. rewrite offline_risk_adjust_state. auto.
  - apply Forall_forall. intros d Hin.
    apply (proj1 (elem_of_sort_devices _ _)) in Hin.
    apply list_elem_of_fmap in Hin as ([k0 d0] & -> & Hin0).
    rewrite Forall_forall in Hq3. exact (Hq3 _ Hin0).
Qed.

Lemma scanner_start_invariants baseline_file alerts_file :
  synced (device_inventory (scanner_start baseline_file alerts_file))
         (baseline (scanner_start baseline_file alerts_file)) ∧
  Forall (λ kd, quarantined_critical kd.2)
    (device_inventory (scanner_start baseline_file alerts_file)).
Proof.
  cbn. split; [split|].
  - apply NoDup_nil_2.
  - intros k d Hin. inversion Hin.
  - apply Forall_nil_2.
Qed.

Lemma background_scanner_invariants cfg aliases inps sc :
  synced (device_inventory sc) (baseline sc) →
  Forall (λ kd, quarantined_critical kd.2) (device_inventory sc) →
  let r := background_scanner cfg aliases inps sc in
  synced (device_inventory r.1) (baseline r.1) ∧
  Forall (λ kd, quarantined_critical kd.2) (device_inventory r.1) ∧
  Forall (λ snap, Forall quarantined_critical (snap_devices snap)) r.2.
Proof.
  revert sc. induction inps as [|inp inps IH]; intros sc Hs Hq;
    cbn [background_scanner].
  - cbn. auto.
  - destruct (scan_cycle_invariants cfg aliases inp sc Hs Hq) as (Hs1 & Hq1 & Hsnap).
    destruct (scan_cycle cfg aliases inp sc) as [sc1 snap]. cbn [fst snd] in *.
    destruct (IH sc1 Hs1 Hq1) as (Hs2 & Hq2 & Hsnaps).
    destruct (background_scanner cfg aliases inps sc1) as [sc2 snaps].
    cbn [fst snd] in *. auto.
Qed.

(** ** Runs of the example network *)

Example run_quarantined_offline :
  let r := background_scanner example_cfg ∅
             (example_cycles (example_host 1000 quarantine_by_ip))
             (scanner_start ∅ []) in
  map (λ s, map (λ d, (get d "key", get d "state", get d "quarantined", get d "risk"))
              (snap_devices s)) r.2 =
    [ [(VStr "IP:10.0.0.5", VStr "ONLINE", VBool true, VStr "CRITICAL")];
      [(VStr "IP:10.0.0.5", VStr "OFFLINE", VBool true, VStr "CRITICAL")] ] ∧
  map kind (alerts r.1) = ["NEW_DEVICE"; "STATE_CHANGE"].
Proof. vm_compute. split; reflexivity. Qed.

Example run_mac_host :
  let r := background_scanner example_cfg ∅
             (example_cycles (example_host_mac 1000 quarantine_by_ip))
             (scanner_start ∅ []) in
  map (λ s, map (λ d, (get d "key", get d "state", get d "quarantined", get d "risk",
                       get d "os", get d "ports"))
              (snap_devices s)) r.2 =
    [ [(VStr "AA:BB:CC:DD:EE:FF", VStr "ONLINE", VBool true, VStr "CRITICAL",
        VStr "Linux 5.4", VList ["80"])];
      [(VStr "AA:BB:CC:DD:EE:FF", VStr "OFFLINE", VBool true, VStr "CRITICAL",
        VStr "Linux 5.4", VList ["80"])] ].
Proof. vm_compute. reflexivity. Qed.

Example run_plain_offline :
  let r := background_scanner example_cfg ∅
             (example_cycles (example_host_mac 1000 ∅))
             (scanner_start ∅ []) in
  map (λ s, map (λ d, (get d "state", get d "quarantined", get d "risk", get d "type"))
              (snap_devices s)) r.2 =
    [ [(VStr "ONLINE", VBool false, VStr "LOW", VStr "Linux Device")];
      [(VStr "OFFLINE", VBool false, VStr "MEDIUM", VStr "Linux Device")] ].
Proof. vm_compute. reflexivity. Qed.

(** ** C3: a quarantined device is CRITICAL *)

(** C3: the classifier answers CRITICAL whenever the quarantine flag is
    set, whatever the ports, the OS fingerprint and the lifecycle state;
    and in every snapshot the scanner publishes, from its start on, every
    record flagged as quarantined has the risk CRITICAL, OFFLINE records
    included: the end-of-cycle downgrade leaves a quarantined record as it
    is. *)
Theorem C3_quarantined_is_critical :
  (∀ open_ports os_guess state,
     compute_risk open_ports os_guess state true = "CRITICAL") ∧
  (∀ cfg aliases inps baseline_file alerts_file snap d,
     snap ∈ (background_scanner cfg aliases inps
               (scanner_start baseline_file alerts_file)).2 →
     d ∈ snap_devices snap →
     truthy (get d "quarantined") = true →
     get d "risk" = VStr "CRITICAL") ∧
  (∀ d, truthy (get d "quarantined") = true → offline_risk_adjust d = d).
Proof.
  split; [reflexivity|]. split.
  - intros cfg aliases inps baseline_file alerts_file snap d Hsnap Hd Hq.
    destruct (scanner_start_invariants baseline_file alerts_file) as [Hs0 Hq0].
    destruct (background_scanner_invariants cfg aliases inps _ Hs0 Hq0)
      as (_ & _ & Hall).
    rewrite Forall_forall in Hall. specialize (Hall snap Hsnap).
    rewrite Forall_forall in Hall. exact (Hall d Hd Hq).
  - intros d Hq. unfold offline_risk_adjust. rewrite Hq.
    by rewrite andb_false_r.
Qed.

(** C3 on the example network: the quarantined host, seen once and then
    gone, is published OFFLINE with the risk CRITICAL. *)
Lemma C3_quarantined_is_critical_witness :
  get example_record "state" = VStr "OFFLINE" ∧
  get example_record "risk" = VStr "CRITICAL".
Proof.
  split; [vm_compute; reflexivity|].
  destruct C3_quarantined_is_critical as (_ & H & _).
  apply (H example_cfg ∅ (example_cycles (example_host 1000 quarantine_by_ip))
           ∅ [] example_snapshot example_record).
  - apply (bool_decide_unpack (example_snapshot ∈ example_run.2)).
    vm_compute. exact I.
  - apply (bool_decide_unpack (example_record ∈ snap_devices example_snapshot)).
    vm_compute. exact I.
  - vm_compute. reflexivity.
Defined.

(** ** C8: OFFLINE once, then ONLINE again *)





(** ** C10: the quarantine check of the scan cycle *)

Lemma truthy_iff (s : string) : Py.truthy s = true ↔ s ≠ "".
Proof.
  unfold Py.truthy. rewrite negb_true_iff, bool_decide_eq_false. tauto.
Qed.

(** The check answers true exactly when the store has the uppercased
    hardware address, provided one is given and is not empty, or has the
    address key, provided the address is not empty. *)
Lemma is_quarantined_iff (q : gmap string (gmap string string))
    (ip : string) (mac : option string) :
  is_quarantined q ip mac = true ↔
    (∃ m, mac = Some m ∧ m ≠ "" ∧ Py.upper m ∈ dom q) ∨
    (ip ≠ "" ∧ "IP:" +:+ ip ∈ dom q).
Proof.
  unfold is_quarantined. split.
  - destruct (Py.truthy_opt mac && _) eqn:Emac.
    + intros _. left. apply andb_true_iff in Emac as [Ht Hin].
      destruct mac as [m|]; [|discriminate]. exists m.
      apply truthy_iff in Ht. apply bool_decide_eq_true in Hin. auto.
    + destruct (Py.truthy ip && _) eqn:Eip; [|discriminate].
      intros _. right. apply andb_true_iff in Eip as [Ht Hin].
      apply truthy_iff in Ht. apply bool_decide_eq_true in Hin. auto.
  - intros [(m & -> & Hm & Hin)|[Hip Hin]].
    + cbn [Py.truthy_opt default]. rewrite (truthy_true m Hm).
      by rewrite bool_decide_eq_true_2.
    + destruct (Py.truthy_opt mac && _); [reflexivity|].
      rewrite (truthy_true ip Hip). by rewrite bool_decide_eq_true_2.
Qed.




(** ** Further runs *)

(** Seen, missed, seen again: the alerts file holds the new device, the
    change to OFFLINE and the change back to ONLINE. *)
Example run_offline_then_online :
  let r := background_scanner example_cfg ∅
             (example_three_cycles (example_host_mac 1000 ∅) (example_host_mac 3000 ∅))
             (scanner_start ∅ []) in
  map (λ e, (kind e, severity e)) (alerts r.1) =
    [ ("NEW_DEVICE", VStr "LOW"); ("STATE_CHANGE", VStr "MEDIUM");
      ("STATE_CHANGE", VStr "INFO") ] ∧
  map (λ s, map (λ d, (get d "state", get d "risk")) (snap_devices s)) r.2 =
    [ [(VStr "ONLINE", VStr "LOW")]; [(VStr "OFFLINE", VStr "MEDIUM")];
      [(VStr "ONLINE", VStr "LOW")] ].
Proof. vm_compute. split; reflexivity. Qed.

Example identify_device_type_pi :
  identify_device_type "Raspberry Pi Trading Ltd" "Linux 5.4" "raspberrypi" ["22"]
    = "Raspberry Pi" ∧
  identify_device_type "Unknown" "Linux 5.4" "kitchen-pi.lan" ["22"] = "Raspberry Pi" ∧
  identify_device_type "Unknown" "Linux 5.4" "raspberrypi" ["22"] = "Linux Server / SBC" ∧
  identify_device_type "Apple, Inc." "Unknown" "" ["62078"] = "iPhone/iPad (Locked)" ∧
  identify_device_type "LG Electronics" "Linux" "" [] = "Smart TV" ∧
  identify_device_type "Unknown" "Unknown" "" [] = "Unknown Device".
Proof. vm_compute. repeat split. Qed.

Example build_findings_and_recs_ex :
  build_findings_and_recs ["22"; "80"; "8080"]
    [ {[ "port" := "22"; "proto" := "tcp"; "product" := "OpenSSH"; "version" := "8.2" ]} ]
    "Linux" false =
  ( [ "SSH exposed.";
      "HTTP/admin web port exposed (possible management UI).";
      "Service detected: OpenSSH 8.2 (22/tcp)." ],
    [ "Use key-based auth, disable password auth, limit users, and rate-limit.";
      "Disable unused admin UIs; enforce auth; patch; restrict access by IP/VLAN." ] ).
Proof. vm_compute. reflexivity. Qed.

Example service_strings_ex :
  service_strings
    [ {[ "port" := "22"; "proto" := "tcp"; "name" := "ssh"; "product" := "OpenSSH";
         "version" := "8.2"; "extrainfo" := "protocol 2.0" ]};
      {[ "port" := "80"; "proto" := "tcp"; "name" := "http"; "product" := "";
         "version" := ""; "extrainfo" := "" ]} ] =
  [ "22/tcp ssh OpenSSH 8.2 (protocol 2.0)"; "80/tcp http" ].
Proof. vm_compute. reflexivity. Qed.

(** * Further properties *)

(** ** The diff engine *)

Ltac diff_unfold :=
  unfold diff_and_emit_events; cbv zeta;
  rewrite !when_emit_event, ?of_kind_app.

(** X1: a record compared with itself writes no event. *)
Theorem X1_diff_same_record_silent (key : string) (d : gmap string pyval)
    (alerts : list event) :
  diff_and_emit_events key d (Some d) alerts = alerts.
Proof.
  diff_unfold.
  repeat match goal with
    | |- context [bool_decide (?x = ?x)] =>
        rewrite (bool_decide_eq_true_2 (x = x)) by reflexivity
    end.
  cbn [negb andb]. rewrite ?andb_false_r. cbn [negb andb].
  rewrite ?app_nil_r. reflexivity.
Qed.

Lemma sublist_kinds_count (evs : list event) (ks : list string) (k : string) :
  sublist (map kind evs) ks → NoDup ks → (length (of_kind k evs) ≤ 1)%nat.
Proof.
  intros Hsub Hnd.
  assert (Hnd' : NoDup (map kind evs)) by (eapply sublist_NoDup; eassumption).
  clear Hsub Hnd. unfold of_kind.
  induction evs as [|e evs IH]; [cbn; lia|].
  cbn [map] in Hnd'. apply NoDup_cons in Hnd' as [Hnin Hnd'].
  destruct (decide (kind e = k)) as [Hk|Hk].
  - rewrite filter_cons_True by assumption. cbn [length].
    destruct (filter (λ e, kind e = k) evs) as [|e' r] eqn:E; [cbn; lia|].
    assert (Hin : e' ∈ filter (λ e, kind e = k) evs)
      by (rewrite E; apply list_elem_of_here).
    apply list_elem_of_filter in Hin as [He' Hin].
    exfalso. apply Hnin. rewrite Hk, <- He'.
    apply list_elem_of_fmap. by exists e'.
  - rewrite filter_cons_False by assumption. exact (IH Hnd').
Qed.

(** X2: one diff writes its events in the fixed order STATE, RISK, PORT,
    VENDOR, HOSTNAME, OS and writes each kind at most once, so at most six
    events in all. *)
Theorem X2_diff_one_event_per_kind (key : string) (curr prev : gmap string pyval) :
  sublist (map kind (diff_and_emit_events key curr (Some prev) [])) diff_kinds ∧
  (∀ k, (length (of_kind k (diff_and_emit_events key curr (Some prev) [])) ≤ 1)%nat) ∧
  (length (diff_and_emit_events key curr (Some prev) []) ≤ 6)%nat.
Proof.
  assert (Hsub : sublist (map kind (diff_and_emit_events key curr (Some prev) []))
                   diff_kinds).
  { diff_unfold.
    repeat match goal with
      | |- context [if ?c then [?e] else []] => destruct c
      end;
      cbn [app map kind]; unfold diff_kinds;
      repeat first [ apply sublist_nil | apply sublist_skip | apply sublist_cons ]. }
  split; [exact Hsub|]. split.
  - intros k. apply (sublist_kinds_count _ diff_kinds k Hsub).
    apply (bool_decide_unpack (NoDup diff_kinds)). vm_compute. exact I.
  - apply sublist_length in Hsub. rewrite length_map in Hsub. exact Hsub.
Qed.

(** X3: while the current record is OFFLINE, neither a change of risk nor
    a change of ports is reported, whatever the baseline entry holds. *)
Theorem X3_diff_offline_suppresses (key : string) (curr prev : gmap string pyval) :
  get curr "state" = VStr "OFFLINE" →
  of_kind "RISK_CHANGE" (diff_and_emit_events key curr (Some prev) []) = [] ∧
  of_kind "PORT_CHANGE" (diff_and_emit_events key curr (Some prev) []) = [].
Proof.
  intros Hoff. split; diff_unfold; of_kind_simpl; rewrite Hoff;
    rewrite (bool_decide_eq_true_2 (VStr "OFFLINE" = VStr "OFFLINE")) by reflexivity;
    cbn [negb]; rewrite andb_false_r; reflexivity.
Qed.

Lemma X3_diff_offline_suppresses_witness :
  of_kind "RISK_CHANGE"
    (diff_and_emit_events "K"
       {[ "state" := VStr "OFFLINE"; "risk" := VStr "MEDIUM"; "ports" := VList [] ]}
       (Some {[ "state" := VStr "ONLINE"; "risk" := VStr "CRITICAL";
                "ports" := VList ["445"] ]}) []) = [] ∧
  of_kind "PORT_CHANGE"
    (diff_and_emit_events "K"
       {[ "state" := VStr "OFFLINE"; "risk" := VStr "MEDIUM"; "ports" := VList [] ]}
       (Some {[ "state" := VStr "ONLINE"; "risk" := VStr "CRITICAL";
                "ports" := VList ["445"] ]}) []) = [].
Proof.
  apply (X3_diff_offline_suppresses "K"
           {[ "state" := VStr "OFFLINE"; "risk" := VStr "MEDIUM"; "ports" := VList [] ]}
           {[ "state" := VStr "ONLINE"; "risk" := VStr "CRITICAL";
              "ports" := VList ["445"] ]}).
  vm_compute. reflexivity.
Defined.

(** X4: information that is lost is not reported as a change: no
    VENDOR_CHANGE when the vendor of either side is empty or missing, no
    HOSTNAME_CHANGE when the new hostname is empty or missing, and no
    OS_CHANGE when the new OS is the empty string or "Unknown". *)
Theorem X4_diff_lost_information_silent (key : string)
    (curr prev : gmap string pyval) :
  (truthy (get curr "vendor") = false ∨ truthy (get prev "vendor") = false →
     of_kind "VENDOR_CHANGE" (diff_and_emit_events key curr (Some prev) []) = []) ∧
  (truthy (get curr "hostname") = false →
     of_kind "HOSTNAME_CHANGE" (diff_and_emit_events key curr (Some prev) []) = []) ∧
  (get curr "os" = VStr "" ∨ get curr "os" = VStr "Unknown" →
     of_kind "OS_CHANGE" (diff_and_emit_events key curr (Some prev) []) = []).
Proof.
  split; [|split].
  - intros H. diff_unfold. of_kind_simpl.
    destruct H as [-> | ->]; rewrite ?andb_false_r; reflexivity.
  - intros H. diff_unfold. of_kind_simpl. rewrite H, andb_false_r. reflexivity.
  - intros H. diff_unfold. of_kind_simpl.
    destruct H as [-> | ->].
    + rewrite (bool_decide_eq_true_2 (VStr "" = VStr "")) by reflexivity.
      cbn [orb negb]. rewrite andb_false_r. reflexivity.
    + rewrite (bool_decide_eq_true_2 (VStr "Unknown" = VStr "Unknown")) by reflexivity.
      rewrite orb_true_r. cbn [negb]. rewrite andb_false_r. reflexivity.
Qed.

Lemma X4_diff_lost_information_silent_witness :
  of_kind "OS_CHANGE"
    (diff_and_emit_events "K" {[ "os" := VStr "Unknown" ]}
       (Some {[ "os" := VStr "Linux 5.4" ]}) []) = [] ∧
  of_kind "HOSTNAME_CHANGE"
    (diff_and_emit_events "K" {[ "os" := VStr "Unknown" ]}
       (Some {[ "os" := VStr "Linux 5.4" ]}) []) = [].
Proof.
  destruct (X4_diff_lost_information_silent "K" {[ "os" := VStr "Unknown" ]}
              {[ "os" := VStr "Linux 5.4" ]}) as (_ & Hh & Ho).
  split.
  - apply Ho. right. vm_compute. reflexivity.
  - apply Hh. vm_compute. reflexivity.
Defined.

(** The other side of X4: an OS that is missing altogether from the
    current record, where the baseline had one, is reported. *)
Example diff_missing_os_reported :
  map kind (diff_and_emit_events "K" ∅ (Some {[ "os" := VStr "Linux 5.4" ]}) [])
    = ["OS_CHANGE"].
Proof. vm_compute. reflexivity. Qed.

(** ** The scanner only adds *)

Lemma scan_host_grows cfg aliases nf nh o sc cnt :
  let sc' := (scan_host cfg aliases nf nh o (sc, cnt)).1 in
  alerts sc `prefix_of` alerts sc' ∧
  (device_inventory sc).*1 ⊆ (device_inventory sc').*1 ∧
  dom (baseline sc) ⊆ dom (baseline sc').
Proof.
  destruct (scan_host_spec cfg aliases nf nh o sc cnt)
    as (device & entry & cnt' & ports & os & Heq & _).
  cbv zeta. rewrite Heq. cbn [fst alerts device_inventory baseline].
  split; [|split].
  - rewrite diff_and_emit_events_app. by apply prefix_app_r.
  - rewrite inv_set_keys. case_bool_decide; [done|].
    intros x Hx. apply elem_of_app. by left.
  - rewrite dom_insert_L. apply union_subseteq_r.
Qed.

Lemma sweep_device_grows cfg now k d bl al :
  let r := sweep_device cfg now k d (bl, al) in
  al `prefix_of` r.2.2 ∧ dom r.2.1 = dom bl.
Proof.
  cbv zeta. unfold sweep_device. destruct (_ && _); cbn [fst snd]; [|done].
  split.
  - rewrite diff_and_emit_events_app. by apply prefix_app_r.
  - destruct (bl !! k) as [b|] eqn:Hb; [|reflexivity].
    rewrite dom_insert_L. apply set_eq. intros x.
    rewrite elem_of_union, elem_of_singleton. split; [|tauto].
    intros [->|Hx]; [|exact Hx]. apply elem_of_dom. eauto.
Qed.

Lemma offline_sweep_grows cfg now inv bl al :
  let r := offline_sweep cfg now inv (bl, al) in
  al `prefix_of` r.2.2 ∧ dom r.2.1 = dom bl.
Proof.
  revert bl al. induction inv as [|[k d] inv IH]; intros bl al; cbn [offline_sweep].
  - done.
  - pose proof (sweep_device_grows cfg now k d bl al) as [Hp Hd]. cbv zeta in Hp, Hd.
    destruct (sweep_device cfg now k d (bl, al)) as [d' [bl' al']]. cbn [fst snd] in *.
    pose proof (IH bl' al') as [Hp' Hd']. cbv zeta in Hp', Hd'.
    destruct (offline_sweep cfg now inv (bl', al')) as [inv' [bl'' al'']].
    cbn [fst snd] in *. split; [by etrans | congruence].
Qed.

Lemma scan_hosts_grows cfg aliases nf nh os st :
  let st' := fold_left (λ st o, scan_host cfg aliases nf nh o st) os st in
  alerts st.1 `prefix_of` alerts st'.1 ∧
  (device_inventory st.1).*1 ⊆ (device_inventory st'.1).*1 ∧
  dom (baseline st.1) ⊆ dom (baseline st'.1).
Proof.
  revert st. induction os as [|o os IH]; intros [sc cnt]; cbn [fold_left].
  - done.
  - pose proof (scan_host_grows cfg aliases nf nh o sc cnt) as (H1 & H2 & H3).
    cbv zeta in H1, H2, H3.
    pose proof (IH (scan_host cfg aliases nf nh o (sc, cnt))) as (H1' & H2' & H3').
    cbv zeta in H1', H2', H3'. cbn [fst] in *.
    split; [by etrans|]. split; by etrans.
Qed.

Lemma scan_cycle_grows cfg aliases inp sc :
  let sc' := (scan_cycle cfg aliases inp sc).1 in
  alerts sc `prefix_of` alerts sc' ∧
  (device_inventory sc).*1 ⊆ (device_inventory sc').*1 ∧
  dom (baseline sc) ⊆ dom (baseline sc').
Proof.
  cbv zeta. unfold scan_cycle.
  pose proof (scan_hosts_grows cfg aliases (now_full inp) (now_hms inp) (hosts inp)
                (sc, (0, 0))) as (H1 & H2 & H3).
  cbv zeta in H1, H2, H3.
  destruct (fold_left _ (hosts inp) (sc, (0, 0))) as [sc1 [new crit]].
  cbn [fst] in *.
  pose proof (offline_sweep_grows cfg (sweep_clock inp) (device_inventory sc1)
                (baseline sc1) (alerts sc1)) as [H4 H5].
  pose proof (offline_sweep_keys cfg (sweep_clock inp) (device_inventory sc1)
                (baseline sc1, alerts sc1)) as H6.
  cbv zeta in H4, H5.
  destruct (offline_sweep _ _ _ _) as [inv2 [bl2 al2]].
  cbn [fst snd alerts device_inventory baseline] in *.
  split; [by etrans|]. split.
  - rewrite <- list_fmap_compose.
    replace (fst ∘ (λ kd : string * gmap string pyval,
                      (kd.1, offline_risk_adjust kd.2)) <$> inv2)
      with (inv2.*1) by reflexivity.
    by rewrite H6.
  - by rewrite H5.
Qed.

(** X5: the scanner never rewrites or drops a line of the alerts file:
    after any number of cycles the file starts with what it held before. *)
Theorem X5_alerts_append_only cfg aliases inps sc :
  alerts sc `prefix_of` alerts (background_scanner cfg aliases inps sc).1.
Proof.
  revert sc. induction inps as [|inp inps IH]; intros sc; cbn [background_scanner].
  - done.
  - pose proof (scan_cycle_grows cfg aliases inp sc) as (H1 & _). cbv zeta in H1.
    destruct (scan_cycle cfg aliases inp sc) as [sc1 snap].
    specialize (IH sc1).
    destruct (background_scanner cfg aliases inps sc1) as [sc2 snaps].
    cbn [fst] in *. by etrans.
Qed.

(** X6: a device, once in the inventory, stays there, and a key, once in
    the baseline, stays there: no cycle removes a key from either. *)
Theorem X6_keys_never_removed cfg aliases inps sc :
  (device_inventory sc).*1
    ⊆ (device_inventory (background_scanner cfg aliases inps sc).1).*1 ∧
  dom (baseline sc) ⊆ dom (baseline (background_scanner cfg aliases inps sc).1).
Proof.
  revert sc. induction inps as [|inp inps IH]; intros sc; cbn [background_scanner].
  - done.
  - pose proof (scan_cycle_grows cfg aliases inp sc) as (_ & H2 & H3).
    cbv zeta in H2, H3.
    destruct (scan_cycle cfg aliases inp sc) as [sc1 snap].
    destruct (IH sc1) as [H2' H3'].
    destruct (background_scanner cfg aliases inps sc1) as [sc2 snaps].
    cbn [fst] in *. split; by etrans.
Qed.

(** ** First-seen is kept *)

Lemma truthy_nonempty (b : gmap string pyval) (k : string) :
  truthy (get b k) = true → b ≠ ∅.
Proof.
  intros Ht ->. unfold get in Ht. rewrite lookup_empty in Ht. discriminate.
Qed.

(** The entry the loop body writes for a host whose baseline entry has a
    first-seen time keeps that time. *)
Lemma scan_host_first_seen cfg aliases nf nh o sc cnt b :
  baseline sc !! host_key cfg o (device_inventory sc) = Some b →
  truthy (get b "first_seen") = true →
  ∃ entry,
    baseline (scan_host cfg aliases nf nh o (sc, cnt)).1
      !! host_key cfg o (device_inventory sc) = Some entry ∧
    get entry "first_seen" = get b "first_seen".
Proof.
  intros Hb Ht. destruct cnt as [new crit].
  unfold scan_host, host_key, host_ip in *.
  destruct (host_profile cfg o (device_inventory sc)) as [[do_profile prof] vendor_final].
  cbn [fst snd] in *.
  destruct (build_findings_and_recs _ _ _ _) as [findings recs].
  rewrite Hb. cbn [dict_truthy default]. unfold id.
  rewrite (bool_decide_eq_false_2 (b = ∅)) by (eapply truthy_nonempty; eassumption).
  cbn [negb]. rewrite Ht. cbn [negb baseline fst].
  eexists. split; [apply lookup_insert_eq|]. reflexivity.
Qed.

Lemma scan_host_baseline_other cfg aliases nf nh o sc cnt k :
  k ≠ host_key cfg o (device_inventory sc) →
  baseline (scan_host cfg aliases nf nh o (sc, cnt)).1 !! k = baseline sc !! k.
Proof.
  intros Hk.
  destruct (scan_host_spec cfg aliases nf nh o sc cnt)
    as (device & entry & cnt' & ports & os & Heq & _).
  rewrite Heq. cbn [fst baseline]. by rewrite lookup_insert_ne by congruence.
Qed.

Lemma sweep_device_first_seen cfg now k0 d bl al k b :
  bl !! k = Some b →
  ∃ b', (sweep_device cfg now k0 d (bl, al)).2.1 !! k = Some b' ∧
        get b' "first_seen" = get b "first_seen".
Proof.
  intros Hb. unfold sweep_device. destruct (_ && _); cbn [fst snd]; [|eauto].
  destruct (bl !! k0) as [b0|] eqn:Hb0; [|eauto].
  destruct (decide (k0 = k)) as [->|Hne].
  - rewrite lookup_insert_eq. eexists. split; [reflexivity|].
    rewrite get_insert_ne by discriminate. congruence.
  - rewrite lookup_insert_ne by assumption. eauto.
Qed.

Lemma offline_sweep_first_seen cfg now inv bl al k b :
  bl !! k = Some b →
  ∃ b', (offline_sweep cfg now inv (bl, al)).2.1 !! k = Some b' ∧
        get b' "first_seen" = get b "first_seen".
Proof.
  revert bl al b. induction inv as [|[k0 d0] inv IH]; intros bl al b Hb;
    cbn [offline_sweep]; [eauto|].
  destruct (sweep_device_first_seen cfg now k0 d0 bl al k b Hb) as (b1 & Hb1 & Hf1).
  destruct (sweep_device cfg now k0 d0 (bl, al)) as [d' [bl' al']]. cbn [fst snd] in *.
  destruct (IH bl' al' b1 Hb1) as (b2 & Hb2 & Hf2).
  destruct (offline_sweep cfg now inv (bl', al')) as [inv' [bl'' al'']].
  cbn [fst snd] in *. exists b2. split; [exact Hb2 | congruence].
Qed.

Lemma scan_hosts_first_seen cfg aliases nf nh os st k b :
  baseline st.1 !! k = Some b → truthy (get b "first_seen") = true →
  ∃ b', baseline (fold_left (λ st o, scan_host cfg aliases nf nh o st) os st).1 !! k
          = Some b' ∧
        get b' "first_seen" = get b "first_seen".
Proof.
  revert st b. induction os as [|o os IH]; intros [sc cnt] b Hb Ht; cbn [fold_left].
  - eauto.
  - cbn [fst] in Hb.
    assert (∃ b1, baseline (scan_host cfg aliases nf nh o (sc, cnt)).1 !! k = Some b1 ∧
                  get b1 "first_seen" = get b "first_seen") as (b1 & Hb1 & Hf1).
    { destruct (decide (k = host_key cfg o (device_inventory sc))) as [->|Hne].
      - by apply scan_host_first_seen.
      - exists b. by rewrite scan_host_baseline_other. }
    destruct (IH (scan_host cfg aliases nf nh o (sc, cnt)) b1 Hb1) as (b2 & Hb2 & Hf2);
      [congruence|].
    exists b2. split; [exact Hb2 | congruence].
Qed.

(** X7: the first-seen time of a baseline entry is never overwritten:
    whatever is observed in later cycles, an entry that has a first-seen time
    keeps it. *)
Theorem X7_first_seen_kept cfg aliases inps sc k b :
  baseline sc !! k = Some b → truthy (get b "first_seen") = true →
  ∃ b', baseline (background_scanner cfg aliases inps sc).1 !! k = Some b' ∧
        get b' "first_seen" = get b "first_seen".
Proof.
  revert sc b. induction inps as [|inp inps IH]; intros sc b Hb Ht;
    cbn [background_scanner]; [eauto|].
  assert (∃ b1, baseline (scan_cycle cfg aliases inp sc).1 !! k = Some b1 ∧
                get b1 "first_seen" = get b "first_seen") as (b1 & Hb1 & Hf1).
  { unfold scan_cycle.
    destruct (scan_hosts_first_seen cfg aliases (now_full inp) (now_hms inp)
                (hosts inp) (sc, (0, 0)) k b Hb Ht) as (b1 & Hb1 & Hf1).
    destruct (fold_left _ (hosts inp) (sc, (0, 0))) as [sc1 [new crit]].
    cbn [fst] in Hb1.
    destruct (offline_sweep_first_seen cfg (sweep_clock inp) (device_inventory sc1)
                (baseline sc1) (alerts sc1) k b1 Hb1) as (b2 & Hb2 & Hf2).
    destruct (offline_sweep _ _ _ _) as [inv2 [bl2 al2]].
    cbn [fst snd baseline] in *. exists b2. split; [exact Hb2 | congruence]. }
  destruct (scan_cycle cfg aliases inp sc) as [sc1 snap]. cbn [fst] in *.
  destruct (IH sc1 b1 Hb1) as (b2 & Hb2 & Hf2); [congruence|].
  destruct (background_scanner cfg aliases inps sc1) as [sc2 snaps].
  cbn [fst] in *. exists b2. split; [exact Hb2 | congruence].
Qed.

Lemma X7_first_seen_kept_witness :
  ∃ b', baseline
          (background_scanner example_cfg ∅ (example_cycles (example_host 1000 ∅))
             (scanner_start
                {[ "IP:10.0.0.5" := {[ "first_seen" := VStr "2023-12-31 08:00:00" ]} ]}
                [])).1 !! "IP:10.0.0.5" = Some b' ∧
        get b' "first_seen" = VStr "2023-12-31 08:00:00".
Proof.
  destruct (X7_first_seen_kept example_cfg ∅ (example_cycles (example_host 1000 ∅))
              (scanner_start
                 {[ "IP:10.0.0.5" := {[ "first_seen" := VStr "2023-12-31 08:00:00" ]} ]}
                 [])
              "IP:10.0.0.5" {[ "first_seen" := VStr "2023-12-31 08:00:00" ]})
    as (b' & Hb' & Hf).
  - reflexivity.
  - reflexivity.
  - exists b'. split; [exact Hb' | exact Hf].
Defined.

(** ** The published snapshot *)

Lemma offline_risk_adjust_quarantined d :
  get (offline_risk_adjust d) "quarantined" = get d "quarantined".
Proof.
  unfold offline_risk_adjust. destruct (_ && _); [|reflexivity].
  by rewrite get_insert_ne by discriminate.
Qed.

Lemma offline_risk_adjust_medium d :
  get d "state" = VStr "OFFLINE" → truthy (get d "quarantined") = false →
  get (offline_risk_adjust d) "risk" = VStr "MEDIUM".
Proof.
  intros Hs Hq. unfold offline_risk_adjust.
  rewrite Hs, Hq, bool_decide_eq_true_2 by reflexivity.
  cbn [negb andb]. apply get_insert_eq.
Qed.

(** The records a cycle publishes are the records of the inventory it
    leaves, each after the offline adjustment. *)
Lemma scan_cycle_published cfg aliases inp sc d :
  d ∈ snap_devices (scan_cycle cfg aliases inp sc).2 →
  (∃ k, (k, d) ∈ device_inventory (scan_cycle cfg aliases inp sc).1) ∧
  ∃ d0, d = offline_risk_adjust d0.
Proof.
  unfold scan_cycle.
  destruct (fold_left _ (hosts inp) (sc, (0, 0))) as [sc1 [new crit]].
  destruct (offline_sweep _ _ _ _) as [inv2 [bl2 al2]].
  cbn [fst snd snap_devices device_inventory]. intros Hin.
  apply (proj1 (elem_of_sort_devices _ _)) in Hin.
  apply list_elem_of_fmap in Hin as ([k d1] & -> & Hin1). cbn [snd].
  split; [by exists k|].
  apply list_elem_of_fmap in Hin1 as ([k0 d0] & [= -> ->] & Hin0).
  by exists d0.
Qed.

(** X8: in the snapshot a cycle publishes, every record that is OFFLINE
    and not flagged as quarantined has the risk MEDIUM, whatever its ports
    and its OS were when it was last seen. *)
Theorem X8_published_offline_is_medium cfg aliases inp sc d :
  d ∈ snap_devices (scan_cycle cfg aliases inp sc).2 →
  get d "state" = VStr "OFFLINE" →
  truthy (get d "quarantined") = false →
  get d "risk" = VStr "MEDIUM".
Proof.
  intros Hin Hs Hq.
  apply scan_cycle_published in Hin as [_ [d0 ->]].
  rewrite offline_risk_adjust_state in Hs.
  rewrite offline_risk_adjust_quarantined in Hq.
  by apply offline_risk_adjust_medium.
Qed.

Lemma X8_published_offline_is_medium_witness :
  get example_offline_record "ports" = VList ["80"] ∧
  get example_offline_record "risk" = VStr "MEDIUM".
Proof.
  split; [vm_compute; reflexivity|].
  apply (X8_published_offline_is_medium example_cfg ∅ example_missed_cycle
           example_seen_state example_offline_record).
  - apply (bool_decide_unpack
             (example_offline_record
                ∈ snap_devices (scan_cycle example_cfg ∅ example_missed_cycle
                                  example_seen_state).2)).
    vm_compute. exact I.
  - vm_compute. reflexivity.
  - vm_compute. reflexivity.
Defined.

(** ** The order of the published list *)

Lemma key_le_total a b : key_le a b = false → key_le b a = true.
Proof.
  unfold key_le. destruct a as [a1 a2], b as [b1 b2]. cbn [fst snd].
  destruct (decide (a1 = b1)) as [->|Hne].
  - rewrite !bool_decide_eq_true_2 by reflexivity. intros Hle.
    destruct (String.leb_total a2 b2) as [H|H]; congruence.
  - rewrite (bool_decide_eq_false_2 (a1 = b1)) by assumption.
    rewrite (bool_decide_eq_false_2 (b1 = a1)) by congruence.
    destruct a1, b1; cbn; congruence.
Qed.

Lemma key_le_trans a b c : key_le a b = true → key_le b c = true → key_le a c = true.
Proof.
  unfold key_le. destruct a as [a1 a2], b as [b1 b2], c as [c1 c2]. cbn [fst snd].
  destruct a1, b1, c1;
    repeat first
      [ rewrite (bool_decide_eq_true_2 (true = true)) by reflexivity
      | rewrite (bool_decide_eq_true_2 (false = false)) by reflexivity
      | rewrite (bool_decide_eq_false_2 (true = false)) by discriminate
      | rewrite (bool_decide_eq_false_2 (false = true)) by discriminate ];
    cbn [negb]; try congruence.
  - intros H1 H2. apply Is_true_true. apply Is_true_true in H1, H2.
    exact (transitivity (R := String.le) H1 H2).
  - intros H1 H2. apply Is_true_true. apply Is_true_true in H1, H2.
    exact (transitivity (R := String.le) H1 H2).
Qed.

Lemma Sorted_sort_insert d l :
  Sorted listed_before l → Sorted listed_before (sort_insert d l).
Proof.
  induction 1 as [|d' l Hl IH Hhd]; cbn [sort_insert].
  - repeat constructor.
  - destruct (key_le (sort_key d) (sort_key d')) eqn:E.
    + constructor; [by constructor|]. by constructor.
    + constructor; [exact IH|].
      apply key_le_total in E.
      destruct l as [|d'' l]; cbn [sort_insert].
      * by constructor.
      * destruct (key_le (sort_key d) (sort_key d'')); constructor; [exact E|].
        by inversion Hhd.
Qed.

Lemma Sorted_sort_devices l : Sorted listed_before (sort_devices l).
Proof.
  unfold sort_devices. induction l as [|d l IH]; cbn [foldr]; [constructor|].
  by apply Sorted_sort_insert.
Qed.

Lemma sort_insert_Permutation d l : sort_insert d l ≡ₚ d :: l.
Proof.
  induction l as [|d' l IH]; cbn [sort_insert]; [reflexivity|].
  destruct (key_le _ _); [reflexivity|]. rewrite IH. apply Permutation_swap.
Qed.

Lemma sort_devices_Permutation l : sort_devices l ≡ₚ l.
Proof.
  unfold sort_devices. induction l as [|d l IH]; cbn [foldr]; [reflexivity|].
  by rewrite sort_insert_Permutation, IH.
Qed.

Lemma StronglySorted_lookup_lt {A} (R : A → A → Prop) (l : list A) :
  StronglySorted R l →
  ∀ (i j : nat) a b, (i < j)%nat → l !! i = Some a → l !! j = Some b → R a b.
Proof.
  induction 1 as [|x l Hl IH Hall]; intros i j a b Hij Hi Hj.
  - rewrite lookup_nil in Hi. discriminate.
  - destruct j as [|j]; [lia|]. cbn in Hj. destruct i as [|i].
    + cbn in Hi. injection Hi as <-. rewrite Forall_forall in Hall.
      apply Hall. apply list_elem_of_lookup. eauto.
    + cbn in Hi. apply (IH i j); [lia | assumption | assumption].
Qed.

(** X9: the list a cycle publishes is the inventory it leaves, reordered:
    it holds the same records, it is sorted by lifecycle state and then by
    address (as strings), so that no ONLINE record stands after an OFFLINE
    one, and the count of seen devices is its length. *)
Theorem X9_published_list_sorted cfg aliases inp sc :
  let r := scan_cycle cfg aliases inp sc in
  snap_devices r.2 ≡ₚ (device_inventory r.1).*2 ∧
  StronglySorted listed_before (snap_devices r.2) ∧
  (∀ (i j : nat) di dj,
     (i < j)%nat → snap_devices r.2 !! i = Some di → snap_devices r.2 !! j = Some dj →
     get di "state" = VStr "OFFLINE" → get dj "state" = VStr "OFFLINE") ∧
  snap_seen r.2 = Z.of_nat (length (device_inventory r.1)).
Proof.
  cbv zeta.
  assert (Htrans : Transitive listed_before).
  { intros a b c. unfold listed_before. apply key_le_trans. }
  assert (Hss : StronglySorted listed_before
                  (snap_devices (scan_cycle cfg aliases inp sc).2)).
  { apply Sorted_StronglySorted; [exact Htrans|].
    unfold scan_cycle.
    destruct (fold_left _ (hosts inp) (sc, (0, 0))) as [sc1 [new crit]].
    destruct (offline_sweep _ _ _ _) as [inv2 [bl2 al2]].
    cbn [snd snap_devices]. apply Sorted_sort_devices. }
  split; [|split; [exact Hss|split]].
  - unfold scan_cycle.
    destruct (fold_left _ (hosts inp) (sc, (0, 0))) as [sc1 [new crit]].
    destruct (offline_sweep _ _ _ _) as [inv2 [bl2 al2]].
    cbn [fst snd snap_devices device_inventory]. apply sort_devices_Permutation.
  - intros i j di dj Hij Hi Hj Hoff.
    pose proof (StronglySorted_lookup_lt _ _ Hss i j di dj Hij Hi Hj) as Hle.
    unfold listed_before, key_le, sort_key in Hle. cbn [fst snd] in Hle.
    rewrite (bool_decide_eq_true_2 (get di "state" = VStr "OFFLINE")) in Hle
      by assumption.
    destruct (decide (get dj "state" = VStr "OFFLINE")) as [Hd|Hd]; [exact Hd|].
    rewrite (bool_decide_eq_false_2 (get dj "state" = VStr "OFFLINE")) in Hle
      by assumption.
    rewrite (bool_decide_eq_false_2 (true = false)) in Hle by discriminate.
    discriminate.
  - unfold scan_cycle.
    destruct (fold_left _ (hosts inp) (sc, (0, 0))) as [sc1 [new crit]].
    destruct (offline_sweep _ _ _ _) as [inv2 [bl2 al2]].
    cbn [fst snd snap_seen device_inventory].
    by rewrite length_sort_devices, !length_map.
Qed.

(** ** The offline detection as a whole *)




(** ** Removing the block rules *)

Lemma delete_first_count ip rs :
  length (filter (λ r, r = ip) (delete_first ip rs))
  = pred (length (filter (λ r, r = ip) rs)).
Proof.
  induction rs as [|r rs IH]; [reflexivity|]. cbn [delete_first].
  case_bool_decide as Hr.
  - by rewrite filter_cons_True by exact Hr.
  - rewrite !filter_cons_False by exact Hr. exact IH.
Qed.

Lemma delete_first_others ip rs :
  filter (λ r, r ≠ ip) (delete_first ip rs) = filter (λ r, r ≠ ip) rs.
Proof.
  induction rs as [|r rs IH]; [reflexivity|]. cbn [delete_first].
  case_bool_decide as Hr.
  - rewrite filter_cons_False; [reflexivity|]. intros H. by apply H.
  - rewrite !filter_cons_True by exact Hr. by rewrite IH.
Qed.

Lemma delete_first_notin ip rs : ip ∉ rs → delete_first ip rs = rs.
Proof.
  induction rs as [|r rs IH]; [reflexivity|]. intros Hnin.
  apply not_elem_of_cons in Hnin as [Hne Hnin]. cbn [delete_first].
  rewrite bool_decide_eq_false_2 by congruence. by rewrite IH.
Qed.

Lemma set_rules_same (c : chain) (h : host) : set_rules c (rules c h) h = h.
Proof. destruct h, c; reflexivity. Qed.

Lemma iptables_D_host (c : chain) (ip : string) (h : host) :
  accepts h ip = true →
  (iptables_D c ip h).1 = set_rules c (delete_first ip (rules c h)) h.
Proof.
  intros Hacc. unfold iptables_D. rewrite Hacc. cbn [andb].
  case_bool_decide as Hin; [reflexivity|]. cbn [fst].
  by rewrite (delete_first_notin _ _ Hin), set_rules_same.
Qed.

Lemma unblock_rounds_rules (n : nat) (ip : string) (h : host) (c : chain) :
  accepts h ip = true →
  rules c (unblock_rounds n ip h) = Nat.iter n (delete_first ip) (rules c h).
Proof.
  revert h. induction n as [|n IH]; intros h Hacc; [reflexivity|].
  cbn [unblock_rounds]. rewrite (iptables_D_host INPUT ip h Hacc).
  rewrite iptables_D_host by (destruct h; exact Hacc).
  rewrite IH by (destruct h; exact Hacc).
  rewrite Nat.iter_succ_r. destruct h, c; reflexivity.
Qed.


Lemma iter_delete_first_count (n : nat) ip rs :
  length (filter (λ r, r = ip) (Nat.iter n (delete_first ip) rs))
  = (length (filter (λ r, r = ip) rs) - n)%nat.
Proof.
  induction n as [|n IH]; [cbn; lia|].
  rewrite Nat.iter_succ, delete_first_count, IH. lia.
Qed.

Lemma iter_delete_first_others (n : nat) ip rs :
  filter (λ r, r ≠ ip) (Nat.iter n (delete_first ip) rs) = filter (λ r, r ≠ ip) rs.
Proof.
  induction n as [|n IH]; [reflexivity|].
  by rewrite Nat.iter_succ, delete_first_others.
Qed.

(** X11: on a machine where the firewall can be changed, [ips_unblock_ip]
    reports success and removes up to six block rules for the address from
    each chain, no more: a chain that held [n] of them holds [n - 6]
    afterwards (none when [n <= 6]), and the rules for other addresses stay
    as they were, in their order. *)
Theorem X11_unblock_removes_six (ip : string) (h : host) :
  ip ≠ "" → can_block ip h →
  (ips_unblock_ip ip h).2 = (true, "Unquarantined (attempted rule removal).") ∧
  ∀ c : chain,
    rule_count c ip (ips_unblock_ip ip h).1 = (rule_count c ip h - 6)%nat ∧
    filter (λ r, r ≠ ip) (rules c (ips_unblock_ip ip h).1)
      = filter (λ r, r ≠ ip) (rules c h).
Proof.
  intros Hip (Hroot & Hfound & Hacc). unfold ips_unblock_ip.
  rewrite (truthy_true ip Hip), Hroot, Hfound. cbn [negb Z.eqb fst snd].
  split; [reflexivity|]. intros c. unfold rule_count.
  rewrite (unblock_rounds_rules 6 ip h c Hacc).
  split; [apply iter_delete_first_count | apply iter_delete_first_others].
Qed.

Lemma X11_unblock_removes_six_witness :
  rule_count INPUT "10.0.0.5"
    (ips_unblock_ip "10.0.0.5"
       (mk_host 0 true (λ _, true) ""
          (replicate 7 "10.0.0.5" ++ ["10.0.0.9"]) ["10.0.0.5"])).1 = 1%nat.
Proof.
  apply (X11_unblock_removes_six "10.0.0.5"
           (mk_host 0 true (λ _, true) ""
              (replicate 7 "10.0.0.5" ++ ["10.0.0.9"]) ["10.0.0.5"])).
  - discriminate.
  - repeat split.
Defined.

(** ** Quarantine and release *)







(** ** From the quarantine request to the scan *)

Lemma upper_nonempty (s : string) : Py.upper s = "" → s = "".
Proof. destruct s; [reflexivity | discriminate]. Qed.

(** A quarantine request answered with [ok] named a device and stored a
    record under its key. *)
Lemma api_ips_quarantine_ok (body : gmap string string) (w : world) :
  ok (api_ips_quarantine body w).2 = true →
  (request_mac body = "" → request_ip body ≠ "") ∧
  ∃ rec, quarantine (api_ips_quarantine body w).1
         = <[ request_key body := rec ]> (quarantine w).
Proof.
  unfold api_ips_quarantine, request_key.
  fold (request_ip body) (request_mac body).
  destruct (Py.truthy (request_ip body)) eqn:Eip; cbn [negb andb].
  - intros Hok. split; [intros _; by apply truthy_iff|].
    destruct (ips_block_ip (request_ip body) (machine w)) as [h [[] m]];
      cbn [negb] in *; [|discriminate].
    eexists. reflexivity.
  - destruct (Py.truthy (request_mac body)) eqn:Emac; cbn [negb]; [|discriminate].
    intros _. split.
    + intros Hm. rewrite Hm in Emac. discriminate.
    + eexists. reflexivity.
Qed.

(** X13: once a quarantine request has been answered with [ok], a scan
    that reads the store flags the device the request names: the record it
    stores for a host with the requested hardware address (in any case),
    or, for a request without a hardware address, with the requested
    address, has its quarantined flag set and the risk CRITICAL, whatever
    its ports and fingerprint. *)
Theorem X13_quarantined_device_is_flagged (body : gmap string string) (w : world)
    cfg aliases nf nh (o : observation) (sc : scanner) cnt (d : gmap string pyval) :
  ok (api_ips_quarantine body w).2 = true →
  quarantine_file o = quarantine (api_ips_quarantine body w).1 →
  inv_get (host_key cfg o (device_inventory sc))
    (device_inventory (scan_host cfg aliases nf nh o (sc, cnt)).1) = Some d →
  request_names body (host_ip o) (as_opt (get d "mac")) →
  get d "quarantined" = VBool true ∧ get d "risk" = VStr "CRITICAL".
Proof.
  intros Hok Hq Hd Hnames.
  destruct (api_ips_quarantine_ok body w Hok) as (Hip & rec & Hstore).
  destruct (scan_host_spec cfg aliases nf nh o sc cnt)
    as (device & entry & cnt' & ports & os & Hscan & _ & _ & _ & _ & _ & Hqd & Hrisk).
  rewrite Hscan in Hd. cbn [fst device_inventory] in Hd.
  rewrite inv_get_set_eq in Hd. injection Hd as <-.
  assert (Hflag : is_quarantined (quarantine_file o) (host_ip o)
                    (as_opt (get device "mac")) = true).
  { rewrite Hq, Hstore. apply is_quarantined_iff.
    unfold request_names, request_key in *.
    destruct (Py.truthy (request_mac body)) eqn:Emac.
    - left. destruct Hnames as (m & Hm & Hup). exists m.
      split; [exact Hm|]. split.
      + intros ->. apply truthy_iff in Emac. apply Emac.
        apply upper_nonempty. by rewrite <- Hup.
      + rewrite Hup. apply elem_of_dom. rewrite lookup_insert_eq. eauto.
    - right. rewrite Hnames. split.
      + apply Hip. destruct (decide (request_mac body = "")) as [|Hne]; [done|].
        apply truthy_iff in Hne. congruence.
      + apply elem_of_dom. rewrite lookup_insert_eq. eauto. }
  rewrite Hqd, Hrisk, Hflag. split; reflexivity.
Qed.

Lemma X13_quarantined_device_is_flagged_witness :
  get example_flagged_record "quarantined" = VBool true ∧
  get example_flagged_record "risk" = VStr "CRITICAL".
Proof.
  apply (X13_quarantined_device_is_flagged example_request example_world
           example_cfg ∅ "2024-01-01 10:00:00" "10:00:00"
           example_host_after_request (scanner_start ∅ []) (0, 0)
           example_flagged_record).
  - vm_compute; reflexivity.
  - reflexivity.
  - vm_compute; reflexivity.
  - vm_compute; reflexivity.
Defined.

(** ** Restoring the block rules at start *)

Lemma rule_count_ensure_rule (c c0 : chain) (ip ip0 : string) (h : host) :
  rule_count c ip (ensure_rule c0 ip0 h)
  = if bool_decide (c = c0 ∧ ip = ip0) then Nat.max 1 (rule_count c ip h)
    else rule_count c ip h.
Proof.
  case_bool_decide as Hc.
  - destruct Hc as [-> ->]. apply ensure_rule_count.
  - destruct (decide (c0 = c)) as [->|Hne].
    + assert (ip ≠ ip0) by (intros ->; apply Hc; done).
      unfold ensure_rule. case_bool_decide; [reflexivity|].
      unfold rule_count. destruct c, h; cbn [rules set_rules input_rules forward_rules];
        by rewrite filter_cons_False by congruence.
    + unfold rule_count. by rewrite ensure_rule_other.
Qed.

Lemma ensure_rule_id (c : chain) (ip : string) (h : host) :
  ip ∈ rules c h → ensure_rule c ip h = h.
Proof. intros H. unfold ensure_rule. by rewrite bool_decide_eq_true_2. Qed.

(** With the rights to do so, the loop puts a rule for every address of
    the file on both chains, unless one is there. *)
Lemma restore_fold (q : list (string * gmap string string)) (h : host) (a : Z) :
  euid h = 0 → iptables_found h = true →
  (∀ ip, ip ∈ quarantine_ips q → accepts h ip = true) →
  fold_left restore_rule q (h, a)
  = (foldl (λ h ip, ensure_rule FORWARD ip (ensure_rule INPUT ip h)) h
       (quarantine_ips q),
     a + Z.of_nat (length (quarantine_ips q))).
Proof.
  revert h a. induction q as [|item q IH]; intros h a Hroot Hfound Hacc.
  - cbn. f_equal. lia.
  - cbn [fold_left]. unfold restore_rule at 2. cbv zeta.
    unfold quarantine_ips in *. cbn [map] in *.
    destruct (decide (Py.or_else (item.2 !! "ip") "" = "")) as [He|Hne].
    + rewrite (truthy_false _ He). rewrite filter_cons_False in * by tauto.
      by apply IH.
    + rewrite (truthy_true _ Hne). rewrite filter_cons_True in * by exact Hne.
      assert (Hcan : can_block (Py.or_else (item.2 !! "ip") "") h).
      { split; [exact Hroot|]. split; [exact Hfound|].
        apply Hacc, list_elem_of_here. }
      rewrite (ips_block_ip_success _ _ Hne Hcan).
      destruct (can_block_ensure_rule FORWARD _ _
                  (can_block_ensure_rule INPUT _ _ Hcan)) as (Hroot' & Hfound' & _).
      rewrite IH; [cbn [foldl length]; f_equal; lia|exact Hroot'|exact Hfound'|].
      intros ip Hip.
      destruct (ensure_rule_fields FORWARD (Py.or_else (item.2 !! "ip") "")
                  (ensure_rule INPUT (Py.or_else (item.2 !! "ip") "") h))
        as (_ & _ & ->).
      destruct (ensure_rule_fields INPUT (Py.or_else (item.2 !! "ip") "") h)
        as (_ & _ & ->).
      by apply Hacc, list_elem_of_further.
Qed.

Lemma rule_count_block_all (ips : list string) (h : host) (c : chain) (ip : string) :
  rule_count c ip
    (foldl (λ h ip, ensure_rule FORWARD ip (ensure_rule INPUT ip h)) h ips)
  = if bool_decide (ip ∈ ips) then Nat.max 1 (rule_count c ip h)
    else rule_count c ip h.
Proof.
  revert h. induction ips as [|ip0 ips IH]; intros h; [reflexivity|].
  cbn [foldl]. rewrite IH, !rule_count_ensure_rule.
  destruct (decide (ip = ip0)) as [->|Hne].
  - rewrite (bool_decide_eq_true_2 (ip0 ∈ ip0 :: ips)) by apply list_elem_of_here.
    destruct c.
    + rewrite (bool_decide_eq_false_2 (INPUT = FORWARD ∧ _)) by (intros [? _]; done).
      rewrite (bool_decide_eq_true_2 (INPUT = INPUT ∧ _)) by done.
      case_bool_decide; lia.
    + rewrite (bool_decide_eq_true_2 (FORWARD = FORWARD ∧ _)) by done.
      rewrite (bool_decide_eq_false_2 (FORWARD = INPUT ∧ _)) by (intros [? _]; done).
      case_bool_decide; lia.
  - rewrite !(bool_decide_eq_false_2 (_ ∧ ip = ip0)) by (intros [_ ?]; done).
    destruct (decide (ip ∈ ips)) as [Hin|Hnin].
    + rewrite !bool_decide_eq_true_2; [reflexivity| |exact Hin].
      by apply list_elem_of_further.
    + rewrite !bool_decide_eq_false_2; [reflexivity| |exact Hnin].
      intros Hin. apply elem_of_cons in Hin as [?|?]; done.
Qed.

Lemma block_all_id (ips : list string) (h : host) :
  (∀ c ip, ip ∈ ips → ip ∈ rules c h) →
  foldl (λ h ip, ensure_rule FORWARD ip (ensure_rule INPUT ip h)) h ips = h.
Proof.
  induction ips as [|ip0 ips IH]; intros Hin; [reflexivity|].
  cbn [foldl]. rewrite (ensure_rule_id INPUT) by apply Hin, list_elem_of_here.
  rewrite (ensure_rule_id FORWARD) by apply Hin, list_elem_of_here.
  apply IH. intros c ip Hip. by apply Hin, list_elem_of_further.
Qed.

Lemma block_all_fields (ips : list string) (h : host) :
  let h' := foldl (λ h ip, ensure_rule FORWARD ip (ensure_rule INPUT ip h)) h ips in
  euid h' = euid h ∧ iptables_found h' = iptables_found h ∧ accepts h' = accepts h.
Proof.
  revert h. induction ips as [|ip0 ips IH]; intros h; [by cbn|].
  cbn [foldl]. cbv zeta in *. destruct (IH (ensure_rule FORWARD ip0 (ensure_rule INPUT ip0 h)))
    as (-> & -> & ->).
  destruct (ensure_rule_fields FORWARD ip0 (ensure_rule INPUT ip0 h)) as (-> & -> & ->).
  apply ensure_rule_fields.
Qed.

(** X14: run as root on a machine with [iptables] that accepts the
    addresses of the quarantine file, the restore at start leaves at least
    one block rule on each chain for every address a record gives and adds
    none where one is there (a chain holding [n] rules for such an address
    holds [max 1 n] afterwards), leaves the rules of all other addresses
    alone, counts every record that gives an address, and changes nothing
    when it is run again. *)
Theorem X14_restore_rules (q : list (string * gmap string string)) (h : host) :
  euid h = 0 → iptables_found h = true →
  (∀ ip, ip ∈ quarantine_ips q → accepts h ip = true) →
  let r := apply_quarantine_rules_from_file q h in
  (∀ c ip, rule_count c ip r.1
           = if bool_decide (ip ∈ quarantine_ips q)
             then Nat.max 1 (rule_count c ip h) else rule_count c ip h) ∧
  r.2 = Z.of_nat (length (quarantine_ips q)) ∧
  (apply_quarantine_rules_from_file q r.1).1 = r.1.
Proof.
  intros Hroot Hfound Hacc. cbv zeta. unfold apply_quarantine_rules_from_file.
  rewrite (restore_fold q h 0 Hroot Hfound Hacc). cbn [fst snd].
  split; [intros c ip; apply rule_count_block_all|].
  split; [lia|].
  destruct (block_all_fields (quarantine_ips q) h) as (He & Hf & Ha).
  rewrite restore_fold; [cbn [fst]| congruence | congruence |].
  - apply block_all_id. intros c ip Hip.
    assert (Hc := rule_count_block_all (quarantine_ips q) h c ip).
    rewrite bool_decide_eq_true_2 in Hc by exact Hip.
    destruct (decide (ip ∈ rules c
                (foldl (λ h ip, ensure_rule FORWARD ip (ensure_rule INPUT ip h)) h
                   (quarantine_ips q)))) as [|Hnin]; [assumption|].
    apply rule_count_elem in Hnin. lia.
  - intros ip Hip. rewrite Ha. by apply Hacc.
Qed.

Lemma X14_restore_rules_witness :
  (apply_quarantine_rules_from_file example_quarantine_items root_host).2 = 2.
Proof.
  destruct (X14_restore_rules example_quarantine_items root_host)
    as (_ & Happlied & _).
  - reflexivity.
  - reflexivity.
  - intros ip _. reflexivity.
  - exact Happlied.
Defined.

(** ** Without the rights of root *)

Lemma restore_fold_not_root (q : list (string * gmap string string)) (h : host) (a : Z) :
  euid h ≠ 0 → fold_left restore_rule q (h, a) = (h, a).
Proof.
  intros Hroot. induction q as [|item q IH]; [reflexivity|].
  cbn [fold_left]. unfold restore_rule at 2. cbv zeta.
  destruct (Py.truthy _) eqn:Eip; [|exact IH].
  unfold ips_block_ip. rewrite Eip. cbn [negb].
  rewrite (proj2 (Z.eqb_neq _ _) Hroot). cbn [negb]. exact IH.
Qed.

(** X15: a process that does not run as root never changes the firewall:
    blocking, unblocking, the restore at start and both request handlers
    leave the machine as it is; the restore applies nothing, and a
    quarantine request that gives an address is refused with status 400
    and stores no record. *)
Theorem X15_not_root_changes_nothing (h : host) (w : world) (ip : string)
    (q : list (string * gmap string string)) (body : gmap string string) :
  euid h ≠ 0 → euid (machine w) ≠ 0 →
  (ips_block_ip ip h).1 = h ∧ (ips_unblock_ip ip h).1 = h ∧
  apply_quarantine_rules_from_file q h = (h, 0) ∧
  machine (api_ips_quarantine body w).1 = machine w ∧
  machine (api_ips_unquarantine body w).1 = machine w ∧
  (request_ip body ≠ "" →
   status (api_ips_quarantine body w).2 = 400 ∧
   quarantine (api_ips_quarantine body w).1 = quarantine w).
Proof.
  intros Hh Hw.
  assert (Hb : ∀ h ip, euid h ≠ 0 → ∃ m, ips_block_ip ip h = (h, (false, m))).
  { intros h0 ip0 H0. unfold ips_block_ip.
    destruct (Py.truthy ip0); cbn [negb]; [|eauto].
    rewrite (proj2 (Z.eqb_neq _ _) H0). cbn [negb]. eauto. }
  assert (Hu : ∀ h ip, euid h ≠ 0 → ∃ m, ips_unblock_ip ip h = (h, (false, m))).
  { intros h0 ip0 H0. unfold ips_unblock_ip.
    destruct (Py.truthy ip0); cbn [negb]; [|eauto].
    rewrite (proj2 (Z.eqb_neq _ _) H0). cbn [negb]. eauto. }
  split; [destruct (Hb h ip Hh) as [m ->]; reflexivity|].
  split; [destruct (Hu h ip Hh) as [m ->]; reflexivity|].
  split; [apply restore_fold_not_root, Hh|].
  unfold api_ips_quarantine, api_ips_unquarantine.
  fold (request_ip body) (request_mac body).
  destruct (Hb (machine w) (request_ip body) Hw) as [m1 ->].
  destruct (Hu (machine w) (request_ip body) Hw) as [m2 ->].
  cbn [negb].
  split; [|split].
  - destruct (Py.truthy (request_ip body)), (Py.truthy (request_mac body));
      reflexivity.
  - destruct (Py.truthy (request_ip body)), (Py.truthy (request_mac body));
      reflexivity.
  - intros Hip. rewrite (truthy_true _ Hip). cbn [negb andb]. split; reflexivity.
Qed.

Lemma X15_not_root_changes_nothing_witness :
  apply_quarantine_rules_from_file
    [("IP:10.0.0.5", {[ "ip" := "10.0.0.5" ]})] user_host = (user_host, 0).
Proof.
  apply (X15_not_root_changes_nothing user_host
           (mk_world "2024-01-01 00:00:00" user_host ∅ []) "10.0.0.5"
           [("IP:10.0.0.5", {[ "ip" := "10.0.0.5" ]})] {[ "ip" := "10.0.0.5" ]});
    discriminate.
Defined.

(** ** Reading the alerts back *)

Lemma slice_from_last {A} (n : Z) (l : list A) :
  0 < n → reverse (slice_from (- n) l) = take (Z.to_nat n) (reverse l).
Proof.
  intros Hn. unfold slice_from.
  rewrite (proj2 (Z.ltb_lt (- n) 0)) by lia.
  rewrite take_reverse. do 2 f_equal. lia.
Qed.

Lemma length_omap_id {A} (l : list (option A)) :
  (length (omap id l) ≤ length l)%nat.
Proof.
  induction l as [|[x|] l IH]; cbn; lia.
Qed.

Lemma omap_id_Some {A} (l : list A) : omap id (Some <$> l) = l.
Proof. induction l as [|x l IH]; cbn; [reflexivity|]. by rewrite IH. Qed.

(** X16: whatever limit is configured or requested, [/api/alerts] reads
    between 1 and 200 lines: it answers with the events of the last [n]
    lines of the alerts file, the newest first, skipping the lines that do
    not parse, where [n] is the limit clamped to 1..200 (25 when none is
    given).  On a file that only [emit_event] wrote to, these are the last
    [n] events in reverse order, and the event written last is the first
    of the answer. *)
Theorem X16_api_alerts_newest_first (env arg : option Z) :
  let n := Z.to_nat (Z.max 1 (Z.min 200 (default (default 25 env) arg))) in
  (1 ≤ n ≤ 200)%nat ∧
  (∀ lines, api_alerts env arg (Some lines) = omap id (take n (reverse lines)) ∧
            (length (api_alerts env arg (Some lines)) ≤ n)%nat) ∧
  (∀ alerts, api_alerts env arg (alert_lines alerts) = take n (reverse alerts)) ∧
  (∀ kind severity title details alerts,
     head (api_alerts env arg
             (alert_lines (emit_event kind severity title details alerts)))
     = Some (mk_event kind severity title details)) ∧
  api_alerts env arg None = [].
Proof.
  cbv zeta. split; [lia|].
  assert (Hlines : ∀ lines, api_alerts env arg (Some lines)
            = omap id (take (Z.to_nat (Z.max 1 (Z.min 200 (default (default 25 env) arg))))
                         (reverse lines))).
  { intros lines. unfold api_alerts, tail_events.
    rewrite slice_from_last by lia. reflexivity. }
  assert (Halerts : ∀ alerts, api_alerts env arg (alert_lines alerts)
            = take (Z.to_nat (Z.max 1 (Z.min 200 (default (default 25 env) arg))))
                (reverse alerts)).
  { intros alerts. unfold alert_lines. rewrite Hlines.
    rewrite <- fmap_reverse, <- fmap_take. apply omap_id_Some. }
  split; [|split; [exact Halerts|split; [|reflexivity]]].
  - intros lines. split; [apply Hlines|]. rewrite Hlines.
    etransitivity; [apply length_omap_id|]. rewrite length_take. lia.
  - intros k s t d alerts. rewrite Halerts. unfold emit_event.
    rewrite reverse_snoc.
    destruct (Z.to_nat (Z.max 1 (Z.min 200 (default (default 25 env) arg)))) eqn:E;
      [lia | reflexivity].
Qed.

(** ** The ARP monitor *)

Lemma arp_line_spec known alerts entry :
  arp_line (known, alerts) entry
  = (<[ entry.1 := Py.lower entry.2 ]> known,
     alerts ++ (if arp_changed known entry
                then [mk_event "IDS_ARP_SPOOF_SIGNAL" (VStr "CRITICAL")
                        [Lit "ARP spoof signal: "; Interp (VStr entry.1);
                         Lit " changed MAC ";
                         Interp (VStr (default "" (known !! entry.1)));
                         Lit " → "; Interp (VStr (Py.lower entry.2))]
                        [("ip", VStr entry.1);
                         ("old_mac", VStr (default "" (known !! entry.1)));
                         ("new_mac", VStr (Py.lower entry.2));
                         ("note", VStr "Verify with router/AP logs")]]
                else [])).
Proof.
  unfold arp_line, arp_changed, when, emit_event.
  destruct (known !! entry.1) as [old|]; cbn [default].
  - destruct (negb _); [reflexivity | by rewrite app_nil_r].
  - by rewrite app_nil_r.
Qed.

Lemma filter_ext_elem {A} (P Q : A → Prop) `{!∀ x, Decision (P x)}
    `{!∀ x, Decision (Q x)} (l : list A) :
  (∀ x, x ∈ l → P x ↔ Q x) → filter P l = filter Q l.
Proof.
  induction l as [|x l IH]; intros Hl; [reflexivity|].
  assert (Hx : P x ↔ Q x) by apply Hl, list_elem_of_here.
  assert (Ht : filter P l = filter Q l)
    by (apply IH; intros y Hy; apply Hl; by apply list_elem_of_further).
  destruct (decide (P x)) as [Hp|Hp].
  - rewrite !filter_cons_True by tauto. by rewrite Ht.
  - rewrite !filter_cons_False by tauto. exact Ht.
Qed.

Lemma arp_pass_spec entries known alerts :
  NoDup entries.*1 →
  ∃ evs,
    (arp_pass (Some entries) (known, alerts)).2 = alerts ++ evs ∧
    length evs = length (filter (λ e, arp_changed known e = true) entries) ∧
    Forall (λ e, kind e = "IDS_ARP_SPOOF_SIGNAL" ∧ severity e = VStr "CRITICAL") evs ∧
    (∀ ip mac, (ip, mac) ∈ entries →
       (arp_pass (Some entries) (known, alerts)).1 !! ip = Some (Py.lower mac)) ∧
    (∀ ip, ip ∉ entries.*1 →
       (arp_pass (Some entries) (known, alerts)).1 !! ip = known !! ip).
Proof.
  unfold arp_pass. revert known alerts.
  induction entries as [|[ip0 mac0] entries IH]; intros known alerts Hnd.
  - exists []. rewrite app_nil_r. cbn. repeat split; [constructor|].
    intros ip mac Hin. inversion Hin.
  - rewrite fmap_cons in Hnd. apply NoDup_cons in Hnd as [Hip0 Hnd]. cbn [fst] in Hip0.
    cbn [fold_left]. rewrite arp_line_spec. cbn [fst snd].
    match goal with
    | |- context [fold_left arp_line entries (?k, ?a)] =>
        destruct (IH k a Hnd) as (evs & Hal & Hlen & Hall & Hin & Hout)
    end.
    eexists (_ ++ evs). split; [rewrite Hal, <- app_assoc; reflexivity|].
    assert (Hfilter : filter (λ e, arp_changed (<[ ip0 := Py.lower mac0 ]> known) e = true)
                        entries
                      = filter (λ e, arp_changed known e = true) entries).
    { apply filter_ext_elem. intros [ip mac] He.
      unfold arp_changed. cbn [fst snd].
      rewrite lookup_insert_ne; [reflexivity|].
      intros <-. apply Hip0, list_elem_of_fmap. by exists (ip0, mac). }
    split; [|split; [|split]].
    + rewrite length_app, Hlen, Hfilter.
      destruct (arp_changed known (ip0, mac0)) eqn:Ech.
      * by rewrite filter_cons_True by exact Ech.
      * rewrite filter_cons_False by (rewrite Ech; discriminate). reflexivity.
    + apply Forall_app. split; [|exact Hall].
      destruct (arp_changed known (ip0, mac0)); repeat constructor.
    + intros ip mac Hel. apply elem_of_cons in Hel as [Heq|Hel].
      * injection Heq as -> ->. rewrite Hout by exact Hip0.
        apply lookup_insert_eq.
      * by apply Hin.
    + intros ip Hnin. cbn [fmap list_fmap fst] in Hnin.
      apply not_elem_of_cons in Hnin as [Hne Hnin].
      rewrite Hout by exact Hnin. by rewrite lookup_insert_ne.
Qed.

(** X17: one pass of the ARP monitor over a table that lists every address
    once records, for each listed address, the hardware address in lower
    case, leaves the other addresses as they were, and writes one event
    (IDS_ARP_SPOOF_SIGNAL, CRITICAL) for each listed address that was
    known with a hardware address other than the listed one in lower
    case, none for an address seen for the first time; a second pass over
    the same table writes nothing and changes nothing. *)
Theorem X17_arp_pass (entries : list (string * string))
    (known : gmap string string) (alerts : list event) :
  NoDup entries.*1 →
  let r := arp_pass (Some entries) (known, alerts) in
  (∃ evs, r.2 = alerts ++ evs ∧
     length evs = length (filter (λ e, arp_changed known e = true) entries) ∧
     Forall (λ e, kind e = "IDS_ARP_SPOOF_SIGNAL" ∧ severity e = VStr "CRITICAL") evs) ∧
  (∀ ip mac, (ip, mac) ∈ entries → r.1 !! ip = Some (Py.lower mac)) ∧
  (∀ ip, ip ∉ entries.*1 → r.1 !! ip = known !! ip) ∧
  arp_pass (Some entries) r = r.
Proof.
  intros Hnd. cbv zeta.
  destruct (arp_pass_spec entries known alerts Hnd)
    as (evs & Hal & Hlen & Hall & Hin & Hout).
  split; [by exists evs|]. split; [exact Hin|]. split; [exact Hout|].
  destruct (arp_pass (Some entries) (known, alerts)) as [known' alerts'] eqn:E.
  cbn [fst snd] in *.
  destruct (arp_pass_spec entries known' alerts' Hnd)
    as (evs2 & Hal2 & Hlen2 & _ & Hin2 & Hout2).
  assert (Hnone : filter (λ e, arp_changed known' e = true) entries = []).
  { destruct (filter (λ e, arp_changed known' e = true) entries)
      as [|[ip mac] l] eqn:Ef; [reflexivity|].
    assert (Hx : (ip, mac) ∈ filter (λ e, arp_changed known' e = true) entries)
      by (rewrite Ef; apply list_elem_of_here).
    apply list_elem_of_filter in Hx as [Hch Hx].
    unfold arp_changed in Hch. cbn [fst snd] in Hch.
    rewrite (Hin ip mac Hx) in Hch.
    by rewrite bool_decide_eq_true_2 in Hch by reflexivity. }
  rewrite Hnone in Hlen2. destruct evs2; [|discriminate].
  rewrite app_nil_r in Hal2.
  destruct (arp_pass (Some entries) (known', alerts')) as [known2 alerts2] eqn:E2.
  cbn [fst snd] in *. subst alerts2. f_equal.
  apply map_eq. intros ip.
  destruct (decide (ip ∈ entries.*1)) as [Hel|Hnel].
  - apply list_elem_of_fmap in Hel as ([ip' mac] & -> & Hel). cbn [fst].
    by rewrite (Hin _ _ Hel), (Hin2 _ _ Hel).
  - by apply Hout2.
Qed.

Lemma X17_arp_pass_witness :
  (arp_pass (Some [("10.0.0.5", "AA:BB:CC:DD:EE:FF"); ("10.0.0.9", "11:22:33:44:55:66")])
     ({[ "10.0.0.5" := "aa:bb:cc:dd:ee:ff"; "10.0.0.9" := "11:22:33:44:55:77" ]}, [])).1
    !! "10.0.0.9" = Some "11:22:33:44:55:66".
Proof.
  destruct (X17_arp_pass
              [("10.0.0.5", "AA:BB:CC:DD:EE:FF"); ("10.0.0.9", "11:22:33:44:55:66")]
              {[ "10.0.0.5" := "aa:bb:cc:dd:ee:ff"; "10.0.0.9" := "11:22:33:44:55:77" ]}
              [])
    as (_ & Hin & _).
  - apply (bool_decide_unpack (NoDup ["10.0.0.5"; "10.0.0.9"])). vm_compute. exact I.
  - apply (Hin "10.0.0.9" "11:22:33:44:55:66").
    apply (bool_decide_unpack
             (("10.0.0.9", "11:22:33:44:55:66")
              ∈ [("10.0.0.5", "AA:BB:CC:DD:EE:FF"); ("10.0.0.9", "11:22:33:44:55:66")])).
    vm_compute. exact I.
Defined.

(** A table that lists an address with two hardware addresses raises the
    signal on every pass. *)
Example arp_two_interfaces :
  let table := Some [("10.0.0.5", "aa:bb:cc:dd:ee:01"); ("10.0.0.5", "aa:bb:cc:dd:ee:02")] in
  length (ids_arp_monitor [table] []).2 = 1%nat ∧
  length (ids_arp_monitor [table; table] []).2 = 3%nat ∧
  length (ids_arp_monitor [table; table; table] []).2 = 5%nat.
Proof. vm_compute. auto. Qed.

(** ** The radio sensors *)

Lemma Sorted_take {A} (R : A → A → Prop) (l : list A) (n : nat) :
  Sorted R l → Sorted R (take n l).
Proof.
  intros Hs. revert n. induction Hs as [|x l Hs IH Hhd]; intros n.
  - by rewrite take_nil.
  - destruct n as [|n]; [constructor|]. cbn [take]. constructor; [apply IH|].
    destruct Hhd as [|y l' Hxy]; [by rewrite take_nil|].
    destruct n; constructor. exact Hxy.
Qed.

Lemma length_sorted (s : gset string) : length (sorted s) = size s.
Proof.
  unfold sorted. rewrite (Permutation_length (merge_sort_Permutation _ _)).
  reflexivity.
Qed.

Lemma new_in_range (scan : list string) (prev : gset string) :
  let new := sorted (list_to_set scan ∖ prev) in
  ((∀ x, x ∈ scan → x ∈ prev) → new = []) ∧
  ((∃ x, x ∈ scan ∧ x ∉ prev) → new ≠ []) ∧
  (length (take 20 new) ≤ 20)%nat ∧
  (length (take 20 new) = 20 ∨
   length (take 20 new) = size (list_to_set scan ∖ prev : gset string))%nat ∧
  Sorted String.le (take 20 new) ∧ NoDup (take 20 new) ∧
  (∀ x, x ∈ take 20 new → x ∈ scan ∧ x ∉ prev) ∧
  sorted (list_to_set scan ∖ list_to_set scan) = [].
Proof.
  cbv zeta.
  assert (Hel : ∀ x, x ∈ sorted (list_to_set scan ∖ prev) ↔ x ∈ scan ∧ x ∉ prev).
  { intros x. rewrite elem_of_sorted, elem_of_difference, elem_of_list_to_set.
    reflexivity. }
  assert (Hnil : ∀ s : gset string, s = ∅ → sorted s = []).
  { intros s ->. reflexivity. }
  split; [|split; [|split; [|split; [|split; [|split; [|split]]]]]].
  - intros Hall. destruct (sorted _) as [|x l]; [reflexivity|].
    destruct (proj1 (Hel x) (list_elem_of_here _ _)) as [Hx Hn].
    destruct Hn. by apply Hall.
  - intros (x & Hx & Hn) E.
    assert (Hx' : x ∈ sorted (list_to_set scan ∖ prev)) by (by apply Hel).
    rewrite E in Hx'. inversion Hx'.
  - rewrite length_take. lia.
  - rewrite length_take, length_sorted. lia.
  - apply Sorted_take, Sorted_sorted.
  - eapply sublist_NoDup; [apply NoDup_sorted | apply sublist_take].
  - intros x Hx. apply Hel.
    eapply elem_of_sublist; [exact Hx | apply sublist_take].
  - apply Hnil. apply set_eq. intros x.
    rewrite elem_of_difference. split; [tauto|]. intros Hx. inversion Hx.
Qed.

(** X18: after a Wi-Fi scan, and likewise after a Bluetooth scan, the
    radio thread reports the identifiers that came into range since the
    previous scan: no event when there is none, otherwise one INFO event
    whose title counts them and whose details list at most twenty, in
    ascending order and without repetition, each of them in the scan and
    not in the previous one; the same scan a second time writes
    nothing. *)
Theorem X18_radio_reports_new :
  reports_new wifi_step "WIFI_NEW_AP" "New Wi-Fi AP(s) detected: " "bssids" ∧
  reports_new bt_step "BT_NEW_DEVICE" "New Bluetooth device(s) detected: " "macs".
Proof.
  split; intros scan prev alerts;
    destruct (new_in_range scan prev)
      as (Hnone & Hsome & Hlen & Hlen' & Hsorted & Hnd & Hel & Hsame);
    (split; [reflexivity|]); cbn [wifi_step bt_step fst snd];
    (split; [|split]).
  1, 4: intros Hall; rewrite (Hnone Hall); reflexivity.
  1, 3: intros Hex; exists (take 20 (sorted (list_to_set scan ∖ prev)));
    unfold when, emit_event;
    rewrite (bool_decide_eq_false_2 _ (Hsome Hex)); cbn [negb];
    rewrite length_sorted; auto 10.
  1, 2: rewrite Hsame; reflexivity.
Qed.

(** An access point that is out of range for one scan is reported again
    when it is back. *)
Example wifi_back_in_range :
  of_kind "WIFI_NEW_AP"
    (wifi_step ["aa:bb"] (wifi_step [] (wifi_step ["aa:bb"] (∅, [])))).2
  = [ mk_event "WIFI_NEW_AP" (VStr "INFO")
        [Lit "New Wi-Fi AP(s) detected: "; Interp (VNum 1)] [("bssids", VList ["aa:bb"])];
      mk_event "WIFI_NEW_AP" (VStr "INFO")
        [Lit "New Wi-Fi AP(s) detected: "; Interp (VNum 1)] [("bssids", VList ["aa:bb"])] ].
Proof. vm_compute. reflexivity. Qed.

(** ** The vendor cache *)

(** X19: for a hardware address that is not empty, [get_vendor] either
    finds or stores an entry for the uppercased first eight characters, and
    then every later lookup of an address with these first eight
    characters (in any case) gives the same vendor and leaves the cache as
    it is, whatever the vendor service answers; or it answers Unknown and
    leaves the cache as it was.  No other entry of the cache is touched,
    and an entry that is there is never replaced. *)
Theorem X19_vendor_cache (mac : string) (cache : gmap string string)
    (response : http_result) (writable : bool) :
  mac ≠ "" →
  let mac_prefix := Py.upper (String.substring 0 8 mac) in
  let r := Vendor.get_vendor mac cache response writable in
  (∀ v, r.1 !! mac_prefix = Some v →
     r.2 = v ∧
     ∀ mac' response' writable',
       mac' ≠ "" → Py.upper (String.substring 0 8 mac') = mac_prefix →
       Vendor.get_vendor mac' r.1 response' writable' = r) ∧
  (r.1 !! mac_prefix = None → r = (cache, "Unknown")) ∧
  (∀ k, k ≠ mac_prefix → r.1 !! k = cache !! k) ∧
  (∀ v, cache !! mac_prefix = Some v → r = (cache, v)).
Proof.
  intros Hmac. cbv zeta.
  assert (Hhit : ∀ (c : gmap string string) v mac' response' writable',
            mac' ≠ "" →
            c !! Py.upper (String.substring 0 8 mac') = Some v →
            Vendor.get_vendor mac' c response' writable' = (c, v)).
  { intros c v mac' response' writable' Hmac' Hc. unfold Vendor.get_vendor.
    rewrite (truthy_true _ Hmac'). cbn [negb]. by rewrite Hc. }
  split; [|split; [|split]].
  - intros v0. unfold Vendor.get_vendor. rewrite (truthy_true _ Hmac). cbn [negb].
    assert (Hgen : ∀ (c : gmap string string) x,
              c !! Py.upper (String.substring 0 8 mac) = Some v0 →
              (c !! Py.upper (String.substring 0 8 mac) = Some x) →
              x = v0 ∧
              ∀ mac' response' writable',
                mac' ≠ "" →
                Py.upper (String.substring 0 8 mac')
                = Py.upper (String.substring 0 8 mac) →
                Vendor.get_vendor mac' c response' writable' = (c, x)).
    { intros c x Hc Hx. split; [congruence|].
      intros mac' response' writable' Hmac' Hp. apply Hhit; [exact Hmac'|].
      by rewrite Hp. }
    destruct (cache !! Py.upper (String.substring 0 8 mac)) as [v|] eqn:Ec.
    + cbn [fst snd]. intros Hv. by apply Hgen.
    + destruct response as [|code text]; cbn [fst snd]; [congruence|].
      destruct (code =? 200); [|cbn [fst snd]; congruence].
      destruct (Py.truthy (Py.strip text)); [|cbn [fst snd]; congruence].
      destruct writable; cbn [fst snd]; [|congruence].
      intros Hv. apply Hgen; [exact Hv|]. apply lookup_insert_eq.
  - unfold Vendor.get_vendor. rewrite (truthy_true _ Hmac). cbn [negb].
    destruct (cache !! Py.upper (String.substring 0 8 mac)) as [v|] eqn:Ec.
    + cbn [fst]. congruence.
    + destruct response as [|code text]; [reflexivity|].
      destruct (code =? 200); [|reflexivity].
      destruct (Py.truthy (Py.strip text)); [|reflexivity].
      destruct writable; [|reflexivity].
      cbn [fst]. rewrite lookup_insert_eq. discriminate.
  - intros k Hk. unfold Vendor.get_vendor. rewrite (truthy_true _ Hmac). cbn [negb].
    destruct (cache !! Py.upper (String.substring 0 8 mac)) as [v|]; [reflexivity|].
    destruct response as [|code text]; [reflexivity|].
    destruct (code =? 200); [|reflexivity].
    destruct (Py.truthy (Py.strip text)); [|reflexivity].
    destruct writable; [|reflexivity].
    cbn [fst]. by rewrite lookup_insert_ne.
  - intros v Hv. by apply Hhit.
Qed.

Lemma X19_vendor_cache_witness :
  let r := Vendor.get_vendor "aa:bb:cc:dd:ee:ff" ∅ (HttpResponse 200 " Acme Corp ") true in
  r.2 = "Acme Corp" ∧
  Vendor.get_vendor "AA:BB:CC:00:00:01" r.1 HttpFailed false = r.
Proof.
  destruct (X19_vendor_cache "aa:bb:cc:dd:ee:ff" ∅ (HttpResponse 200 " Acme Corp ") true)
    as (Hhit & _); [discriminate|].
  destruct (Hhit "Acme Corp") as [Hv Hlater]; [vm_compute; reflexivity|].
  split; [exact Hv|].
  apply (Hlater "AA:BB:CC:00:00:01" HttpFailed false); [discriminate | reflexivity].
Defined.

(** ** Discovery *)

Lemma discovery_addresses_vendor addrs ip mac vendor :
  vendor ≠ "" → (discovery_addresses addrs ip mac vendor).2 ≠ "".
Proof.
  revert ip mac vendor. induction addrs as [|addr addrs IH]; intros ip mac vendor Hv;
    [exact Hv|].
  cbn [discovery_addresses]. case_bool_decide; apply IH; [|exact Hv].
  unfold Py.or_else. destruct (Py.truthy _) eqn:Et; [|exact Hv].
  by apply truthy_iff.
Qed.

Lemma discovery_host_spec (h : disc_host) (d : gmap string pyval) :
  discovery_host h = Some d →
  is_up h = true ∧
  ∃ ip vendor hostname,
    ip ≠ "" ∧ vendor ≠ "" ∧
    get d "ip" = VStr ip ∧ get d "vendor" = VStr vendor ∧
    get d "hostname" = VStr hostname ∧
    (get d "mac" = VNone ∨ ∃ m, get d "mac" = VStr m) ∧
    make_key ip (as_opt (get d "mac")) ≠ "".
Proof.
  unfold discovery_host, is_up. destruct (dh_status h) as [status|]; [|discriminate].
  case_bool_decide as Hup; cbn [negb]; [|discriminate].
  pose proof (discovery_addresses_vendor (dh_addresses h) "" None "Unknown") as Hv.
  destruct (discovery_addresses (dh_addresses h) "" None "Unknown") as [[ip mac] vendor].
  cbn [snd] in Hv. destruct (Py.truthy ip) eqn:Eip; [|discriminate].
  intros [= <-]. split; [reflexivity|].
  eexists ip, vendor, _. apply truthy_iff in Eip.
  split; [exact Eip|]. split; [by apply Hv|].
  split; [reflexivity|]. split; [reflexivity|]. split; [reflexivity|].
  assert (Hmac : get ({[ "ip" := VStr ip; "mac" := of_opt mac; "vendor" := VStr vendor;
                         "hostname" := VStr
                           match dh_hostnames h with
                           | Some (Some hne) => default "" (hne !! "name")
                           | _ => ""
                           end ]} : gmap string pyval) "mac" = of_opt mac)
    by reflexivity.
  rewrite Hmac. split.
  - destruct mac; cbn; eauto.
  - unfold make_key. destruct mac as [m|]; cbn [of_opt as_opt Py.truthy_opt default].
    + destruct (Py.truthy m) eqn:Em.
      * intros Hu. apply upper_nonempty in Hu. apply truthy_iff in Em. done.
      * discriminate.
    + discriminate.
Qed.

(** X20: the discovery returns nothing when the scanner fails or its
    report does not parse; otherwise it returns, in the order of the
    report, at most one entry for each host element, none for a host that
    is not up, and every entry has an address that is not empty, a vendor
    that is not empty, a hostname, a hardware address or None, and hence
    a key that is not empty. *)
Theorem X20_discovery_entries (rc : Z) (doc : option (list disc_host)) :
  ((rc ≠ 0 ∨ doc = None) → nmap_discovery_xml rc doc = []) ∧
  (length (nmap_discovery_xml rc doc) ≤ length (default [] doc))%nat ∧
  (∀ hs, rc = 0 → doc = Some hs →
     nmap_discovery_xml rc doc
     = omap discovery_host (filter (λ h, is_up h = true) hs)) ∧
  ∀ d, d ∈ nmap_discovery_xml rc doc →
    ∃ ip vendor hostname,
      ip ≠ "" ∧ vendor ≠ "" ∧
      get d "ip" = VStr ip ∧ get d "vendor" = VStr vendor ∧
      get d "hostname" = VStr hostname ∧
      (get d "mac" = VNone ∨ ∃ m, get d "mac" = VStr m) ∧
      make_key ip (as_opt (get d "mac")) ≠ "".
Proof.
  split; [|split; [|split]].
  - unfold nmap_discovery_xml. intros [Hrc| ->].
    + by rewrite (proj2 (Z.eqb_neq _ _) Hrc).
    + by destruct (rc =? 0).
  - unfold nmap_discovery_xml. destruct (rc =? 0); cbn [negb]; [|cbn; lia].
    destruct doc as [hs|]; cbn [default]; [|cbn; lia].
    induction hs as [|h hs IH]; cbn in *; [lia|].
    destruct (discovery_host h); cbn; lia.
  - intros hs -> ->. unfold nmap_discovery_xml. cbn [negb Z.eqb].
    induction hs as [|h hs IH]; [reflexivity|].
    cbn [omap list_omap].
    destruct (decide (is_up h = true)) as [Hup|Hdown].
    + rewrite filter_cons_True by exact Hup. cbn [omap list_omap]. by rewrite IH.
    + rewrite filter_cons_False by exact Hdown.
      destruct (discovery_host h) as [d|] eqn:Ed; [|exact IH].
      destruct Hdown. by apply (discovery_host_spec h d).
  - intros d Hd. unfold nmap_discovery_xml in Hd.
    destruct (rc =? 0); cbn [negb] in Hd; [|inversion Hd].
    destruct doc as [hs|]; [|inversion Hd].
    apply list_elem_of_omap in Hd as (h & _ & Hh).
    by apply (discovery_host_spec h d).
Qed.

(** ** The risk level and the findings *)

Lemma nonempty_inter_mono (l l' : list string) (S : gset string) :
  (∀ p, p ∈ l → p ∈ l') →
  Py.nonempty (list_to_set l ∩ S) = true → Py.nonempty (list_to_set l' ∩ S) = true.
Proof.
  intros Hsub H. apply nonempty_inter in H as (p & Hp & HS).
  apply nonempty_inter. exists p. auto.
Qed.

(** X21: [compute_risk] answers one of LOW, MEDIUM and CRITICAL, depends
    on the open ports only through their set, and never answers a lower
    level when ports are added: if every open port of one list is in
    another, the risk for the other list is at least as high, the
    fingerprint, the state and the quarantine flag being the same. *)
Theorem X21_risk_monotone (open_ports open_ports' : list string)
    (os_guess state : string) (quarantined : bool) :
  (∀ p, p ∈ open_ports → p ∈ open_ports') →
  (risk_rank (compute_risk open_ports os_guess state quarantined)
   ≤ risk_rank (compute_risk open_ports' os_guess state quarantined))%nat ∧
  compute_risk open_ports os_guess state quarantined ∈ ["LOW"; "MEDIUM"; "CRITICAL"] ∧
  ((∀ p, p ∈ open_ports' → p ∈ open_ports) →
   compute_risk open_ports os_guess state quarantined
   = compute_risk open_ports' os_guess state quarantined).
Proof.
  intros Hsub. unfold compute_risk.
  destruct quarantined.
  { split; [reflexivity|]. split; [set_solver|]. reflexivity. }
  destruct (bool_decide (state = "OFFLINE")).
  { split; [reflexivity|]. split; [set_solver|]. reflexivity. }
  cbv zeta.
  pose proof (nonempty_inter_mono open_ports open_ports' RISKY_PORTS_CRITICAL Hsub) as Hc.
  pose proof (nonempty_inter_mono open_ports open_ports' RISKY_PORTS_MEDIUM Hsub) as Hm.
  split; [|split].
  - destruct (Py.nonempty (list_to_set open_ports ∩ RISKY_PORTS_CRITICAL)).
    { rewrite Hc by reflexivity. reflexivity. }
    destruct (Py.nonempty (list_to_set open_ports ∩ RISKY_PORTS_MEDIUM)).
    { rewrite Hm by reflexivity.
      destruct (Py.nonempty (list_to_set open_ports' ∩ RISKY_PORTS_CRITICAL));
        vm_compute; lia. }
    destruct (Py.nonempty (list_to_set open_ports' ∩ RISKY_PORTS_CRITICAL));
      [destruct (os_unknown os_guess); vm_compute; lia|].
    destruct (Py.nonempty (list_to_set open_ports' ∩ RISKY_PORTS_MEDIUM));
      destruct (os_unknown os_guess); vm_compute; lia.
  - destruct (Py.nonempty (list_to_set open_ports ∩ RISKY_PORTS_CRITICAL));
      [set_solver|].
    destruct (Py.nonempty (list_to_set open_ports ∩ RISKY_PORTS_MEDIUM));
      [set_solver|].
    destruct (os_unknown os_guess); set_solver.
  - intros Hsup.
    pose proof (nonempty_inter_mono open_ports' open_ports RISKY_PORTS_CRITICAL Hsup) as Hc'.
    pose proof (nonempty_inter_mono open_ports' open_ports RISKY_PORTS_MEDIUM Hsup) as Hm'.
    destruct (Py.nonempty (list_to_set open_ports ∩ RISKY_PORTS_CRITICAL)),
      (Py.nonempty (list_to_set open_ports' ∩ RISKY_PORTS_CRITICAL));
      try reflexivity; try (by specialize (Hc eq_refl)); try (by specialize (Hc' eq_refl)).
    destruct (Py.nonempty (list_to_set open_ports ∩ RISKY_PORTS_MEDIUM)),
      (Py.nonempty (list_to_set open_ports' ∩ RISKY_PORTS_MEDIUM));
      try reflexivity; try (by specialize (Hm eq_refl)); try (by specialize (Hm' eq_refl)).
Qed.

Lemma X21_risk_monotone_witness :
  (risk_rank (compute_risk ["80"] "Linux" "ONLINE" false)
   ≤ risk_rank (compute_risk ["445"; "80"] "Linux" "ONLINE" false))%nat.
Proof.
  apply (X21_risk_monotone ["80"] ["445"; "80"] "Linux" "ONLINE" false).
  intros p Hp. apply list_elem_of_further. exact Hp.
Defined.

(** ** Findings and recommendations *)

Lemma dedup_fold_spec (l acc : list string) :
  let r := fold_left (λ acc x, if bool_decide (x ∈ acc) then acc else acc ++ [x]) l acc in
  (NoDup acc → NoDup r) ∧ acc `prefix_of` r ∧
  (∀ x, x ∈ r ↔ x ∈ acc ∨ x ∈ l) ∧
  (NoDup (acc ++ l) → r = acc ++ l).
Proof.
  cbv zeta. revert acc. induction l as [|y l IH]; intros acc.
  - cbn. split; [auto|]. split; [reflexivity|]. split.
    + intros x. rewrite elem_of_nil. tauto.
    + by rewrite app_nil_r.
  - cbn [fold_left]. case_bool_decide as Hy.
    + destruct (IH acc) as (Hnd & Hpre & Hel & Heq).
      split; [exact Hnd|]. split; [exact Hpre|]. split.
      * intros x. rewrite Hel, elem_of_cons. split; [tauto|].
        intros [?|[->|?]]; auto.
      * intros Hnd'. apply NoDup_app in Hnd' as (_ & Hdis & _).
        destruct (Hdis y Hy). apply list_elem_of_here.
    + destruct (IH (acc ++ [y])) as (Hnd & Hpre & Hel & Heq).
      split; [|split; [|split]].
      * intros Hacc. apply Hnd. apply NoDup_app. split; [exact Hacc|].
        split; [|apply NoDup_singleton].
        intros x Hx Hx'. apply list_elem_of_singleton in Hx'. by subst.
      * etransitivity; [|exact Hpre]. by apply prefix_app_r.
      * intros x. rewrite Hel, elem_of_app, list_elem_of_singleton, elem_of_cons. tauto.
      * intros Hnd'. rewrite Heq; [by rewrite <- app_assoc|].
        by rewrite <- app_assoc.
Qed.

Lemma NoDup_dedup (l : list string) : NoDup (dedup l).
Proof. apply (dedup_fold_spec l []). constructor. Qed.

Lemma elem_of_dedup (l : list string) x : x ∈ dedup l ↔ x ∈ l.
Proof.
  unfold dedup. destruct (dedup_fold_spec l []) as (_ & _ & Hel & _).
  rewrite Hel, elem_of_nil. tauto.
Qed.

Lemma dedup_NoDup (l : list string) : NoDup l → dedup l = l.
Proof. intros H. by apply (dedup_fold_spec l []). Qed.

Lemma dedup_app_length (l1 l2 : list string) :
  NoDup l1 → (length l1 ≤ length (dedup (l1 ++ l2)))%nat.
Proof.
  intros Hnd. unfold dedup. rewrite fold_left_app.
  fold (dedup l1). rewrite (dedup_NoDup l1 Hnd).
  destruct (dedup_fold_spec l2 l1) as (_ & Hpre & _).
  by apply prefix_length.
Qed.

Lemma NoDup_fmap_filter {A B} (f : A → B) (P : A → Prop) `{!∀ x, Decision (P x)}
    (l : list A) :
  NoDup (f <$> l) → NoDup (f <$> filter P l).
Proof.
  intros Hnd. eapply sublist_NoDup; [exact Hnd|].
  apply fmap_sublist, sublist_filter.
Qed.

Lemma fired_at (rules : list (bool * string * string)) (i : nat) r :
  rules !! i = Some r → r.1.1 = true → ∃ r, r ∈ rules ∧ r.1.1 = true.
Proof. intros Hi Hr. exists r. split; [by eapply list_elem_of_lookup_2 | exact Hr]. Qed.

(** The shape of the two lists: the findings and recommendations of the
    rules that fired, then the detected services. *)
Lemma build_findings_and_recs_shape open_ports services os_guess quarantined :
  ∃ (rules : list (bool * string * string)) (detected : list string),
    build_findings_and_recs open_ports services os_guess quarantined
    = (dedup (((λ r, r.1.2) <$> filter (λ r, r.1.1 = true) rules) ++ detected),
       dedup ((λ r, r.2) <$> filter (λ r, r.1.1 = true) rules)) ∧
    NoDup ((λ r, r.1.2) <$> rules) ∧ NoDup ((λ r, r.2) <$> rules) ∧
    rules !! 0%nat
    = Some (quarantined, "Device is quarantined by Pi firewall (iptables).",
            "If this is a rogue device, also block it at your router/AP for full removal.") ∧
    (∀ p, p ∈ open_ports → p ∈ RISKY_PORTS_CRITICAL ∪ RISKY_PORTS_MEDIUM →
       ∃ r, r ∈ rules ∧ r.1.1 = true) ∧
    (os_unknown os_guess = true → ∃ r, r ∈ rules ∧ r.1.1 = true).
Proof.
  unfold build_findings_and_recs. cbv zeta.
  match goal with
  | |- context [filter _ ?l] => exists l
  end.
  eexists. split; [reflexivity|].
  split; [apply (bool_decide_unpack _); vm_compute; exact I|].
  split; [apply (bool_decide_unpack _); vm_compute; exact I|].
  split; [reflexivity|].
  split.
  - intros p Hp Hrisk.
    assert (Hin : ∀ x, p = x → bool_decide (x ∈ (list_to_set open_ports : gset string)) = true).
    { intros x <-. apply bool_decide_eq_true_2. by apply elem_of_list_to_set. }
    unfold RISKY_PORTS_CRITICAL, RISKY_PORTS_MEDIUM in Hrisk.
    repeat (apply elem_of_union in Hrisk as [Hrisk|Hrisk]);
      apply elem_of_singleton in Hrisk;
      first
        [ eapply (fired_at _ 1); [reflexivity|]; cbn [fst];
          rewrite (Hin _ Hrisk), ?orb_true_r; reflexivity
        | eapply (fired_at _ 2); [reflexivity|]; cbn [fst];
          rewrite (Hin _ Hrisk), ?orb_true_r; reflexivity
        | eapply (fired_at _ 3); [reflexivity|]; cbn [fst];
          rewrite (Hin _ Hrisk), ?orb_true_r; reflexivity
        | eapply (fired_at _ 4); [reflexivity|]; cbn [fst];
          rewrite (Hin _ Hrisk), ?orb_true_r; reflexivity
        | eapply (fired_at _ 5); [reflexivity|]; cbn [fst];
          rewrite (Hin _ Hrisk), ?orb_true_r; reflexivity
        | eapply (fired_at _ 6); [reflexivity|]; cbn [fst];
          rewrite (Hin _ Hrisk), ?orb_true_r; reflexivity
        | eapply (fired_at _ 7); [reflexivity|]; cbn [fst];
          rewrite (Hin _ Hrisk), ?orb_true_r; reflexivity
        | eapply (fired_at _ 8); [reflexivity|]; cbn [fst];
          rewrite (Hin _ Hrisk), ?orb_true_r; reflexivity ].
  - intros Hos. eapply (fired_at _ 9); [reflexivity|]. exact Hos.
Qed.

Lemma filter_nonempty {A} (P : A → Prop) `{!∀ x, Decision (P x)} (l : list A) x :
  x ∈ l → P x → filter P l ≠ [].
Proof.
  intros Hx HP Hnil.
  assert (Hin : x ∈ filter P l) by (by apply list_elem_of_filter).
  rewrite Hnil in Hin. inversion Hin.
Qed.

(** X22: the findings and the recommendations have no duplicates, and
    there are never more recommendations than findings; for a quarantined
    device the first finding is the quarantine notice; and whenever a
    device that is not OFFLINE is rated above LOW, there is at least one
    finding and one recommendation to explain it. *)
Theorem X22_findings_explain_risk (open_ports : list string)
    (services : list (gmap string string)) (os_guess : string) (quarantined : bool) :
  let r := build_findings_and_recs open_ports services os_guess quarantined in
  NoDup r.1 ∧ NoDup r.2 ∧ (length r.2 ≤ length r.1)%nat ∧
  (quarantined = true →
   head r.1 = Some "Device is quarantined by Pi firewall (iptables).") ∧
  (∀ state, state ≠ "OFFLINE" →
     compute_risk open_ports os_guess state quarantined ≠ "LOW" →
     r.1 ≠ [] ∧ r.2 ≠ []).
Proof.
  cbv zeta.
  destruct (build_findings_and_recs_shape open_ports services os_guess quarantined)
    as (rules & detected & -> & Hndf & Hndr & Hq & Hports & Hos).
  cbn [fst snd].
  pose proof (NoDup_fmap_filter (λ r : bool * string * string, r.1.2)
                (λ r, r.1.1 = true) rules Hndf) as Hf.
  pose proof (NoDup_fmap_filter (λ r : bool * string * string, r.2)
                (λ r, r.1.1 = true) rules Hndr) as Hr.
  split; [apply NoDup_dedup|]. split; [apply NoDup_dedup|].
  split.
  { rewrite (dedup_NoDup _ Hr). etransitivity; [|apply dedup_app_length, Hf].
    by rewrite !length_fmap. }
  assert (Hfired : (∃ r, r ∈ rules ∧ r.1.1 = true) →
            dedup (((λ r, r.1.2) <$> filter (λ r, r.1.1 = true) rules) ++ detected) ≠ [] ∧
            dedup ((λ r, r.2) <$> filter (λ r, r.1.1 = true) rules) ≠ []).
  { intros (r & Hin & Htrue).
    pose proof (filter_nonempty (λ r : bool * string * string, r.1.1 = true)
                  rules r Hin Htrue) as Hne.
    destruct (filter (λ r, r.1.1 = true) rules) as [|r0 fired] eqn:Ef; [done|].
    split.
    - intros Hnil.
      assert (Hel : r0.1.2 ∈ dedup (((λ r, r.1.2) <$> r0 :: fired) ++ detected)).
      { apply elem_of_dedup. rewrite fmap_cons. apply list_elem_of_here. }
      rewrite Hnil in Hel. inversion Hel.
    - intros Hnil.
      assert (Hel : r0.2 ∈ dedup ((λ r, r.2) <$> r0 :: fired)).
      { apply elem_of_dedup. rewrite fmap_cons. apply list_elem_of_here. }
      rewrite Hnil in Hel. inversion Hel. }
  split.
  - intros ->. destruct rules as [|r0 rules]; [discriminate|].
    injection Hq as ->. rewrite filter_cons_True by reflexivity.
    rewrite fmap_cons. cbn [fst snd app].
    unfold dedup. cbn [fold_left].
    rewrite bool_decide_eq_false_2 by apply not_elem_of_nil. cbn [app].
    match goal with
    | |- context [fold_left ?f ?l ?acc] =>
        destruct (dedup_fold_spec l acc) as (_ & [k Hk] & _)
    end.
    cbv zeta in Hk. rewrite Hk. reflexivity.
  - intros state Hstate Hrisk. apply Hfired.
    unfold compute_risk in Hrisk.
    destruct quarantined.
    { eapply fired_at; [exact Hq | reflexivity]. }
    rewrite bool_decide_eq_false_2 in Hrisk by exact Hstate. cbv zeta in Hrisk.
    destruct (Py.nonempty (list_to_set open_ports ∩ RISKY_PORTS_CRITICAL)) eqn:Ec.
    { apply nonempty_inter in Ec as (p & Hp & Hc). apply (Hports p Hp).
      apply elem_of_union. by left. }
    destruct (Py.nonempty (list_to_set open_ports ∩ RISKY_PORTS_MEDIUM)) eqn:Em.
    { apply nonempty_inter in Em as (p & Hp & Hm). apply (Hports p Hp).
      apply elem_of_union. by right. }
    destruct (os_unknown os_guess) eqn:Eo; [by apply Hos | done].
Qed.

(** ** Profiling is throttled *)

Lemma host_profile_throttled cfg (o : observation) inv (e : gmap string pyval) :
  inv_get (make_key (host_ip o) (as_opt (get (discovered o) "mac"))) inv = Some e →
  e ≠ ∅ →
  clock o - as_num (get_or e "last_profile_epoch" (VNum 0)) < PROFILE_TTL_SEC cfg →
  ∃ prof vendor_final,
    (∀ rc doc, host_profile cfg (with_profile rc doc o) inv = (false, prof, vendor_final)) ∧
    host_profile cfg o inv = (false, prof, vendor_final) ∧
    prof !! "mac" = Some (get (discovered o) "mac") ∧
    prof !! "os" = Some (get_or e "os" (VStr "Unknown")) ∧
    prof !! "ports" = Some (get_or e "ports" (VList [])) ∧
    prof !! "services" = Some (get_or e "services_raw" (VDicts [])).
Proof.
  intros He Hne Httl. unfold host_ip in He.
  assert (Hdue : (PROFILE_TTL_SEC cfg
                  <=? clock o - as_num (get_or e "last_profile_epoch" (VNum 0))) = false)
    by (apply Z.leb_gt; exact Httl).
  assert (Htruthy : dict_truthy (Some e) = true).
  { cbn. by rewrite bool_decide_eq_false_2. }
  eexists _, _. split; [|split].
  - intros rc doc. unfold host_profile.
    cbn [with_profile discovered clock profile_rc profile_doc reverse_dns get_vendor].
    cbv zeta. rewrite He, Htruthy. cbn [default]. unfold id.
    rewrite Hdue. reflexivity.
  - unfold host_profile. cbv zeta. rewrite He, Htruthy. cbn [default]. unfold id.
    rewrite Hdue. reflexivity.
  - assert (Hget : ∀ (p : gmap string pyval) k,
              k ≠ "hostname" →
              (if negb (truthy (get p "hostname")) && Py.truthy (reverse_dns o)
               then <[ "hostname" := VStr (reverse_dns o) ]> p else p) !! k
              = p !! k).
    { intros p k Hk. destruct (_ && _); [|reflexivity].
      by rewrite lookup_insert_ne by congruence. }
    rewrite !Hget by discriminate.
    split; [|split; [|split]].
    + do 4 (rewrite lookup_insert_ne by discriminate). apply lookup_insert_eq.
    + do 3 (rewrite lookup_insert_ne by discriminate). apply lookup_insert_eq.
    + do 2 (rewrite lookup_insert_ne by discriminate). apply lookup_insert_eq.
    + do 1 (rewrite lookup_insert_ne by discriminate). apply lookup_insert_eq.
Qed.

(** X23: while the record of a host is younger than the profiling
    interval, the scan does not look at a profiling run at all: whatever a
    run would report, the host is handled the same way, and the record
    stored for it, under the same key, carries over the ports, the OS
    guess and the time of the last profile from the record it replaces. *)
Theorem X23_profile_throttled cfg aliases nf nh (o : observation) (sc : scanner)
    cnt (e : gmap string pyval) :
  inv_get (make_key (host_ip o) (as_opt (get (discovered o) "mac")))
    (device_inventory sc) = Some e →
  e ≠ ∅ →
  clock o - as_num (get_or e "last_profile_epoch" (VNum 0)) < PROFILE_TTL_SEC cfg →
  (∀ rc doc, scan_host cfg aliases nf nh (with_profile rc doc o) (sc, cnt)
             = scan_host cfg aliases nf nh o (sc, cnt)) ∧
  host_key cfg o (device_inventory sc)
  = make_key (host_ip o) (as_opt (get (discovered o) "mac")) ∧
  ∃ d, inv_get (host_key cfg o (device_inventory sc))
         (device_inventory (scan_host cfg aliases nf nh o (sc, cnt)).1) = Some d ∧
       get d "ports" = VList (as_list (py_or (get_or e "ports" (VList [])) (VList []))) ∧
       get d "os" = py_or (get_or e "os" (VStr "Unknown")) (VStr "Unknown") ∧
       get d "last_profile_epoch" = get_or e "last_profile_epoch" (VNum (clock o)) ∧
       get d "last_seen_epoch" = VNum (clock o).
Proof.
  intros He Hne Httl.
  destruct (host_profile_throttled cfg o (device_inventory sc) e He Hne Httl)
    as (prof & vendor_final & Hany & Hprof & Hmac & Hos & Hports & Hsvc).
  assert (Htruthy : dict_truthy (Some e) = true).
  { cbn. by rewrite bool_decide_eq_false_2. }
  split; [|split].
  - intros rc doc. destruct cnt as [new crit]. unfold scan_host.
    rewrite (Hany rc doc), Hprof. reflexivity.
  - unfold host_key. rewrite Hprof. cbn [fst snd]. unfold get at 1. by rewrite Hmac.
  - destruct cnt as [new crit]. unfold host_key, host_ip in *. unfold scan_host.
    rewrite Hprof, He. cbn [fst snd].
    destruct (build_findings_and_recs _ _ _ _) as [findings recs].
    destruct (if negb (truthy _) then _ else _) as [first_seen new'].
    cbn [fst device_inventory]. rewrite inv_get_set_eq.
    eexists. split; [reflexivity|].
    rewrite !apply_alias_get by discriminate.
    rewrite Htruthy. cbn [default].
    assert (Hp : get_or prof "ports" (VList []) = get_or e "ports" (VList []))
      by (unfold get_or at 1; by rewrite Hports).
    assert (Ho : get prof "os" = get_or e "os" (VStr "Unknown"))
      by (unfold get; by rewrite Hos).
    rewrite Hp, Ho.
    split; [reflexivity|]. split; [reflexivity|]. split; reflexivity.
Qed.

Lemma X23_profile_throttled_witness :
  scan_host example_cfg ∅ "2024-01-01 10:02:00" "10:02:00"
    (with_profile 1 None (example_host_mac 1100 ∅)) (example_seen_state, (0, 0))
  = scan_host example_cfg ∅ "2024-01-01 10:02:00" "10:02:00"
      (example_host_mac 1100 ∅) (example_seen_state, (0, 0)).
Proof.
  destruct (X23_profile_throttled example_cfg ∅ "2024-01-01 10:02:00" "10:02:00"
              (example_host_mac 1100 ∅) example_seen_state (0, 0)
              example_known_record) as (Hany & _).
  - vm_compute; reflexivity.
  - apply (bool_decide_unpack (example_known_record ≠ ∅)). vm_compute. exact I.
  - vm_compute; reflexivity.
  - apply Hany.
Defined.

(** ** The profile read from a report *)

Lemma profile_ports_parallel (ps : list xml_port) :
  (λ s : gmap string string, s !! "port") <$> (profile_ports ps).2
  = Some <$> (profile_ports ps).1 ∧
  (profile_ports ps).1 `sublist_of` (λ p, default "" (xp_attrib p !! "portid")) <$> ps.
Proof.
  induction ps as [|p ps [IH1 IH2]]; [split; [reflexivity | constructor]|].
  cbn [profile_ports]. cbv zeta. rewrite fmap_cons.
  destruct (xp_state p) as [st|]; [|split; [exact IH1 | by apply sublist_cons]].
  case_bool_decide; [|split; [exact IH1 | by apply sublist_cons]].
  cbn [fst snd]. rewrite !fmap_cons. split.
  - rewrite IH1. reflexivity.
  - by apply sublist_skip.
Qed.

Lemma profile_addresses_vendor addrs mac vendor :
  vendor ≠ "" → (profile_addresses addrs mac vendor).2 ≠ "".
Proof.
  revert mac vendor. induction addrs as [|addr addrs IH]; intros mac vendor Hv;
    [exact Hv|].
  cbn [profile_addresses]. case_bool_decide; apply IH; [|exact Hv].
  unfold Py.or_else. destruct (Py.truthy _) eqn:Et; [|exact Hv].
  by apply truthy_iff.
Qed.

Lemma best_osmatch_invalid (ms : list osmatch) best best_acc :
  (∃ m, m ∈ ms ∧ om_accuracy m = AccInvalid) → best_osmatch best best_acc ms = None.
Proof.
  revert best best_acc. induction ms as [|m ms IH]; intros best best_acc (m0 & Hin & Hinv).
  - inversion Hin.
  - cbn [best_osmatch]. apply elem_of_cons in Hin as [->|Hin].
    + by rewrite Hinv.
    + destruct (accuracy_int (om_accuracy m)); [|reflexivity].
      destruct (best_acc <? z); apply IH; eauto.
Qed.

(** X24: whatever the profiling run gives, the profile has an OS guess and
    a vendor that are not empty, and its services run parallel to its
    ports: one service description per listed port, in the same order and
    naming that port.  The ports listed are ports of the report, in its
    order.  When the run fails or the report has no host, the profile is
    the empty one; and when a candidate of the OS block has an accuracy
    that is not a number, the OS stays Unknown and no port is listed,
    although the addresses read before are kept. *)
Theorem X24_profile_shape (rc : Z) (doc : option (option xml_host)) :
  let p := nmap_profile_xml rc doc in
  (∃ os vendor hostname ports services,
     p !! "os" = Some (VStr os) ∧ os ≠ "" ∧
     p !! "vendor" = Some (VStr vendor) ∧ vendor ≠ "" ∧
     p !! "hostname" = Some (VStr hostname) ∧
     p !! "ports" = Some (VList ports) ∧ p !! "services" = Some (VDicts services) ∧
     (λ s : gmap string string, s !! "port") <$> services = Some <$> ports ∧
     ∀ h0 ps, doc = Some (Some h0) → xh_ports h0 = Some ps →
       ports `sublist_of` (λ p, default "" (xp_attrib p !! "portid")) <$> ps) ∧
  ((rc ≠ 0 ∨ doc = None ∨ doc = Some None) →
   p = profile_dict None "Unknown" "" "Unknown" [] []) ∧
  (∀ h0 ms, rc = 0 → doc = Some (Some h0) → xh_os h0 = Some ms →
     (∃ m, m ∈ ms ∧ om_accuracy m = AccInvalid) →
     p !! "os" = Some (VStr "Unknown") ∧ p !! "ports" = Some (VList []) ∧
     p !! "mac" = Some (of_opt (profile_addresses (xh_addresses h0) None "Unknown").1)).
Proof.
  cbv zeta.
  assert (Hdict : ∀ mac vendor hostname os_guess ports services,
            vendor ≠ "" →
            (λ s : gmap string string, s !! "port") <$> services = Some <$> ports →
            ∃ os vendor' hostname' ports' services',
              profile_dict mac vendor hostname os_guess ports services !! "os"
                = Some (VStr os) ∧ os ≠ "" ∧
              profile_dict mac vendor hostname os_guess ports services !! "vendor"
                = Some (VStr vendor') ∧ vendor' ≠ "" ∧
              profile_dict mac vendor hostname os_guess ports services !! "hostname"
                = Some (VStr hostname') ∧
              profile_dict mac vendor hostname os_guess ports services !! "ports"
                = Some (VList ports') ∧
              profile_dict mac vendor hostname os_guess ports services !! "services"
                = Some (VDicts services') ∧
              (λ s : gmap string string, s !! "port") <$> services' = Some <$> ports' ∧
              ports' = ports).
  { intros mac vendor hostname os_guess ports services Hv Hpar.
    exists (Py.or_else (Some os_guess) "Unknown"), vendor, hostname, ports, services.
    split; [reflexivity|]. split.
    { unfold Py.or_else. destruct (Py.truthy os_guess) eqn:Et; [|discriminate].
      by apply truthy_iff. }
    split; [reflexivity|]. split; [exact Hv|].
    split; [reflexivity|]. split; [reflexivity|]. split; [reflexivity|].
    split; [exact Hpar | reflexivity]. }
  split; [|split].
  - unfold nmap_profile_xml.
    destruct (rc =? 0); cbn [negb].
    2:{ destruct (Hdict None "Unknown" "" "Unknown" [] []) as
          (os & v & hn & ps' & ss & H1 & H2 & H3 & H4 & H5 & H6 & H7 & H8 & ->);
          [discriminate | reflexivity|].
        exists os, v, hn, [], ss. repeat (split; [assumption|]).
        intros. apply sublist_nil_l. }
    destruct doc as [[h0|]|].
    2,3: destruct (Hdict None "Unknown" "" "Unknown" [] []) as
          (os & v & hn & ps' & ss & H1 & H2 & H3 & H4 & H5 & H6 & H7 & H8 & ->);
          [discriminate | reflexivity|];
        exists os, v, hn, [], ss; repeat (split; [assumption|]);
        intros; apply sublist_nil_l.
    pose proof (profile_addresses_vendor (xh_addresses h0) None "Unknown") as Hv.
    destruct (profile_addresses (xh_addresses h0) None "Unknown") as [mac vendor].
    cbn [snd] in Hv. specialize (Hv ltac:(discriminate)).
    destruct (profile_os (xh_os h0) "Unknown") as [os_guess|].
    + destruct (xh_ports h0) as [ps|] eqn:Eps.
      * destruct (profile_ports_parallel ps) as [Hpar Hsub].
        destruct (profile_ports ps) as [ports services]. cbn [fst snd] in *.
        destruct (Hdict mac vendor
                    match xh_hostnames h0 with
                    | Some (Some hne) => Py.or_else (Some (default "" (hne !! "name"))) ""
                    | _ => ""
                    end os_guess ports services Hv Hpar) as
          (os & v & hn & ps' & ss & H1 & H2 & H3 & H4 & H5 & H6 & H7 & H8 & ->).
        exists os, v, hn, ports, ss. repeat (split; [assumption|]).
        intros h0' ps0 [= <-] Hps0. rewrite Eps in Hps0. by injection Hps0 as <-.
      * destruct (Hdict mac vendor
                    match xh_hostnames h0 with
                    | Some (Some hne) => Py.or_else (Some (default "" (hne !! "name"))) ""
                    | _ => ""
                    end os_guess [] [] Hv eq_refl) as
          (os & v & hn & ps' & ss & H1 & H2 & H3 & H4 & H5 & H6 & H7 & H8 & ->).
        exists os, v, hn, [], ss. repeat (split; [assumption|]).
        intros. apply sublist_nil_l.
    + destruct (Hdict mac vendor
                  match xh_hostnames h0 with
                  | Some (Some hne) => Py.or_else (Some (default "" (hne !! "name"))) ""
                  | _ => ""
                  end "Unknown" [] [] Hv eq_refl) as
        (os & v & hn & ps' & ss & H1 & H2 & H3 & H4 & H5 & H6 & H7 & H8 & ->).
      exists os, v, hn, [], ss. repeat (split; [assumption|]).
      intros. apply sublist_nil_l.
  - unfold nmap_profile_xml. intros [Hrc|[->| ->]].
    + by rewrite (proj2 (Z.eqb_neq _ _) Hrc).
    + by destruct (rc =? 0).
    + by destruct (rc =? 0).
  - intros h0 ms -> -> Hos Hinv. unfold nmap_profile_xml. cbn [negb Z.eqb].
    destruct (profile_addresses (xh_addresses h0) None "Unknown") as [mac vendor].
    unfold profile_os. rewrite Hos, (best_osmatch_invalid ms None (-1) Hinv).
    cbn [fst]. split; [reflexivity|]. split; reflexivity.
Qed.

(** ** Properties of the records that every cycle keeps *)

Section record_invariant.
Variable P : string → gmap string pyval → Prop.
Hypothesis P_scan : ∀ cfg aliases nf nh o sc cnt k d,
  (k, d) ∈ device_inventory (scan_host cfg aliases nf nh o (sc, cnt)).1 →
  (k, d) ∈ device_inventory sc ∨ P k d.
Hypothesis P_offline : ∀ k d, P k d → P k (<[ "state" := VStr "OFFLINE" ]> d).
Hypothesis P_adjust : ∀ k d, P k d → P k (<[ "risk" := VStr "MEDIUM" ]> d).

Lemma scan_hosts_record_invariant cfg aliases nf nh os st :
  Forall (λ kd, P kd.1 kd.2) (device_inventory st.1) →
  Forall (λ kd, P kd.1 kd.2)
    (device_inventory
       (fold_left (λ st o, scan_host cfg aliases nf nh o st) os st).1).
Proof.
  revert st. induction os as [|o os IH]; intros [sc cnt] Hall; cbn [fold_left].
  - exact Hall.
  - apply IH. apply Forall_forall. intros [k d] Hin.
    destruct (P_scan _ _ _ _ _ _ _ _ _ Hin) as [Hold|Hnew]; [|exact Hnew].
    rewrite Forall_forall in Hall. exact (Hall _ Hold).
Qed.

Lemma scan_cycle_record_invariant cfg aliases inp sc :
  Forall (λ kd, P kd.1 kd.2) (device_inventory sc) →
  Forall (λ kd, P kd.1 kd.2) (device_inventory (scan_cycle cfg aliases inp sc).1) ∧
  Forall (λ d, ∃ k, P k d) (snap_devices (scan_cycle cfg aliases inp sc).2).
Proof.
  intros Hall.
  assert (Hinv : Forall (λ kd, P kd.1 kd.2)
                   (device_inventory (scan_cycle cfg aliases inp sc).1)).
  { unfold scan_cycle.
    pose proof (scan_hosts_record_invariant cfg aliases (now_full inp) (now_hms inp)
                  (hosts inp) (sc, (0, 0)) Hall) as H1.
    destruct (fold_left _ (hosts inp) (sc, (0, 0))) as [sc1 [new crit]].
    cbn [fst] in H1.
    assert (H2 : Forall (λ kd, P kd.1 kd.2)
                   (offline_sweep cfg (sweep_clock inp) (device_inventory sc1)
                      (baseline sc1, alerts sc1)).1).
    { apply Forall_forall. intros [k d'] Hin.
      apply offline_sweep_elem in Hin as (d & Hd & Hcase).
      rewrite Forall_forall in H1. specialize (H1 _ Hd). cbn [fst snd] in *.
      destruct Hcase as [->| ->]; [exact H1 | by apply P_offline]. }
    destruct (offline_sweep _ _ _ _) as [inv2 [bl2 al2]].
    cbn [fst snd device_inventory] in *.
    apply Forall_forall. intros [k d'] Hin.
    apply list_elem_of_fmap in Hin as ([k0 d0] & [= -> ->] & Hin0).
    rewrite Forall_forall in H2. specialize (H2 _ Hin0). cbn [fst snd] in *.
    unfold offline_risk_adjust. destruct (_ && _); [by apply P_adjust | exact H2]. }
  split; [exact Hinv|].
  apply Forall_forall. intros d Hd.
  apply scan_cycle_published in Hd as [[k Hk] _].
  rewrite Forall_forall in Hinv. exists k. exact (Hinv _ Hk).
Qed.

Lemma background_scanner_record_invariant cfg aliases inps sc :
  Forall (λ kd, P kd.1 kd.2) (device_inventory sc) →
  Forall (λ kd, P kd.1 kd.2)
    (device_inventory (background_scanner cfg aliases inps sc).1) ∧
  Forall (λ snap, Forall (λ d, ∃ k, P k d) (snap_devices snap))
    (background_scanner cfg aliases inps sc).2.
Proof.
  revert sc. induction inps as [|inp inps IH]; intros sc Hall;
    cbn [background_scanner].
  - cbn. auto.
  - destruct (scan_cycle_record_invariant cfg aliases inp sc Hall) as [H1 Hsnap].
    destruct (scan_cycle cfg aliases inp sc) as [sc1 snap]. cbn [fst snd] in *.
    destruct (IH sc1 H1) as [H2 Hsnaps].
    destruct (background_scanner cfg aliases inps sc1) as [sc2 snaps].
    cbn [fst snd] in *. auto.
Qed.
End record_invariant.

Lemma py_or_truthy (a b : pyval) : truthy b = true → truthy (py_or a b) = true.
Proof. intros Hb. unfold py_or. by destruct (truthy a) eqn:Ea. Qed.

Lemma apply_alias_display_name key d aliases :
  truthy (get (apply_alias key d aliases) "display_name") = true.
Proof.
  unfold apply_alias. cbv zeta. rewrite get_insert_eq.
  do 3 apply py_or_truthy. reflexivity.
Qed.

Lemma compute_risk_levels open_ports os_guess state quarantined :
  compute_risk open_ports os_guess state quarantined ∈ ["LOW"; "MEDIUM"; "CRITICAL"].
Proof.
  assert (Hl : "LOW" ∈ ["LOW"; "MEDIUM"; "CRITICAL"]) by apply list_elem_of_here.
  assert (Hm : "MEDIUM" ∈ ["LOW"; "MEDIUM"; "CRITICAL"])
    by apply list_elem_of_further, list_elem_of_here.
  assert (Hc : "CRITICAL" ∈ ["LOW"; "MEDIUM"; "CRITICAL"])
    by apply list_elem_of_further, list_elem_of_further, list_elem_of_here.
  unfold compute_risk. destruct quarantined; [exact Hc|].
  destruct (bool_decide (state = "OFFLINE")); [exact Hm|]. cbv zeta.
  destruct (Py.nonempty _); [exact Hc|].
  destruct (Py.nonempty _); [exact Hm|].
  destruct (os_unknown os_guess); [exact Hm | exact Hl].
Qed.

(** The record the loop body stores for a host is well formed. *)
Lemma scan_host_record_ok cfg aliases nf nh o sc cnt k d :
  (k, d) ∈ device_inventory (scan_host cfg aliases nf nh o (sc, cnt)).1 →
  (k, d) ∈ device_inventory sc ∨ record_ok k d.
Proof.
  destruct cnt as [new crit]. unfold scan_host.
  destruct (host_profile cfg o (device_inventory sc)) as [[do_profile prof] vendor_final].
  destruct (build_findings_and_recs _ _ _ _) as [findings recs].
  destruct (if negb (truthy _) then _ else _) as [first_seen new'].
  cbn [fst device_inventory]. intros Hin.
  apply elem_of_inv_set in Hin as [[= -> ->]|Hin]; [right | by left].
  unfold record_ok.
  split; [rewrite apply_alias_get by discriminate; reflexivity|].
  split; [rewrite !apply_alias_get by discriminate; reflexivity|].
  split; [apply apply_alias_display_name|].
  split; [left; rewrite apply_alias_get by discriminate; reflexivity|].
  split.
  { eexists. split; [rewrite apply_alias_get by discriminate; reflexivity|].
    apply compute_risk_levels. }
  split; eexists; rewrite apply_alias_get by discriminate; reflexivity.
Qed.

Lemma record_ok_insert k d f v :
  f ≠ "key" → f ≠ "ip" → f ≠ "mac" → f ≠ "display_name" → f ≠ "ports" →
  f ≠ "last_seen_epoch" →
  (f = "state" → v = VStr "ONLINE" ∨ v = VStr "OFFLINE") →
  (f = "risk" → ∃ risk, v = VStr risk ∧ risk ∈ ["LOW"; "MEDIUM"; "CRITICAL"]) →
  record_ok k d → record_ok k (<[ f := v ]> d).
Proof.
  intros ?????? Hstate Hrisk (Hk & Hkey & Hname & Hst & Hr & Hp & Ht).
  unfold record_ok. rewrite !(get_insert_ne _ f "key"), !(get_insert_ne _ f "ip"),
    !(get_insert_ne _ f "mac"), !(get_insert_ne _ f "display_name"),
    !(get_insert_ne _ f "ports"), !(get_insert_ne _ f "last_seen_epoch") by assumption.
  split; [exact Hk|]. split; [exact Hkey|]. split; [exact Hname|].
  split; [|split; [|auto]].
  - destruct (decide (f = "state")) as [->|Hne].
    + rewrite get_insert_eq. auto.
    + by rewrite get_insert_ne.
  - destruct (decide (f = "risk")) as [->|Hne].
    + rewrite get_insert_eq. auto.
    + by rewrite get_insert_ne.
Qed.

(** X25: whatever the scanner is given, every record of its inventory and
    every record of every snapshot it publishes is well formed: it
    carries the key it is stored under, which is the key made of its
    address and hardware address; its display name is not empty; its
    state is ONLINE or OFFLINE; its risk is LOW, MEDIUM or CRITICAL; and
    it has a list of ports and the time it was last seen. *)
Theorem X25_records_well_formed cfg aliases inps baseline_file alerts_file :
  let r := background_scanner cfg aliases inps (scanner_start baseline_file alerts_file) in
  Forall (λ kd, record_ok kd.1 kd.2) (device_inventory r.1) ∧
  Forall (λ snap, Forall (λ d, ∃ k, record_ok k d) (snap_devices snap)) r.2.
Proof.
  cbv zeta. apply (background_scanner_record_invariant record_ok).
  - intros. by eapply scan_host_record_ok.
  - intros k d. apply record_ok_insert; try discriminate.
    + intros _. by right.
  - intros k d. apply record_ok_insert; try discriminate.
    + intros _. exists "MEDIUM". split; [reflexivity|].
      apply list_elem_of_further, list_elem_of_here.
  - apply Forall_nil_2.
Qed.

(** ** The counters of a snapshot *)

Lemma length_inv_set k d inv :
  (length inv ≤ length (inv_set k d inv) ≤ S (length inv))%nat.
Proof.
  induction inv as [|[k' d'] inv IH]; cbn [inv_set length]; [lia|].
  case_bool_decide; cbn [length]; lia.
Qed.

Lemma scan_host_counts cfg aliases nf nh o sc new crit :
  let r := scan_host cfg aliases nf nh o (sc, (new, crit)) in
  new ≤ r.2.1 ≤ new + 1 ∧
  (length (device_inventory sc) ≤ length (device_inventory r.1)
   ≤ S (length (device_inventory sc)))%nat.
Proof.
  cbv zeta. unfold scan_host.
  destruct (host_profile cfg o (device_inventory sc)) as [[do_profile prof] vendor_final].
  destruct (build_findings_and_recs _ _ _ _) as [findings recs].
  destruct (negb (truthy _)); cbn [fst snd device_inventory];
    (split; [lia | apply length_inv_set]).
Qed.

Lemma scan_hosts_counts cfg aliases nf nh os sc new crit :
  let r := fold_left (λ st o, scan_host cfg aliases nf nh o st) os (sc, (new, crit)) in
  new ≤ r.2.1 ≤ new + Z.of_nat (length os) ∧
  (length (device_inventory sc) ≤ length (device_inventory r.1)
   ≤ length (device_inventory sc) + length os)%nat.
Proof.
  cbv zeta. revert sc new crit.
  induction os as [|o os IH]; intros sc new crit; cbn [fold_left length].
  - cbn [fst snd]. lia.
  - pose proof (scan_host_counts cfg aliases nf nh o sc new crit) as [H1 H2].
    cbv zeta in H1, H2.
    destruct (scan_host cfg aliases nf nh o (sc, (new, crit))) as [sc1 [new1 crit1]].
    cbn [fst snd] in H1, H2.
    destruct (IH sc1 new1 crit1) as [H3 H4]. split; lia.
Qed.

Lemma length_offline_sweep cfg now inv st :
  length (offline_sweep cfg now inv st).1 = length inv.
Proof.
  rewrite <- (length_fmap fst (offline_sweep cfg now inv st).1).
  rewrite offline_sweep_keys. apply length_fmap.
Qed.

(** X26: the counters of a snapshot are consistent: [seen] is the size of
    the inventory, which is never smaller than before the cycle and grows
    by at most one record for each host discovered; [new] counts at most
    the hosts discovered; and [critical] counts at most the records
    seen. *)
Theorem X26_snapshot_counts cfg aliases (inp : cycle_input) (sc : scanner) :
  let r := scan_cycle cfg aliases inp sc in
  snap_seen r.2 = Z.of_nat (length (device_inventory r.1)) ∧
  Z.of_nat (length (device_inventory sc)) ≤ snap_seen r.2
    ≤ Z.of_nat (length (device_inventory sc)) + Z.of_nat (length (hosts inp)) ∧
  0 ≤ snap_new r.2 ≤ Z.of_nat (length (hosts inp)) ∧
  0 ≤ snap_critical r.2 ≤ snap_seen r.2 ∧
  length (snap_devices r.2) = length (device_inventory r.1).
Proof.
  cbv zeta. unfold scan_cycle.
  pose proof (scan_hosts_counts cfg aliases (now_full inp) (now_hms inp) (hosts inp)
                sc 0 0) as [Hnew Hlen].
  cbv zeta in Hnew, Hlen.
  destruct (fold_left _ (hosts inp) (sc, (0, 0))) as [sc1 [new crit]].
  cbn [fst snd] in Hnew, Hlen.
  pose proof (length_offline_sweep cfg (sweep_clock inp) (device_inventory sc1)
                (baseline sc1, alerts sc1)) as Hsweep.
  destruct (offline_sweep _ _ _ _) as [inv2 [bl2 al2]].
  cbn [fst snd snap_seen snap_new snap_critical snap_devices device_inventory] in *.
  rewrite !length_sort_devices, !length_map.
  split; [reflexivity|]. split; [lia|]. split; [lia|]. split; [|reflexivity].
  split; [lia|].
  apply inj_le. etransitivity; [apply length_filter|].
  by rewrite length_sort_devices, !length_map.
Qed.

(** ** Every device is announced once *)

Lemma diff_known_no_new_device key curr prev alerts :
  of_kind "NEW_DEVICE" (diff_and_emit_events key curr (Some prev) alerts)
  = of_kind "NEW_DEVICE" alerts.
Proof. diff_unfold. of_kind_simpl. reflexivity. Qed.

Lemma scan_host_new_device cfg aliases nf nh o sc cnt :
  let r := scan_host cfg aliases nf nh o (sc, cnt) in
  (length (of_kind "NEW_DEVICE" (alerts r.1)) + size (dom (baseline sc))
   = length (of_kind "NEW_DEVICE" (alerts sc)) + size (dom (baseline r.1)))%nat.
Proof.
  cbv zeta.
  destruct (scan_host_spec cfg aliases nf nh o sc cnt)
    as (device & entry & cnt' & ports & os & Heq & _).
  rewrite Heq. cbn [fst alerts baseline].
  destruct (baseline sc !! host_key cfg o (device_inventory sc)) as [b|] eqn:Eb.
  - rewrite diff_known_no_new_device. rewrite dom_insert_L.
    replace ({[host_key cfg o (device_inventory sc)]} ∪ dom (baseline sc))
      with (dom (baseline sc)); [reflexivity|].
    apply set_eq. intros x. rewrite elem_of_union, elem_of_singleton.
    split; [tauto|]. intros [->|Hx]; [|exact Hx]. apply elem_of_dom. eauto.
  - unfold diff_and_emit_events, emit_event. rewrite of_kind_app.
    unfold of_kind at 2. rewrite filter_cons_True by reflexivity.
    rewrite length_app. cbn [length filter list_filter].
    rewrite dom_insert_L, size_union.
    + rewrite size_singleton. lia.
    + apply disjoint_singleton_l. by apply not_elem_of_dom.
Qed.

Lemma scan_hosts_new_device cfg aliases nf nh os st :
  let r := fold_left (λ st o, scan_host cfg aliases nf nh o st) os st in
  (length (of_kind "NEW_DEVICE" (alerts r.1)) + size (dom (baseline st.1))
   = length (of_kind "NEW_DEVICE" (alerts st.1)) + size (dom (baseline r.1)))%nat.
Proof.
  cbv zeta. revert st. induction os as [|o os IH]; intros [sc cnt]; cbn [fold_left].
  - reflexivity.
  - pose proof (scan_host_new_device cfg aliases nf nh o sc cnt) as H1.
    cbv zeta in H1. specialize (IH (scan_host cfg aliases nf nh o (sc, cnt))).
    cbn [fst] in *. lia.
Qed.

Lemma sweep_device_no_new_device cfg now k d (bl : gmap string (gmap string pyval)) al :
  (∃ b, bl !! k = Some b ∧ b ≠ ∅) →
  of_kind "NEW_DEVICE" (sweep_device cfg now k d (bl, al)).2.2
  = of_kind "NEW_DEVICE" al ∧
  ∀ k', (∃ b, bl !! k' = Some b ∧ b ≠ ∅) →
        ∃ b, (sweep_device cfg now k d (bl, al)).2.1 !! k' = Some b ∧ b ≠ ∅.
Proof.
  intros (b & Hb & Hne). unfold sweep_device.
  destruct (_ && _); cbn [fst snd]; [|auto].
  rewrite Hb. cbn [default]. rewrite (bool_decide_eq_false_2 _ Hne).
  split; [apply diff_known_no_new_device|].
  intros k' (b' & Hb' & Hne').
  destruct (decide (k = k')) as [<-|Hk].
  - rewrite lookup_insert_eq. eexists. split; [reflexivity|]. apply insert_non_empty.
  - rewrite lookup_insert_ne by exact Hk. eauto.
Qed.

Lemma offline_sweep_no_new_device cfg now inv (bl : gmap string (gmap string pyval)) al :
  (∀ k, k ∈ inv.*1 → ∃ b, bl !! k = Some b ∧ b ≠ ∅) →
  of_kind "NEW_DEVICE" (offline_sweep cfg now inv (bl, al)).2.2
  = of_kind "NEW_DEVICE" al.
Proof.
  revert bl al. induction inv as [|[k0 d0] inv IH]; intros bl al Hall;
    cbn [offline_sweep]; [reflexivity|].
  destruct (sweep_device_no_new_device cfg now k0 d0 bl al) as [Hal Hbl].
  { apply Hall. rewrite fmap_cons. apply list_elem_of_here. }
  destruct (sweep_device cfg now k0 d0 (bl, al)) as [d1 [bl1 al1]].
  cbn [fst snd] in Hal, Hbl.
  specialize (IH bl1 al1).
  destruct (offline_sweep cfg now inv (bl1, al1)) as [inv2 [bl2 al2]].
  cbn [fst snd] in *. rewrite IH; [exact Hal|].
  intros k Hk. apply Hbl, Hall. rewrite fmap_cons. by apply list_elem_of_further.
Qed.

Lemma scan_cycle_new_device cfg aliases inp sc :
  synced (device_inventory sc) (baseline sc) →
  Forall (λ kd, quarantined_critical kd.2) (device_inventory sc) →
  let r := scan_cycle cfg aliases inp sc in
  (length (of_kind "NEW_DEVICE" (alerts r.1)) + size (dom (baseline sc))
   = length (of_kind "NEW_DEVICE" (alerts sc)) + size (dom (baseline r.1)))%nat.
Proof.
  intros Hs Hq. cbv zeta. unfold scan_cycle.
  pose proof (scan_hosts_invariants cfg aliases (now_full inp) (now_hms inp)
                (hosts inp) (sc, (0, 0)) Hs Hq) as [Hs1 _].
  pose proof (scan_hosts_new_device cfg aliases (now_full inp) (now_hms inp)
                (hosts inp) (sc, (0, 0))) as Hn1.
  cbv zeta in Hs1, Hn1.
  destruct (fold_left _ (hosts inp) (sc, (0, 0))) as [sc1 [new crit]].
  cbn [fst] in Hs1, Hn1.
  pose proof (offline_sweep_no_new_device cfg (sweep_clock inp) (device_inventory sc1)
                (baseline sc1) (alerts sc1)) as Hn2.
  pose proof (offline_sweep_grows cfg (sweep_clock inp) (device_inventory sc1)
                (baseline sc1) (alerts sc1)) as [_ Hdom].
  cbv zeta in Hdom.
  destruct (offline_sweep _ _ _ _) as [inv2 [bl2 al2]].
  cbn [fst snd alerts baseline] in *.
  rewrite Hn2, Hdom; [exact Hn1|].
  intros k Hk. apply list_elem_of_fmap in Hk as ([k' d] & -> & Hin).
  destruct Hs1 as [_ Hsync]. destruct (Hsync _ _ Hin) as (b & Hb & Hne & _). eauto.
Qed.

Lemma background_scanner_new_device cfg aliases inps sc :
  synced (device_inventory sc) (baseline sc) →
  Forall (λ kd, quarantined_critical kd.2) (device_inventory sc) →
  let r := background_scanner cfg aliases inps sc in
  (length (of_kind "NEW_DEVICE" (alerts r.1)) + size (dom (baseline sc))
   = length (of_kind "NEW_DEVICE" (alerts sc)) + size (dom (baseline r.1)))%nat.
Proof.
  cbv zeta. revert sc.
  induction inps as [|inp inps IH]; intros sc Hs Hq; cbn [background_scanner].
  - reflexivity.
  - destruct (scan_cycle_invariants cfg aliases inp sc Hs Hq) as (Hs1 & Hq1 & _).
    pose proof (scan_cycle_new_device cfg aliases inp sc Hs Hq) as Hn.
    cbv zeta in Hn.
    destruct (scan_cycle cfg aliases inp sc) as [sc1 snap]. cbn [fst snd] in *.
    specialize (IH sc1 Hs1 Hq1).
    destruct (background_scanner cfg aliases inps sc1) as [sc2 snaps].
    cbn [fst snd] in *. lia.
Qed.

(** X27: every device is announced once.  Over any run of the scanner,
    the number of NEW_DEVICE events written to the alerts file is the
    number of keys added to the baseline: a host whose key has no baseline
    entry gets one NEW_DEVICE event when it is first seen, and no later
    scan and no offline detection announces it again. *)
Theorem X27_new_device_once cfg aliases inps baseline_file alerts_file :
  let r := background_scanner cfg aliases inps (scanner_start baseline_file alerts_file) in
  (length (of_kind "NEW_DEVICE" (alerts r.1)) + size (dom baseline_file)
   = length (of_kind "NEW_DEVICE" alerts_file) + size (dom (baseline r.1)))%nat.
Proof.
  destruct (scanner_start_invariants baseline_file alerts_file) as [Hs Hq].
  exact (background_scanner_new_device cfg aliases inps
           (scanner_start baseline_file alerts_file) Hs Hq).
Qed.

(** ** The events a run writes *)

Lemma scanner_event_intro k sev t d :
  bool_decide (k ∈ "NEW_DEVICE" :: diff_kinds) = true →
  bool_decide (sev ∈ ["INFO"; "LOW"; "MEDIUM"; "CRITICAL"]) = true →
  scanner_event (mk_event k (VStr sev) t d).
Proof.
  intros Hk Hs. apply bool_decide_eq_true in Hk, Hs. split; [exact Hk|].
  cbn [severity].
  replace [VStr "INFO"; VStr "LOW"; VStr "MEDIUM"; VStr "CRITICAL"]
    with (VStr <$> ["INFO"; "LOW"; "MEDIUM"; "CRITICAL"]) by reflexivity.
  apply list_elem_of_fmap. eauto.
Qed.

Lemma Forall_scanner_event_when (c : bool) e :
  scanner_event e → Forall scanner_event (if c then [e] else []).
Proof.
  intros He. destruct c; [|apply Forall_nil_2].
  apply Forall_cons_2; [exact He | apply Forall_nil_2].
Qed.

(** The diff engine writes events of the scanner's vocabulary, provided
    the risk of a device without baseline entry is one of the levels. *)
Lemma diff_scanner_events key curr prev alerts :
  (prev = None →
   ∃ risk, get_or curr "risk" (VStr "INFO") = VStr risk ∧
           risk ∈ ["LOW"; "MEDIUM"; "CRITICAL"]) →
  ∃ evs, diff_and_emit_events key curr prev alerts = alerts ++ evs ∧
         Forall scanner_event evs.
Proof.
  intros Hrisk. rewrite diff_and_emit_events_app. eexists. split; [reflexivity|].
  destruct prev as [prev|].
  - unfold diff_and_emit_events. cbv zeta. rewrite !when_emit_event.
    cbn [app]. repeat apply Forall_app_2;
      try (apply Forall_scanner_event_when;
           repeat match goal with
                  | |- context [if ?b then _ else _] => destruct b
                  end;
           apply scanner_event_intro; reflexivity).
  - destruct (Hrisk eq_refl) as (risk & Hr & Hin).
    unfold diff_and_emit_events, emit_event. rewrite Hr. cbn [app].
    apply Forall_cons_2; [|apply Forall_nil_2]. split; cbn [kind severity].
    + apply list_elem_of_here.
    + apply list_elem_of_further.
      replace [VStr "LOW"; VStr "MEDIUM"; VStr "CRITICAL"]
        with (VStr <$> ["LOW"; "MEDIUM"; "CRITICAL"]) by reflexivity.
      apply list_elem_of_fmap. eauto.
Qed.

Lemma get_get_or (d : gmap string pyval) k v dflt :
  get d k = v → v ≠ VNone → get_or d k dflt = v.
Proof.
  unfold get, get_or. destruct (d !! k); cbn; [auto|]. intros <-. done.
Qed.

Lemma scan_host_scanner_events cfg aliases nf nh o sc cnt :
  ∃ evs, alerts (scan_host cfg aliases nf nh o (sc, cnt)).1 = alerts sc ++ evs ∧
         Forall scanner_event evs.
Proof.
  destruct (scan_host_spec cfg aliases nf nh o sc cnt)
    as (device & entry & cnt' & ports & os & Heq & _ & _ & _ & _ & _ & _ & Hrisk).
  rewrite Heq. cbn [fst alerts]. apply diff_scanner_events.
  intros _. eexists. split; [|apply compute_risk_levels].
  apply get_get_or; [exact Hrisk | discriminate].
Qed.

Lemma sweep_device_scanner_events cfg now k d bl al :
  ∃ evs, (sweep_device cfg now k d (bl, al)).2.2 = al ++ evs ∧
         Forall scanner_event evs.
Proof.
  unfold sweep_device. destruct (_ && _); cbn [fst snd].
  - apply diff_scanner_events. case_bool_decide as He; [|discriminate].
    intros _. exists "MEDIUM". rewrite He. split; [reflexivity|].
    apply list_elem_of_further, list_elem_of_here.
  - exists []. by rewrite app_nil_r.
Qed.

Lemma offline_sweep_scanner_events cfg now inv bl al :
  ∃ evs, (offline_sweep cfg now inv (bl, al)).2.2 = al ++ evs ∧
         Forall scanner_event evs.
Proof.
  revert bl al. induction inv as [|[k0 d0] inv IH]; intros bl al; cbn [offline_sweep].
  - exists []. by rewrite app_nil_r.
  - destruct (sweep_device_scanner_events cfg now k0 d0 bl al) as (evs1 & H1 & Hf1).
    destruct (sweep_device cfg now k0 d0 (bl, al)) as [d1 [bl1 al1]].
    cbn [fst snd] in H1. destruct (IH bl1 al1) as (evs2 & H2 & Hf2).
    destruct (offline_sweep cfg now inv (bl1, al1)) as [inv2 [bl2 al2]].
    cbn [fst snd] in *. exists (evs1 ++ evs2).
    split; [by rewrite H2, H1, app_assoc | by apply Forall_app_2].
Qed.

Lemma scan_hosts_scanner_events cfg aliases nf nh os st :
  ∃ evs,
    alerts (fold_left (λ st o, scan_host cfg aliases nf nh o st) os st).1
    = alerts st.1 ++ evs ∧ Forall scanner_event evs.
Proof.
  revert st. induction os as [|o os IH]; intros [sc cnt]; cbn [fold_left].
  - exists []. by rewrite app_nil_r.
  - destruct (scan_host_scanner_events cfg aliases nf nh o sc cnt) as (evs1 & H1 & Hf1).
    destruct (IH (scan_host cfg aliases nf nh o (sc, cnt))) as (evs2 & H2 & Hf2).
    exists (evs1 ++ evs2). cbn [fst] in *.
    split; [by rewrite H2, H1, app_assoc | by apply Forall_app_2].
Qed.

Lemma scan_cycle_scanner_events cfg aliases inp sc :
  ∃ evs, alerts (scan_cycle cfg aliases inp sc).1 = alerts sc ++ evs ∧
         Forall scanner_event evs.
Proof.
  unfold scan_cycle.
  destruct (scan_hosts_scanner_events cfg aliases (now_full inp) (now_hms inp)
              (hosts inp) (sc, (0, 0))) as (evs1 & H1 & Hf1).
  destruct (fold_left _ (hosts inp) (sc, (0, 0))) as [sc1 [new crit]].
  cbn [fst] in H1.
  destruct (offline_sweep_scanner_events cfg (sweep_clock inp) (device_inventory sc1)
              (baseline sc1) (alerts sc1)) as (evs2 & H2 & Hf2).
  destruct (offline_sweep _ _ _ _) as [inv2 [bl2 al2]].
  cbn [fst snd alerts] in *. exists (evs1 ++ evs2).
  split; [by rewrite H2, H1, app_assoc | by apply Forall_app_2].
Qed.

(** X28: over any run of the scanner, from any state, the events added to
    the alerts file are of the seven kinds of the diff engine (NEW_DEVICE
    and the six changes) and carry one of the severities INFO, LOW, MEDIUM
    and CRITICAL (LOW being the risk of a new device, which is the
    severity of its NEW_DEVICE event). *)
Theorem X28_scanner_events cfg aliases inps sc :
  ∃ evs, alerts (background_scanner cfg aliases inps sc).1 = alerts sc ++ evs ∧
         Forall scanner_event evs.
Proof.
  revert sc. induction inps as [|inp inps IH]; intros sc; cbn [background_scanner].
  - exists []. by rewrite app_nil_r.
  - destruct (scan_cycle_scanner_events cfg aliases inp sc) as (evs1 & H1 & Hf1).
    destruct (scan_cycle cfg aliases inp sc) as [sc1 snap]. cbn [fst] in H1.
    destruct (IH sc1) as (evs2 & H2 & Hf2).
    destruct (background_scanner cfg aliases inps sc1) as [sc2 snaps].
    cbn [fst] in *. exists (evs1 ++ evs2).
    split; [by rewrite H2, H1, app_assoc | by apply Forall_app_2].
Qed.

(** A new device of low risk is announced with the severity LOW. *)
Example new_device_severity_low :
  (λ e, (kind e, severity e)) <$>
    alerts (scan_host example_cfg ∅ "2024-01-01 10:00:00" "10:00:00"
              (example_host_mac 1000 ∅) (scanner_start ∅ [], (0, 0))).1
  = [("NEW_DEVICE", VStr "LOW")].
Proof. vm_compute. reflexivity. Qed.
